(** * LogTypesDashboard: the client-side cache, rate limiter and refresh logic

    A shallow embedding of the [LogTypesDashboard] class of the ai-ops
    front end.  The class exists in two variants:

    - [V1]       : [ai_opsv1/static/js/log-types.js] (Bootstrap page);
    - [Tailwind] : the Tailwind CSS page with the same class name.

    JavaScript values are embedded as the inductive type [JsVal]; the
    object fields of a dashboard instance together with the browser
    state it touches ([localStorage], DOM notices, pending timers,
    issued network requests) form the record [Dashboard].  [Date.now()]
    is an explicit argument of every function that reads the clock.

    An [async] method is split at its [await]: the part that runs at once
    ([loadData_begin]) and the part that runs when the request has settled
    ([loadData_resume]).  The event loop [step] runs one callback at a
    time, so other callbacks can run between the two parts.

    The page is assumed to have the elements the class looks up by id
    ([#summaryCards], [.container-fluid]); [console] output has no place in
    the state. *)

From Stdlib Require Import ZArith List String Ascii Bool Lia.
From Stdlib Require Import DecimalString.
From Stdlib Require Import Sorted Permutation.
From Stdlib Require SpecFloat.
From stdpp Require Import base gmap strings.

Import ListNotations.
#[local] Set Warnings "-register-all".
#[local] Set Warnings "-automation".
#[local] Set Warnings "-default".
Local Open Scope Z_scope.

(** ** JavaScript values *)

(** JSON-shaped values.  The number of a JSON value is an integer, and
    sums and differences of integers are exact, as they are for doubles
    below 2^53 in size; a quotient or the value of a numeric string is a
    double ([Num] below).  An object is the list of its own properties in
    insertion order, looked up by first match. *)
Inductive JsVal : Type :=
| JUndefined
| JNull
| JBool (b : bool)
| JNum (n : Z)
| JStr (s : string)
| JArr (xs : list JsVal)
| JObj (fields : list (string * JsVal)).

(** ToBoolean. *)
Definition truthy (v : JsVal) : bool :=
  match v with
  | JUndefined | JNull => false
  | JBool b => b
  | JNum n => negb (n =? 0)
  | JStr s => negb (String.eqb s "")
  | JArr _ | JObj _ => true
  end.

(** [a || b]. *)
Definition js_or (a b : JsVal) : JsVal := if truthy a then a else b.

(** [v == null]. *)
Definition nullish (v : JsVal) : bool :=
  match v with
  | JUndefined | JNull => true
  | _ => false
  end.

Fixpoint assoc (k : string) (fs : list (string * JsVal)) : JsVal :=
  match fs with
  | [] => JUndefined
  | (k', v) :: fs' => if String.eqb k k' then v else assoc k fs'
  end.

Fixpoint has_key (k : string) (fs : list (string * JsVal)) : bool :=
  match fs with
  | [] => false
  | (k', _) :: fs' => String.eqb k k' || has_key k fs'
  end.

(** ToPrimitive raises a TypeError on an object that has a property
    [toString] of its own: a value that came as JSON is never callable,
    and the inherited [valueOf] returns the object itself.  An array is
    converted by [join], which converts every element other than [null]
    and [undefined]. *)
Fixpoint to_primitive_raises (v : JsVal) : bool :=
  match v with
  | JObj fs => has_key "toString" fs
  | JArr xs =>
      existsb (fun x => negb (nullish x) && to_primitive_raises x) xs
  | _ => false
  end.

(** ** Exceptions *)

Inductive res (A : Type) : Type :=
| Ok (a : A)
| Throw (msg : string).
Arguments Ok {A} a.
Arguments Throw {A} msg.

#[global] Instance res_ret : MRet res := fun _ a => Ok a.
#[global] Instance res_bind : MBind res := fun _ _ k m =>
  match m with
  | Ok a => k a
  | Throw e => Throw e
  end.

#[global] Instance res_fmap : FMap res := fun _ _ f m =>
  match m with
  | Ok a => Ok (f a)
  | Throw e => Throw e
  end.

(** [try { body } catch (e) { handler(e) }]: the handler may raise in its
    turn. *)
Definition try_catch {A} (body : res A) (handler : string -> res A) : res A :=
  match body with
  | Ok a => Ok a
  | Throw e => handler e
  end.

(** [v.k] : a TypeError on [null] and [undefined]; own property lookup on
    an object; [undefined] on every other value (none of the names read
    by the dashboard is a built-in property of a string, number, boolean
    or array). *)
Definition prop (v : JsVal) (k : string) : res JsVal :=
  match v with
  | JUndefined | JNull => Throw "TypeError"
  | JObj fs => Ok (assoc k fs)
  | _ => Ok JUndefined
  end.

(** The same read where the receiver is known not to be nullish. *)
Definition field (v : JsVal) (k : string) : JsVal :=
  match v with
  | JObj fs => assoc k fs
  | _ => JUndefined
  end.

(** ** Strings: [String(v)] and [replace(/c/g, r)] *)

Definition Z_to_string (n : Z) : string :=
  NilZero.string_of_int (Z.to_int n).

Fixpoint join (sep : string) (parts : list string) : string :=
  match parts with
  | [] => ""
  | [p] => p
  | p :: rest => p +:+ sep +:+ join sep rest
  end.

(** [String(v)]. *)
Fixpoint js_String (v : JsVal) : string :=
  match v with
  | JUndefined => "undefined"
  | JNull => "null"
  | JBool true => "true"
  | JBool false => "false"
  | JNum n => Z_to_string n
  | JStr s => s
  | JArr xs =>
      join "," (map (fun x => if nullish x then "" else js_String x) xs)
  | JObj _ => "[object Object]"
  end.

(** [s.replace(/c/g, r)] for a one-character pattern [c]. *)
Fixpoint replace_all (c : ascii) (r : string) (s : string) : string :=
  match s with
  | EmptyString => EmptyString
  | String x s' =>
      if Ascii.eqb x c then r +:+ replace_all c r s'
      else String x (replace_all c r s')
  end.

(** [escapeHtml] of [V1] (log-types.js), for a value that [String(str)]
    converts; where it raises is told by [to_primitive_raises]. *)
Definition escapeHtml (str : JsVal) : string :=
  if nullish str then ""
  else
    replace_all "'" "&#39;"
      (replace_all "034" "&quot;"
         (replace_all ">" "&gt;"
            (replace_all "<" "&lt;"
               (replace_all "&" "&amp;" (js_String str))))).

(** *** Reference notions for the escaping claims *)

(** Character-wise substitution: every character [x] becomes [f x]. *)
Fixpoint subst_chars (f : ascii -> string) (s : string) : string :=
  match s with
  | EmptyString => EmptyString
  | String x s' => f x +:+ subst_chars f s'
  end.

(** The HTML entity of a character, or the character itself. *)
Definition entity (c : ascii) : string :=
  if Ascii.eqb c "&" then "&amp;"
  else if Ascii.eqb c "<" then "&lt;"
  else if Ascii.eqb c ">" then "&gt;"
  else if Ascii.eqb c "034" then "&quot;"
  else if Ascii.eqb c "'" then "&#39;"
  else String c "".

Definition special (c : ascii) : bool :=
  Ascii.eqb c "&" || Ascii.eqb c "<" || Ascii.eqb c ">"
  || Ascii.eqb c "034" || Ascii.eqb c "'".

(** A string is escaped when it splits into plain characters and the five
    entities: no markup character stands on its own. *)
Inductive Escaped : string -> Prop :=
| Escaped_nil : Escaped ""
| Escaped_plain c s : special c = false -> Escaped s -> Escaped (String c s)
| Escaped_amp s : Escaped s -> Escaped ("&amp;" +:+ s)
| Escaped_lt s : Escaped s -> Escaped ("&lt;" +:+ s)
| Escaped_gt s : Escaped s -> Escaped ("&gt;" +:+ s)
| Escaped_quot s : Escaped s -> Escaped ("&quot;" +:+ s)
| Escaped_apos s : Escaped s -> Escaped ("&#39;" +:+ s).

(** [occurs c s]: the character [c] occurs in [s]. *)
Fixpoint occurs (c : ascii) (s : string) : bool :=
  match s with
  | EmptyString => false
  | String x s' => Ascii.eqb x c || occurs c s'
  end.

(** ** Numbers that need not be integers: IEEE 754 doubles

    A division, or the conversion of a numeric string, gives a double:
    NaN, an infinity, or [m * 2^e].  Negative zero is not told apart from
    zero (nothing on the page divides by a computed zero or prints the
    sign of one). *)
Inductive Num : Type :=
| NaN
| Infinity (negative : bool)
| Double (m e : Z).

(** [2^k] for [0 <= k], and 1 otherwise: the rational [m * 2^e] is
    [m * pow2 e / pow2 (- e)]. *)
Definition pow2 (k : Z) : Z := 2 ^ Z.max 0 k.

(** floor (log2 (a / q)) for positive [a] and [q]. *)
Definition quotient_log2 (a q : Z) : Z :=
  let k := Z.log2 a - Z.log2 q in
  if a * pow2 (- k) <? q * pow2 k then k - 1 else k.

(** The integer nearest to [num / den], the even one on a tie. *)
Definition nearest_even (num den : Z) : Z :=
  let m := num / den in
  let r := num mod den in
  if (den <? 2 * r) || ((2 * r =? den) && Z.odd m) then m + 1 else m.

Definition overflow_bound : Z := 2 ^ 1024.

(** The double nearest to [a / q] for positive [a] and [q]: 53 significant
    bits, the exponent of the last bit no lower than -1074, ties to even,
    infinity from 2^1024 on. *)
Definition round_double (a q : Z) : Num :=
  let e := Z.max (quotient_log2 a q - 52) (- 1074) in
  let m := nearest_even (a * pow2 (- e)) (q * pow2 e) in
  if overflow_bound <=? m * pow2 e then Infinity false else Double m e.

Definition num_opp (x : Num) : Num :=
  match x with
  | NaN => NaN
  | Infinity s => Infinity (negb s)
  | Double m e => Double (- m) e
  end.

(** The double nearest to [p / q], for [0 < q]. *)
Definition nearest_double (p q : Z) : Num :=
  match p with
  | Z0 => Double 0 0
  | Zpos _ => round_double p q
  | Zneg _ => num_opp (round_double (- p) q)
  end.

(** [x * k] for an integer [k]. *)
Definition num_times (x : Num) (k : Z) : Num :=
  match x with
  | NaN => NaN
  | Infinity s => if k =? 0 then NaN else Infinity (xorb s (k <? 0))
  | Double m e => nearest_double (m * k * pow2 e) (pow2 (- e))
  end.

(** [x.toFixed(1)]: the number of tenths nearest to [|x|], the larger one
    on a tie, printed with the sign of [x].  From 10^21 on [toFixed] prints
    in exponent notation, which is left out ([None]). *)
Definition toFixed1 (x : Num) : option string :=
  match x with
  | NaN => Some "NaN"
  | Infinity s => Some (if s then "-Infinity" else "Infinity")
  | Double m e =>
      let a := Z.abs m in
      if 10 ^ 21 * pow2 (- e) <=? a * pow2 e then None
      else
        let n := (2 * (10 * a * pow2 e) + pow2 (- e)) / (2 * pow2 (- e)) in
        Some ((if m <? 0 then "-" else "")
                +:+ Z_to_string (n / 10) +:+ "." +:+ Z_to_string (n mod 10))
  end.

(** ** [getPercentage] (Tailwind page) *)

(** [Object.values(obj).reduce((sum, val) => sum + val, 0)] over a mapping
    whose values are counts. *)
Definition total_of (obj : list (string * Z)) : Z :=
  fold_left (fun sum kv => sum + snd kv) obj 0.

(** [total > 0 ? ((value / total) * 100).toFixed(1) : 0]: a string in the
    first case, the number 0 in the second.  The quotient and the product
    are each rounded to a double; [None] where [toFixed1] is. *)
Definition getPercentage (value : Z) (obj : list (string * Z))
    : option JsVal :=
  let total := total_of obj in
  if 0 <? total
  then option_map JStr (toFixed1 (num_times (nearest_double value total) 100))
  else Some (JNum 0).

(** *** Reference notions for the doubles *)

(** The same double in the Standard Library's specification of IEEE 754
    arithmetic. *)
Definition to_spec (x : Num) : SpecFloat.spec_float :=
  match x with
  | NaN => SpecFloat.S754_nan
  | Infinity s => SpecFloat.S754_infinity s
  | Double Z0 _ => SpecFloat.S754_zero false
  | Double (Zpos m) e => SpecFloat.S754_finite false m e
  | Double (Zneg m) e => SpecFloat.S754_finite true m e
  end.

(** A binary64 number of that specification: an integer, a quotient and a
    product. *)
Definition binary64_of_Z (z : Z) : SpecFloat.spec_float :=
  SpecFloat.binary_normalize 53 1024 z 0 false.

Definition binary64_div (a b : Z) : SpecFloat.spec_float :=
  SpecFloat.SFdiv 53 1024 (binary64_of_Z a) (binary64_of_Z b).

Definition binary64_percentage (a b : Z) : SpecFloat.spec_float :=
  SpecFloat.SFmul 53 1024 (binary64_div a b) (binary64_of_Z 100).

(** ** Numbers, JSON and the default-filled snapshot *)

(** *** ToNumber *)

(** The bytes of a string (UTF-8). *)
Definition bytes_of (s : string) : list Z :=
  map (fun c => Z.of_N (N_of_ascii c)) (list_ascii_of_string s).

Definition is_digit (c : Z) : bool := (48 <=? c) && (c <=? 57).

(** White space and line terminators: U+0009 to U+000D and U+0020; U+00A0;
    U+1680, U+2000 to U+200A, U+2028, U+2029, U+202F, U+205F, U+3000 and
    U+FEFF. *)
Definition space1 (c : Z) : bool := ((9 <=? c) && (c <=? 13)) || (c =? 32).

Definition space2 (c1 c2 : Z) : bool := (c1 =? 194) && (c2 =? 160).

Definition space3 (c1 c2 c3 : Z) : bool :=
  ((c1 =? 225) && (c2 =? 154) && (c3 =? 128))
  || ((c1 =? 226) && (c2 =? 128)
      && (((128 <=? c3) && (c3 <=? 138))
          || (c3 =? 168) || (c3 =? 169) || (c3 =? 175)))
  || ((c1 =? 226) && (c2 =? 129) && (c3 =? 159))
  || ((c1 =? 227) && (c2 =? 128) && (c3 =? 128))
  || ((c1 =? 239) && (c2 =? 187) && (c3 =? 191)).

(** Dropping the white space at the front of a list of bytes; with
    [backwards], of a list of bytes in reverse order. *)
Fixpoint skip_space (backwards : bool) (l : list Z) : list Z :=
  match l with
  | c1 :: l1 =>
      if space1 c1 then skip_space backwards l1
      else
        match l1 with
        | c2 :: l2 =>
            if (if backwards then space2 c2 c1 else space2 c1 c2)
            then skip_space backwards l2
            else
              match l2 with
              | c3 :: l3 =>
                  if (if backwards then space3 c3 c2 c1 else space3 c1 c2 c3)
                  then skip_space backwards l3
                  else l
              | [] => l
              end
        | [] => l
        end
  | [] => []
  end.

Definition trim (l : list Z) : list Z :=
  rev (skip_space true (rev (skip_space false l))).

(** The decimal digits at the front of a list, and what follows them. *)
Fixpoint digits_span (l : list Z) : list Z * list Z :=
  match l with
  | c :: l' =>
      if is_digit c
      then let '(ds, rest) := digits_span l' in (c - 48 :: ds, rest)
      else ([], l)
  | [] => ([], [])
  end.

Definition digits_value (base : Z) (ds : list Z) : Z :=
  fold_left (fun acc d => base * acc + d) ds 0.

Definition radix_digit (base c : Z) : option Z :=
  let d := if is_digit c then c - 48
           else if (97 <=? c) && (c <=? 102) then c - 87
           else if (65 <=? c) && (c <=? 70) then c - 55
           else 16 in
  if d <? base then Some d else None.

Fixpoint radix_digits (base : Z) (l : list Z) : option (list Z) :=
  match l with
  | [] => Some []
  | c :: l' =>
      match radix_digit base c, radix_digits base l' with
      | Some d, Some ds => Some (d :: ds)
      | _, _ => None
      end
  end.

(** The digits after [0x], [0o] or [0b]. *)
Definition radix_literal (base : Z) (l : list Z) : Num :=
  match l, radix_digits base l with
  | _ :: _, Some ds => nearest_double (digits_value base ds) 1
  | _, _ => NaN
  end.

Definition is_nil (l : list Z) : bool :=
  match l with
  | [] => true
  | _ => false
  end.

Fixpoint same_bytes (l l' : list Z) : bool :=
  match l, l' with
  | [] , [] => true
  | c :: r, c' :: r' => (c =? c') && same_bytes r r'
  | _, _ => false
  end.

Definition signed (l : list Z) : bool * list Z :=
  match l with
  | 43 :: r => (false, r)
  | 45 :: r => (true, r)
  | _ => (false, l)
  end.

(** The exponent part: nothing, or [e] or [E], an optional sign and at
    least one digit, up to the end. *)
Definition exponent_part (l : list Z) : option Z :=
  match l with
  | [] => Some 0
  | c :: r =>
      if (c =? 101) || (c =? 69) then
        let '(negative, r0) := signed r in
        let '(ds, rest) := digits_span r0 in
        if is_nil ds || negb (is_nil rest) then None
        else Some (if negative then - digits_value 10 ds
                   else digits_value 10 ds)
      else None
  end.

(** A decimal literal: an optional sign, then [Infinity] or digits with
    an optional fraction and exponent; the double nearest to its value. *)
Definition decimal_literal (l : list Z) : Num :=
  let '(negative, l0) := signed l in
  if same_bytes l0 (bytes_of "Infinity") then Infinity negative
  else
    let '(int_part, l1) := digits_span l0 in
    let '(frac_part, l2) := match l1 with
                            | 46 :: r => digits_span r
                            | _ => ([], l1)
                            end in
    if is_nil int_part && is_nil frac_part then NaN
    else
      match exponent_part l2 with
      | None => NaN
      | Some ex =>
          let e10 := ex - Z.of_nat (length frac_part) in
          let x := nearest_double
                     (digits_value 10 (int_part ++ frac_part)
                      * 10 ^ Z.max 0 e10)
                     (10 ^ Z.max 0 (- e10)) in
          if negative then num_opp x else x
      end.

(** StringToNumber: white space around a numeric literal; the empty
    string is 0, anything that is no literal is NaN. *)
Definition string_to_number (s : string) : Num :=
  match trim (bytes_of s) with
  | [] => Double 0 0
  | (48 :: c :: r) as l =>
      if (c =? 120) || (c =? 88) then radix_literal 16 r
      else if (c =? 111) || (c =? 79) then radix_literal 8 r
      else if (c =? 98) || (c =? 66) then radix_literal 2 r
      else decimal_literal l
  | l => decimal_literal l
  end.

(** ToNumber.  An array or object goes through ToPrimitive, which may
    raise, and then through its string form. *)
Definition to_number (v : JsVal) : res Num :=
  match v with
  | JUndefined => Ok NaN
  | JNull => Ok (Double 0 0)
  | JBool b => Ok (Double (if b then 1 else 0) 0)
  | JNum n => Ok (Double n 0)
  | JStr s => Ok (string_to_number s)
  | JArr _ | JObj _ =>
      if to_primitive_raises v then Throw "TypeError"
      else Ok (string_to_number (js_String v))
  end.

(** The integer a double is, when it is one. *)
Definition as_integer (x : Num) : option Z :=
  match x with
  | Double m e =>
      if 0 <=? e then Some (m * 2 ^ e)
      else if m mod 2 ^ (- e) =? 0 then Some (m / 2 ^ (- e))
      else None
  | _ => None
  end.

(** [now - x] for a clock reading [now]: the integer difference when [x]
    is an integer, the nearest double otherwise. *)
Definition clock_minus (now : Z) (x : Num) : Num :=
  match x with
  | NaN => NaN
  | Infinity s => Infinity (negb s)
  | Double m e =>
      match as_integer x with
      | Some t => Double (now - t) 0
      | None => nearest_double (now * pow2 (- e) - m) (pow2 (- e))
      end
  end.

(** [x < k] and [k < x] for an integer [k]; false on NaN. *)
Definition num_lt (x : Num) (k : Z) : bool :=
  match x with
  | NaN => false
  | Infinity s => s
  | Double m e => m * pow2 e <? k * pow2 (- e)
  end.

Definition num_gt (x : Num) (k : Z) : bool :=
  match x with
  | NaN => false
  | Infinity s => negb s
  | Double m e => k * pow2 (- e) <? m * pow2 e
  end.

(** [now - ts < ttl]: raises when [ts] cannot be converted. *)
Definition elapsed_lt (now : Z) (ts : JsVal) (ttl : Z) : res bool :=
  x ← to_number ts; Ok (num_lt (clock_minus now x) ttl).

(** [typeof v === 'object'] *)
Definition typeof_object (v : JsVal) : bool :=
  match v with
  | JNull | JArr _ | JObj _ => true
  | _ => false
  end.

(** What [JSON.parse(JSON.stringify(v))] gives back for a value embedded in
    an object or array: a property whose value is [undefined] is dropped,
    an [undefined] array element becomes [null]. *)
Fixpoint json_clone (v : JsVal) : JsVal :=
  match v with
  | JArr xs =>
      JArr (map (fun x => match x with
                          | JUndefined => JNull
                          | _ => json_clone x
                          end) xs)
  | JObj fs =>
      JObj ((fix props (fs : list (string * JsVal)) : list (string * JsVal) :=
               match fs with
               | [] => []
               | (k, JUndefined) :: fs' => props fs'
               | (k, x) :: fs' => (k, json_clone x) :: props fs'
               end) fs)
  | _ => v
  end.

(** The fields every snapshot carries, with their defaults. *)
Definition time_range_default : string := "最近1分钟".

Definition normalize (raw : JsVal) : JsVal :=
  JObj
    [ ("total_logs", js_or (field raw "total_logs") (JNum 0));
      ("cleaned_logs_count", js_or (field raw "cleaned_logs_count") (JNum 0));
      ("time_range", js_or (field raw "time_range") (JStr time_range_default));
      ("processing_status", js_or (field raw "processing_status") (JStr "unknown"));
      ("business_modules", js_or (field raw "business_modules") (JObj []));
      ("error_categories", js_or (field raw "error_categories") (JObj []));
      ("error_types", js_or (field raw "error_types") (JObj []));
      ("severity_distribution", js_or (field raw "severity_distribution") (JObj []));
      ("recent_errors", js_or (field raw "recent_errors") (JArr []));
      ("cleaning_summary", js_or (field raw "cleaning_summary") (JObj [])) ].

(** The snapshot set by the [catch] branch of [loadData] when nothing can
    be shown. *)
Definition default_data : JsVal :=
  JObj
    [ ("total_logs", JNum 0);
      ("cleaned_logs_count", JNum 0);
      ("time_range", JStr time_range_default);
      ("processing_status", JStr "error");
      ("business_modules", JObj []);
      ("error_categories", JObj []);
      ("error_types", JObj []);
      ("severity_distribution", JObj []);
      ("recent_errors", JArr []);
      ("cleaning_summary", JObj []) ].

(** ** The dashboard instance and the browser state it touches *)

(** An item of [localStorage] as [JSON.parse] sees it: the empty string, a
    string that is not JSON text, or the JSON text of a value. *)
Inductive Stored : Type :=
| StoredEmpty
| StoredGarbage
| StoredJson (v : JsVal).

(** An entry of the in-memory [Map]: [{ data, timestamp }]. *)
Record CacheEntry : Type := { ce_data : JsVal; ce_timestamp : Z }.

(** The [#summaryCards] element: as the page delivers it, holding the error
    box written by the Tailwind [showError], or holding the cards of a
    snapshot. *)
Inductive Panel : Type :=
| PanelBlank
| PanelError (message : string)
| PanelCards (snapshot : JsVal).

(** A request awaiting its response inside [loadData]: the [now] and the
    [cacheKey] captured before the [await]. *)
Record Pending : Type := { p_now : Z; p_key : string }.

Record Dashboard : Type := {
  (* fields of the instance *)
  cache : gmap string CacheEntry;
  lastRequestTime : Z;
  data : JsVal;
  (* the page *)
  timeRange : string;            (* value of #timeRange; empty when unset *)
  alerts : list string;          (* alert boxes put on top of .container-fluid *)
  summaryCards : Panel;
  (* the browser *)
  localStorage : gmap string Stored;
  getItemFails : bool;           (* storage access raises *)
  setItemFails : bool;           (* writes raise, as when the quota is used up *)
  timers : nat;                  (* queued setTimeout(() => refreshData(), 0) *)
  inflight : list Pending;       (* requests not yet settled, oldest first *)
  requests : list Z              (* clock readings of the requests sent, latest first *)
}.

Definition cacheTimeout : Z := 30000.
Definition minRequestInterval : Z := 5000.
Definition localCacheTTL : Z := 60000.

Definition set_cache (m : gmap string CacheEntry) (d : Dashboard) : Dashboard :=
  {| cache := m; lastRequestTime := lastRequestTime d; data := data d;
     timeRange := timeRange d; alerts := alerts d; summaryCards := summaryCards d;
     localStorage := localStorage d; getItemFails := getItemFails d;
     setItemFails := setItemFails d; timers := timers d;
     inflight := inflight d; requests := requests d |}.

Definition set_lastRequestTime (t : Z) (d : Dashboard) : Dashboard :=
  {| cache := cache d; lastRequestTime := t; data := data d;
     timeRange := timeRange d; alerts := alerts d; summaryCards := summaryCards d;
     localStorage := localStorage d; getItemFails := getItemFails d;
     setItemFails := setItemFails d; timers := timers d;
     inflight := inflight d; requests := requests d |}.

Definition set_data (v : JsVal) (d : Dashboard) : Dashboard :=
  {| cache := cache d; lastRequestTime := lastRequestTime d; data := v;
     timeRange := timeRange d; alerts := alerts d; summaryCards := summaryCards d;
     localStorage := localStorage d; getItemFails := getItemFails d;
     setItemFails := setItemFails d; timers := timers d;
     inflight := inflight d; requests := requests d |}.

Definition set_alerts (a : list string) (d : Dashboard) : Dashboard :=
  {| cache := cache d; lastRequestTime := lastRequestTime d; data := data d;
     timeRange := timeRange d; alerts := a; summaryCards := summaryCards d;
     localStorage := localStorage d; getItemFails := getItemFails d;
     setItemFails := setItemFails d; timers := timers d;
     inflight := inflight d; requests := requests d |}.

Definition set_summaryCards (p : Panel) (d : Dashboard) : Dashboard :=
  {| cache := cache d; lastRequestTime := lastRequestTime d; data := data d;
     timeRange := timeRange d; alerts := alerts d; summaryCards := p;
     localStorage := localStorage d; getItemFails := getItemFails d;
     setItemFails := setItemFails d; timers := timers d;
     inflight := inflight d; requests := requests d |}.

Definition set_localStorage (m : gmap string Stored) (d : Dashboard) : Dashboard :=
  {| cache := cache d; lastRequestTime := lastRequestTime d; data := data d;
     timeRange := timeRange d; alerts := alerts d; summaryCards := summaryCards d;
     localStorage := m; getItemFails := getItemFails d;
     setItemFails := setItemFails d; timers := timers d;
     inflight := inflight d; requests := requests d |}.

Definition set_timers (n : nat) (d : Dashboard) : Dashboard :=
  {| cache := cache d; lastRequestTime := lastRequestTime d; data := data d;
     timeRange := timeRange d; alerts := alerts d; summaryCards := summaryCards d;
     localStorage := localStorage d; getItemFails := getItemFails d;
     setItemFails := setItemFails d; timers := n;
     inflight := inflight d; requests := requests d |}.

Definition set_inflight (l : list Pending) (d : Dashboard) : Dashboard :=
  {| cache := cache d; lastRequestTime := lastRequestTime d; data := data d;
     timeRange := timeRange d; alerts := alerts d; summaryCards := summaryCards d;
     localStorage := localStorage d; getItemFails := getItemFails d;
     setItemFails := setItemFails d; timers := timers d;
     inflight := l; requests := requests d |}.

Definition set_requests (l : list Z) (d : Dashboard) : Dashboard :=
  {| cache := cache d; lastRequestTime := lastRequestTime d; data := data d;
     timeRange := timeRange d; alerts := alerts d; summaryCards := summaryCards d;
     localStorage := localStorage d; getItemFails := getItemFails d;
     setItemFails := setItemFails d; timers := timers d;
     inflight := inflight d; requests := l |}.

(** A freshly constructed instance on a page with the given browser
    storage: [cache = new Map()], [lastRequestTime = 0], [data = null]. *)
Definition fresh_instance (range : string) (store : gmap string Stored)
    (readsFail writesFail : bool) : Dashboard :=
  {| cache := ∅; lastRequestTime := 0; data := JNull;
     timeRange := range; alerts := []; summaryCards := PanelBlank;
     localStorage := store; getItemFails := readsFail;
     setItemFails := writesFail;
     timers := 0%nat; inflight := []; requests := [] |}.

(** *** [localStorage] and [JSON] *)

(** [localStorage.getItem(key)] *)
Definition getItem (key : string) (d : Dashboard) : res (option Stored) :=
  if getItemFails d then Throw "SecurityError" else Ok (localStorage d !! key).

(** [JSON.parse(raw)] *)
Definition JSON_parse (raw : Stored) : res JsVal :=
  match raw with
  | StoredJson v => Ok v
  | StoredEmpty | StoredGarbage => Throw "SyntaxError"
  end.

(** [localStorage.setItem(key, JSON.stringify({ data, timestamp: now }))].
    The item is kept as the value its text parses to. *)
Definition setItem_entry (now : Z) (key : string) (payload : JsVal)
    (d : Dashboard) : res Dashboard :=
  if setItemFails d then Throw "QuotaExceededError"
  else Ok (set_localStorage
             (<[key := StoredJson
                         (json_clone
                            (JObj [("data", payload); ("timestamp", JNum now)]))]>
                (localStorage d)) d).

(** [getCachedData] and [setCachedData].  Both pages read the [Map] with
    [cached && Date.now() - cached.timestamp < this.cacheTimeout].  The
    constructor makes [this.cache] a [Map] and nothing assigns the field
    anything else, so the state carries a map and the re-initialisation
    guards of log-types.js have no case to handle. *)
Definition getCachedData (now : Z) (key : string) (d : Dashboard) : JsVal :=
  match cache d !! key with
  | Some cached =>
      if now - ce_timestamp cached <? cacheTimeout then ce_data cached else JNull
  | None => JNull
  end.

Definition setCachedData (now : Z) (key : string) (payload : JsVal)
    (d : Dashboard) : Dashboard :=
  set_cache (<[key := {| ce_data := payload; ce_timestamp := now |}]> (cache d)) d.

(** [setLocalCachedData]: a failed write is caught and dropped. *)
Definition setLocalCachedData (now : Z) (key : string) (payload : JsVal)
    (d : Dashboard) : res Dashboard :=
  try_catch (setItem_entry now key payload d) (fun _ => Ok d).

(** [renderDashboard], as far as [#summaryCards] goes: both pages fill that
    element first, with the cards of [this.data], unless [this.data] is
    falsy.  The panels filled after it are not part of the state (see
    [renderRecentErrors] for one of them). *)
Definition renderDashboard (d : Dashboard) : Dashboard :=
  if truthy (data d) then set_summaryCards (PanelCards (data d)) d else d.

(** *** Strings as sequences of UTF-16 code units

    A string is kept as its UTF-8 bytes.  The byte that starts a character
    of up to three bytes stands for one code unit, the byte that starts a
    four-byte character for two (a surrogate pair), a continuation byte
    for none.  Half of a pair on its own is written in the same
    three-byte form as the characters next to the surrogates. *)
Definition byte (c : ascii) : Z := Z.of_N (N_of_ascii c).

Definition char_of (n : Z) : ascii := ascii_of_N (Z.to_N n).

Definition continuation (c : ascii) : bool :=
  (128 <=? byte c) && (byte c <? 192).

Definition starts_pair (c : ascii) : bool := 240 <=? byte c.

(** [s.length] *)
Fixpoint code_units (s : string) : nat :=
  match s with
  | EmptyString => O
  | String c s' =>
      ((if continuation c then 0 else if starts_pair c then 2 else 1)
       + code_units s')%nat
  end.

(** The code unit [u], a surrogate, as a string of its own. *)
Definition surrogate (u : Z) : string :=
  String (char_of 237)
    (String (char_of (128 + (u / 64) mod 64))
       (String (char_of (128 + u mod 64)) "")).

(** The two halves of the four-byte character that starts with [c] and
    goes on with [rest]. *)
Definition high_surrogate (c : ascii) (rest : string) : Z :=
  match rest with
  | String b1 (String b2 _) =>
      55296 + ((byte c mod 8) * 256 + (byte b1 mod 64) * 4
               + (byte b2 mod 64) / 16 - 64)
  | _ => 55296
  end.

Definition low_surrogate (rest : string) : Z :=
  match rest with
  | String _ (String b2 (String b3 _)) =>
      56320 + (byte b2 mod 16) * 64 + byte b3 mod 64
  | _ => 56320
  end.

(** [s.substring(0, n)]: the first [n] code units. *)
Fixpoint take_units (n : nat) (s : string) : string :=
  match s with
  | EmptyString => EmptyString
  | String c s' =>
      if continuation c then String c (take_units n s')
      else
        match n with
        | O => EmptyString
        | S n' =>
            if starts_pair c then
              match n' with
              | O => surrogate (high_surrogate c s')
              | S n'' => String c (take_units n'' s')
              end
            else String c (take_units n' s')
        end
  end.

(** The characters of a string, each a start byte with the continuation
    bytes that follow it; in front, the continuation bytes that no start
    byte precedes. *)
Fixpoint characters_from (s : string) : string * list string :=
  match s with
  | EmptyString => (EmptyString, [])
  | String c s' =>
      let '(tail, chars) := characters_from s' in
      if continuation c then (String c tail, chars)
      else (EmptyString, String c tail :: chars)
  end.

(** [Object.values(s)]: one string for each code unit. *)
Definition unit_strings (s : string) : list string :=
  flat_map (fun ch => match ch with
                      | String c rest =>
                          if starts_pair c
                          then [surrogate (high_surrogate c rest);
                                surrogate (low_surrogate rest)]
                          else [ch]
                      | EmptyString => []
                      end)
    (snd (characters_from s)).

(** *** The own properties of an object, in the order of [Object.keys]

    The keys that are array indices come first, in ascending order, then
    the other keys in the order they were added. *)

(** An array index: the decimal form, without leading zero, of an integer
    below 2^32 - 1. *)
Definition array_index (k : string) : option Z :=
  match bytes_of k with
  | [] => None
  | [48] => Some 0
  | 48 :: _ => None
  | l =>
      if forallb is_digit l
      then let n := digits_value 10 (map (fun c => c - 48) l) in
           if n <? 2 ^ 32 - 1 then Some n else None
      else None
  end.

(** The properties of an object: the first entry of each key. *)
Fixpoint first_occurrences (fs : list (string * JsVal))
    : list (string * JsVal) :=
  match fs with
  | [] => []
  | (k, v) :: fs' =>
      (k, v) :: List.filter (fun kv => negb (String.eqb (fst kv) k))
                  (first_occurrences fs')
  end.

Definition indexed (fs : list (string * JsVal))
    : list (Z * (string * JsVal)) :=
  flat_map (fun kv => match array_index (fst kv) with
                      | Some i => [(i, kv)]
                      | None => []
                      end) fs.

Fixpoint insert_by_index (x : Z * (string * JsVal))
    (l : list (Z * (string * JsVal))) : list (Z * (string * JsVal)) :=
  match l with
  | [] => [x]
  | y :: l' => if fst x <? fst y then x :: l else y :: insert_by_index x l'
  end.

(** [Object.entries(obj)] *)
Definition own_entries (fs : list (string * JsVal)) : list (string * JsVal) :=
  let props := first_occurrences fs in
  map snd (fold_right insert_by_index [] (indexed props))
  ++ List.filter (fun kv => match array_index (fst kv) with
                            | Some _ => false
                            | None => true
                            end) props.

(** [Object.values(v)] for the value of a snapshot field. *)
Definition values_of (v : JsVal) : list JsVal :=
  match v with
  | JObj fs => map snd (own_entries fs)
  | JArr xs => xs
  | JStr s => map JStr (unit_strings s)
  | _ => []
  end.

Fixpoint for_each (f : JsVal -> res unit) (l : list JsVal) : res unit :=
  match l with
  | [] => Ok tt
  | x :: l' => _ ← f x; for_each f l'
  end.

(** The result of a network request: the transport failed, the server
    answered with a status outside 2xx, the body is not JSON text, or the
    body is the JSON text of a value. *)
Inductive Response : Type :=
| NetworkError
| HttpError (statusLine : string)
| BadBody (text : string)
| Body (v : JsVal).

(** State passing with exceptions: a block either runs to its end or
    raises, and in both cases leaves a state behind. *)
Inductive Completion : Type :=
| Returned (d : Dashboard)
| Thrown (msg : string) (d : Dashboard).

(** What [renderRecentErrors] does to [#recentErrors]: nothing, the
    empty-state box with its message, a table with a row for each of the
    items, or a TypeError that leaves the element as it was. *)
Inductive Rendering : Type :=
| NotRendered
| EmptyState (message : string)
| TableOf (items : list JsVal)
| Raised.

(** [v.length === 0] *)
Definition length_is_zero (v : JsVal) : bool :=
  match v with
  | JArr xs => Nat.eqb (length xs) 0
  | JStr s => String.eqb s ""
  | JObj fs => match assoc "length" fs with
               | JNum n => n =? 0
               | _ => false
               end
  | _ => false
  end.

(** ** Helpers of the table renderers *)

(** A template literal converts the value of each of its holes to a
    string. *)
Definition interpolate (v : JsVal) : res unit :=
  if to_primitive_raises v then Throw "TypeError" else Ok tt.

(** [a > m] for a number [m]: false when [a] converts to NaN, a TypeError
    when it cannot be converted. *)
Definition js_gt (a : JsVal) (m : Z) : res bool :=
  x ← to_number a; Ok (num_gt x m).

(** [v.length]: the number of code units of a string, the number of
    elements of an array, the own property of an object, [undefined] on
    numbers and booleans. *)
Definition js_length (v : JsVal) : JsVal :=
  match v with
  | JStr s => JNum (Z.of_nat (code_units s))
  | JArr xs => JNum (Z.of_nat (length xs))
  | JObj fs => assoc "length" fs
  | _ => JUndefined
  end.

(** [truncateMessage(message, maxLength)], the same on both pages.  Only a
    string has a [substring] method: a longer array or array-like object
    raises. *)
Definition truncateMessage (message : JsVal) (maxLength : Z) : res JsVal :=
  if negb (truthy message) then Ok (JStr "")
  else
    longer ← js_gt (js_length message) maxLength;
    if negb longer then Ok message
    else
      match message with
      | JStr s => Ok (JStr (take_units (Z.to_nat maxLength) s +:+ "..."))
      | _ => Throw "TypeError"
      end.

(** [formatTime(timestamp)], the same on both pages but for the label of
    a missing time: the label, the date in the form of the [zh-CN] locale
    (which is not spelled out), or the timestamp itself when the [Date]
    constructor raised on it. *)
Inductive TimeCell : Type :=
| NoTime (label : string)
| LocalTime (timestamp : JsVal)
| RawTime (timestamp : JsVal).

Definition formatTime (label : string) (timestamp : JsVal) : TimeCell :=
  if negb (truthy timestamp) then NoTime label
  else if to_primitive_raises timestamp then RawTime timestamp
  else LocalTime timestamp.

Definition interpolate_time (cell : TimeCell) : res unit :=
  match cell with
  | RawTime timestamp => interpolate timestamp
  | NoTime _ | LocalTime _ => Ok tt
  end.

(** [s.toLowerCase()] as far as the letters A to Z go; no other character
    becomes a letter of the words the page compares with. *)
Definition lower (s : string) : string :=
  string_of_list_ascii
    (map (fun c => if (65 <=? byte c) && (byte c <=? 90)
                   then char_of (byte c + 32) else c)
       (list_ascii_of_string s)).

(** [items.map(row)]: the rows, or the exception of the first item whose
    row raises. *)
Fixpoint build_rows {A} (row : JsVal -> res A) (items : list JsVal)
    : res (list A) :=
  match items with
  | [] => Ok []
  | x :: items' => r ← row x; rs ← build_rows row items'; Ok (r :: rs)
  end.

(** ** The Bootstrap page: ai_opsv1/static/js/log-types.js *)

Module V1.

Definition getCacheKey (d : Dashboard) : string :=
  "log_analysis_" +:+ (if String.eqb (timeRange d) "" then "1" else timeRange d).

Definition getLocalCachedData (now : Z) (key : string) (allowStale : bool)
    (d : Dashboard) : res JsVal :=
  try_catch
    (raw ← getItem key d;
     match raw with
     | None | Some StoredEmpty => Ok JNull
     | Some text =>
         obj ← JSON_parse text;
         if negb (truthy obj)
            || negb (truthy (field obj "timestamp"))
            || negb (truthy (field obj "data"))
         then Ok JNull
         else
           isFresh ← elapsed_lt now (field obj "timestamp") localCacheTTL;
           if isFresh || allowStale then Ok (field obj "data") else Ok JNull
     end)
    (fun _ => Ok JNull).

(** An alert box is put first in [.container-fluid]. *)
Definition showError (message : string) (d : Dashboard) : Dashboard :=
  set_alerts (message :: alerts d) d.

(** [Object.entries(v).forEach(print)] under its guard
    [v && Object.keys(v).length > 0]. *)
Definition print_entries (print : JsVal -> res unit) (v : JsVal) : res unit :=
  if truthy v && negb (Nat.eqb (length (values_of v)) 0)
  then for_each print (values_of v)
  else Ok tt.

(** [printCleaningSummary] only writes to the console, but each line it
    prints is a template literal, and for every value of
    [business_modules] it reads [info.count]. *)
Definition printCleaningSummary (d : Dashboard) : res unit :=
  if truthy (data d) && truthy (field (data d) "cleaning_summary") then
    let summary := field (data d) "cleaning_summary" in
    _ ← interpolate (js_or (field summary "raw_logs_count") (JNum 0));
    _ ← interpolate (js_or (field summary "cleaned_logs_count") (JNum 0));
    _ ← interpolate (js_or (field summary "duplicates_removed") (JNum 0));
    _ ← interpolate (js_or (field summary "business_modules_found") (JNum 0));
    _ ← interpolate (js_or (field summary "error_categories_found") (JNum 0));
    _ ← interpolate (js_or (field summary "cleaning_timestamp") (JStr "N/A"));
    _ ← interpolate (js_or (field (data d) "processing_status")
                        (JStr "unknown"));
    _ ← print_entries (fun info => count ← prop info "count"; interpolate count)
          (field (data d) "business_modules");
    _ ← print_entries interpolate (field (data d) "error_categories");
    print_entries interpolate (field (data d) "severity_distribution")
  else Ok tt.

(** From the settled [fetch] to the end of the [try] block. *)
Definition receive (p : Pending) (now : Z) (resp : Response)
    (d : Dashboard) : Completion :=
  match resp with
  | NetworkError => Thrown "Failed to fetch" d
  | HttpError statusLine => Thrown ("HTTP " +:+ statusLine) d
  | BadBody _ => Thrown "SyntaxError" d
  | Body v =>
      let d1 := set_data v d in
      if negb (truthy v) || negb (typeof_object v) then
        Thrown "API返回的数据格式无效" d1
      else
        let d2 := set_data (normalize (data d1)) d1 in
        match printCleaningSummary d2 with
        | Throw e => Thrown e d2
        | Ok _ =>
            let d3 := setCachedData now (p_key p) (data d2) d2 in
            let d4 := set_lastRequestTime (p_now p) d3 in
            match setLocalCachedData now (p_key p) (data d4) d4 with
            | Ok d5 => Returned d5
            | Throw e => Thrown e d4
            end
        end
  end.

(** [getSeverityLabel] and [getSeverityBadgeClass]:
    [(severity || '').toString().toLowerCase()] picks the text. *)
Definition getSeverityLabel (severity : JsVal) : res string :=
  let v := js_or severity (JStr "") in
  _ ← interpolate v;
  let s := lower (js_String v) in
  Ok (if String.eqb s "critical" then "严重"
      else if String.eqb s "warning" then "警告"
      else if String.eqb s "info" then "信息"
      else "未知").

Definition getSeverityBadgeClass (severity : JsVal) : res string :=
  let v := js_or severity (JStr "") in
  _ ← interpolate v;
  let s := lower (js_String v) in
  Ok (if String.eqb s "critical" then "bg-danger"
      else if String.eqb s "warning" then "bg-warning text-dark"
      else if String.eqb s "info" then "bg-info text-dark"
      else "bg-secondary").

(** A row of the table of recent errors is the row of the item or, when
    building that raised, the row that says so. *)
Inductive Row : Type :=
| DataRow (severityClass severityLabel : string)
| AnomalyRow.

(** The [try] block of the row: the cells are followed as far as they can
    raise; of their text the model keeps the severity. *)
Definition row_try (error : JsVal) : res Row :=
  business ← prop error "business_analysis";
  let businessModule :=
    if truthy business && truthy (field business "business_module")
    then field business "business_module" else JStr "未知" in
  analysis ← prop error "error_analysis";
  let errorType :=
    if truthy analysis && truthy (field analysis "error_type")
    then field analysis "error_type" else JStr "未知" in
  let severity :=
    if truthy analysis && truthy (field analysis "severity")
    then field analysis "severity" else JStr "未知" in
  severityLabel ← getSeverityLabel severity;
  severityClass ← getSeverityBadgeClass severity;
  own_message ← prop error "message";
  let message := js_or own_message (JStr "无错误信息") in
  (* the template, hole by hole *)
  timestamp ← prop error "timestamp";
  _ ← interpolate_time (formatTime "未知" timestamp);
  _ ← interpolate businessModule;
  _ ← interpolate errorType;
  (* escapeHtml(error.message || message): String(str) *)
  _ ← interpolate (js_or own_message message);
  (* truncateMessage(message), maxLength = 100 *)
  shown ← truncateMessage message 100;
  _ ← interpolate shown;
  Ok (DataRow severityClass severityLabel).

(** The [catch] block of the row. *)
Definition row_catch (error : JsVal) : res Row :=
  timestamp ← prop error "timestamp";
  _ ← interpolate_time (formatTime "未知" (js_or timestamp (JStr "")));
  Ok AnomalyRow.

Definition row (error : JsVal) : res Row :=
  try_catch (row_try error) (fun _ => row_catch error).

(** [renderRecentErrors]; [container] tells whether the page has the
    [#recentErrors] element. *)
Definition renderRecentErrors (container : bool) (d : Dashboard) : Rendering :=
  if negb container || negb (truthy (data d)) then NotRendered
  else
    let recentErrors := js_or (field (data d) "recent_errors") (JArr []) in
    if length_is_zero recentErrors then EmptyState "暂无最近错误数据"
    else match recentErrors with
         | JArr xs =>
             match build_rows row xs with
             | Ok _ => TableOf xs
             | Throw _ => Raised
             end
         | _ => Raised
         end.

End V1.

(** ** The Tailwind page *)

Module Tailwind.

Definition getCacheKey (d : Dashboard) : string :=
  "log-types-" +:+ (if String.eqb (timeRange d) "" then "1" else timeRange d).

Definition getLocalCachedData (now : Z) (key : string) (allowStale : bool)
    (d : Dashboard) : res JsVal :=
  try_catch
    (cached ← getItem key d;
     match cached with
     | None | Some StoredEmpty => Ok JNull
     | Some text =>
         parsed ← JSON_parse text;
         if allowStale then prop parsed "data"
         else
           ts ← prop parsed "timestamp";
           isFresh ← elapsed_lt now ts localCacheTTL;
           if negb isFresh then Ok JNull else prop parsed "data"
     end)
    (fun _ => Ok JNull).

(** The error box replaces the content of [#summaryCards]. *)
Definition showError (message : string) (d : Dashboard) : Dashboard :=
  set_summaryCards (PanelError message) d.

(** From the settled [axios.get] to the end of the [try] block.  axios
    rejects on a transport failure and on a status outside 2xx, and hands
    over a body that is not JSON as the string it received. *)
Definition receive (p : Pending) (now : Z) (resp : Response)
    (d : Dashboard) : Completion :=
  match resp with
  | NetworkError => Thrown "Network Error" d
  | HttpError statusLine =>
      Thrown ("Request failed with status code " +:+ statusLine) d
  | BadBody _ | Body _ =>
      let body := match resp with
                  | Body v => v
                  | BadBody text => JStr text
                  | _ => JUndefined
                  end in
      let d1 := set_data (js_or body (JObj [])) d in
      let d2 := set_data (normalize (data d1)) d1 in
      let d3 := setCachedData now (p_key p) (data d2) d2 in
      let d4 := set_lastRequestTime (p_now p) d3 in
      match setLocalCachedData now (p_key p) (data d4) d4 with
      | Ok d5 => Returned d5
      | Throw e => Thrown e d4
      end
  end.

(** [getSeverityBadgeClass] and [getSeverityLabel] look the severity up
    in an object literal: [classMap[severity]] converts it to a property
    key.  What they return, a text of the literal, an inherited member of
    it or the severity itself, converts to a string without raising. *)
Definition getSeverityBadgeClass (severity : JsVal) : res unit :=
  interpolate severity.

Definition getSeverityLabel (severity : JsVal) : res unit :=
  interpolate severity.

(** [escapeHtml]: [div.textContent = str] converts a truthy [str] to a
    string; the markup read back from [div.innerHTML] is not spelled
    out. *)
Definition escapeHtml (str : JsVal) : res unit :=
  if negb (truthy str) then Ok tt else interpolate str.

(** A row of the table of recent errors, followed as far as it can
    raise. *)
Definition row (error : JsVal) : res unit :=
  timestamp ← prop error "timestamp";
  _ ← interpolate_time (formatTime "-" timestamp);
  level ← prop error "level";
  _ ← getSeverityBadgeClass level;
  _ ← getSeverityLabel level;
  instance ← prop error "instance";
  _ ← interpolate (js_or instance (JStr "-"));
  message ← prop error "message";
  _ ← escapeHtml message;
  shown ← truncateMessage message 80;
  interpolate shown.

(** [renderRecentErrors]; [container] tells whether the page has the
    [#recentErrors] element. *)
Definition renderRecentErrors (container : bool) (d : Dashboard) : Rendering :=
  if negb container then NotRendered
  else
    match prop (data d) "recent_errors" with
    | Throw _ => Raised
    | Ok recent =>
        let errors := js_or recent (JArr []) in
        if length_is_zero errors then EmptyState "暂无错误日志"
        else match errors with
             | JArr xs =>
                 match build_rows row (firstn 10 xs) with
                 | Ok _ => TableOf (firstn 10 xs)
                 | Throw _ => Raised
                 end
             | _ => Raised
             end
    end.

End Tailwind.

(** ** The refresh logic, for either page *)

(** The banner [loadData] hands to [showError]. *)
Definition failure_banner (message : string) : string :=
  "数据加载失败: " +:+ message.

Inductive Page : Type := Bootstrap | TailwindCss.

(** How the synchronous part of [loadData] ends: at a [return] (or in the
    [catch] branch), or suspended at the [await] of a request it has just
    sent. *)
Inductive LoadStep : Type :=
| Settled (d : Dashboard)
| Awaiting (p : Pending) (d : Dashboard).

Section Orchestrator.

Variable page : Page.

Definition getCacheKey (d : Dashboard) : string :=
  match page with
  | Bootstrap => V1.getCacheKey d
  | TailwindCss => Tailwind.getCacheKey d
  end.

Definition getLocalCachedData (now : Z) (key : string) (allowStale : bool)
    (d : Dashboard) : res JsVal :=
  match page with
  | Bootstrap => V1.getLocalCachedData now key allowStale d
  | TailwindCss => Tailwind.getLocalCachedData now key allowStale d
  end.

Definition showError (message : string) (d : Dashboard) : Dashboard :=
  match page with
  | Bootstrap => V1.showError message d
  | TailwindCss => Tailwind.showError message d
  end.

Definition receive (p : Pending) (now : Z) (resp : Response)
    (d : Dashboard) : Completion :=
  match page with
  | Bootstrap => V1.receive p now resp d
  | TailwindCss => Tailwind.receive p now resp d
  end.

Definition renderRecentErrors (container : bool) (d : Dashboard) : Rendering :=
  match page with
  | Bootstrap => V1.renderRecentErrors container d
  | TailwindCss => Tailwind.renderRecentErrors container d
  end.

(** The [catch] branch of [loadData]. *)
Definition loadData_catch (now : Z) (message : string) (d : Dashboard)
    : res Dashboard :=
  fallback ← getLocalCachedData now (getCacheKey d) true d;
  Ok (if truthy fallback then set_data fallback d
      else set_data default_data
             (showError (failure_banner message) d)).

(** [loadData] up to its first [return] or to the [await]. *)
Definition loadData_begin (now : Z) (d : Dashboard) : res LoadStep :=
  try_catch
    (let localKey := getCacheKey d in
     localCached ← getLocalCachedData now localKey false d;
     if truthy localCached then
       Ok (Settled (set_timers (S (timers d)) (set_data localCached d)))
     else
       let cacheKey := getCacheKey d in
       let cachedData := getCachedData now cacheKey d in
       if truthy cachedData then Ok (Settled (set_data cachedData d))
       else if now - lastRequestTime d <? minRequestInterval then
         Ok (Settled d)
       else
         Ok (Awaiting {| p_now := now; p_key := cacheKey |}
               (set_requests (now :: requests d) d)))
    (fun e => d' ← loadData_catch now e d; Ok (Settled d')).

(** [loadData] from the settled request on; [now] is the clock then. *)
Definition loadData_resume (p : Pending) (now : Z) (resp : Response)
    (d : Dashboard) : res Dashboard :=
  match receive p now resp d with
  | Returned d' => Ok d'
  | Thrown e d' => loadData_catch now e d'
  end.

(** [loadData] when nothing else runs while the request is under way:
    the request sent at [now] settles with [resp] at [later]. *)
Definition loadData (now : Z) (resp : Response) (later : Z)
    (d : Dashboard) : res Dashboard :=
  s ← loadData_begin now d;
  match s with
  | Settled d' => Ok d'
  | Awaiting p d' => loadData_resume p later resp d'
  end.

(** The first statement of [refreshData]: [this.cache.delete(cacheKey)]
    on the Bootstrap page, [this.cache.clear()] on the Tailwind page. *)
Definition refresh_cleared (d : Dashboard) : Dashboard :=
  match page with
  | Bootstrap => set_cache (delete (getCacheKey d) (cache d)) d
  | TailwindCss => set_cache ∅ d
  end.

(** [refreshData]: forget what is cached in memory, load, render. *)
Definition refreshData_begin (now : Z) (d : Dashboard) : res LoadStep :=
  s ← loadData_begin now (refresh_cleared d);
  Ok (match s with
      | Settled d' => Settled (renderDashboard d')
      | Awaiting p d' => Awaiting p d'
      end).

Definition refreshData_resume (p : Pending) (now : Z) (resp : Response)
    (d : Dashboard) : res Dashboard :=
  d' ← loadData_resume p now resp d;
  Ok (renderDashboard d').

Definition refreshData (now : Z) (resp : Response) (later : Z)
    (d : Dashboard) : res Dashboard :=
  s ← refreshData_begin now d;
  match s with
  | Settled d' => Ok d'
  | Awaiting p d' => refreshData_resume p later resp d'
  end.

(** *** The event loop

    Callbacks run one at a time.  A suspended [loadData] waits in
    [inflight]; its continuation runs when the request settles, after
    whatever callbacks ran in between. *)
Inductive Event : Type :=
| Load (now : Z)                       (* [init] calls [loadData], then renders *)
| Refresh (now : Z)                    (* button, range change, auto-refresh tick *)
| Timer (now : Z)                      (* a queued [setTimeout(.., 0)] callback *)
| Settle (now : Z) (resp : Response).  (* the oldest request settles *)

Definition park (s : LoadStep) : Dashboard :=
  match s with
  | Settled d => d
  | Awaiting p d => set_inflight (inflight d ++ [p]) d
  end.

Definition step (ev : Event) (d : Dashboard) : res Dashboard :=
  match ev with
  | Load now =>
      s ← loadData_begin now d;
      Ok (match s with
          | Settled d' => renderDashboard d'
          | Awaiting _ _ => park s
          end)
  | Refresh now => s ← refreshData_begin now d; Ok (park s)
  | Timer now =>
      match timers d with
      | O => Ok d
      | S n => s ← refreshData_begin now (set_timers n d); Ok (park s)
      end
  | Settle now resp =>
      match inflight d with
      | [] => Ok d
      | p :: rest => refreshData_resume p now resp (set_inflight rest d)
      end
  end.

Fixpoint run (evs : list Event) (d : Dashboard) : res Dashboard :=
  match evs with
  | [] => Ok d
  | ev :: evs' => d' ← step ev d; run evs' d'
  end.

End Orchestrator.

(** *** Reference notions for the cache and refresh claims *)

(** An entry of the persistent cache as [setLocalCachedData] lays it out. *)
Definition entry (payload : JsVal) (timestamp : Z) : Stored :=
  StoredJson (JObj [("data", payload); ("timestamp", JNum timestamp)]).

(** Reading [key] from the durable store fails: the store cannot be
    accessed, or the item is not JSON text. *)
Definition read_fails (key : string) (d : Dashboard) : bool :=
  getItemFails d
  || match localStorage d !! key with
     | Some StoredGarbage | Some StoredEmpty => true
     | _ => false
     end.

(** The persistent cache has nothing fresh for the current key at [now];
    and neither cache serves the key, so that [loadData] gets as far as the
    rate limiter. *)
Definition persistent_miss (page : Page) (now : Z) (d : Dashboard) : bool :=
  match getLocalCachedData page now (getCacheKey page d) false d with
  | Ok v => negb (truthy v)
  | Throw _ => false
  end.

Definition nothing_cached (page : Page) (now : Z) (d : Dashboard) : bool :=
  persistent_miss page now d
  && negb (truthy (getCachedData now (getCacheKey page d) d)).

(** The messages the page puts before the user: the alert boxes and the
    error box of [#summaryCards]. *)
Definition notices (d : Dashboard) : list string :=
  alerts d ++ match summaryCards d with
              | PanelError message => [message]
              | _ => []
              end.

(** The fields a snapshot must carry and the default of each: 0 for a
    count, the empty mapping, the empty sequence, and a label for the two
    texts. *)
Definition required_defaults : list (string * JsVal) :=
  [ ("total_logs", JNum 0);
    ("cleaned_logs_count", JNum 0);
    ("time_range", JStr time_range_default);
    ("processing_status", JStr "unknown");
    ("business_modules", JObj []);
    ("error_categories", JObj []);
    ("error_types", JObj []);
    ("severity_distribution", JObj []);
    ("recent_errors", JArr []);
    ("cleaning_summary", JObj []) ].

Definition is_undefined (v : JsVal) : bool :=
  match v with
  | JUndefined => true
  | _ => false
  end.

(** The empty-state text each page shows for the recent errors. *)
Definition empty_errors_message (page : Page) : string :=
  match page with
  | Bootstrap => "暂无最近错误数据"
  | TailwindCss => "暂无错误日志"
  end.

(** The request of [p] fails: [receive] ends in the [catch] branch. *)
Definition fetch_fails (page : Page) (p : Pending) (now : Z) (resp : Response)
    (d : Dashboard) : bool :=
  match receive page p now resp d with
  | Thrown _ _ => true
  | Returned _ => false
  end.

(** The fallback behaviour as the specification words it, at one failing
    request: a stored entry is served together with a notice that the data
    are cached; without an entry the default snapshot comes with the error
    banner.  A notice is a message on the page that was not there before. *)
Definition stale_notice_spec (page : Page) (p : Pending) (now : Z)
    (resp : Response) (d : Dashboard) : Prop :=
  fetch_fails page p now resp d = true ->
  exists fallback d',
    getLocalCachedData page now (getCacheKey page d) true d = Ok fallback
    /\ loadData_resume page p now resp d = Ok d'
    /\ (exists notice, In notice (notices d') /\ ~ In notice (notices d))
    /\ data d' = (if truthy fallback then fallback else default_data).

(** At [now] the persistent cache serves [payload] for the current key of
    the page: a read without [allowStale] returns it, and it is truthy. *)
Definition persistent_serves (page : Page) (now : Z) (d : Dashboard)
    (payload : JsVal) : Prop :=
  getLocalCachedData page now (getCacheKey page d) false d = Ok payload
  /\ truthy payload = true.

(** Two states with the same browser storage and the same selected range. *)
Definition same_store (d d' : Dashboard) : Prop :=
  timeRange d' = timeRange d
  /\ localStorage d' = localStorage d
  /\ getItemFails d' = getItemFails d.

(** *** Sample responses and pages *)

(** The state a block leaves behind. *)
Definition state_of (c : Completion) : Dashboard :=
  match c with
  | Returned d => d
  | Thrown _ d => d
  end.

(** A response with nothing but a total, and one with a recent error. *)
Definition bare_response : JsVal := JObj [("total_logs", JNum 5)].

Definition busy_response : JsVal :=
  JObj [ ("total_logs", JNum 5);
         ("recent_errors", JArr [JObj [("message", JStr "disk full")]]) ].

(** A Bootstrap page whose durable store holds one snapshot, written at
    clock reading 1700000, and a request sent 90 s later. *)
Definition stored_page : Dashboard :=
  fresh_instance "1"
    {[ "log_analysis_1" := entry (normalize busy_response) 1700000 ]}
    false false.

Definition late_request : Pending :=
  {| p_now := 1790000; p_key := "log_analysis_1" |}.

(** The Bootstrap page after a refresh sent at 100000 was answered with
    [busy_response] at 100200. *)
Definition loaded_page : Dashboard :=
  {| cache := {[ "log_analysis_5" :=
                   {| ce_data := normalize busy_response;
                      ce_timestamp := 100200 |} ]};
     lastRequestTime := 100000;
     data := normalize busy_response;
     timeRange := "5";
     alerts := [];
     summaryCards := PanelCards (normalize busy_response);
     localStorage := {[ "log_analysis_5" :=
                          entry (normalize busy_response) 100200 ]};
     getItemFails := false;
     setItemFails := false;
     timers := 0%nat;
     inflight := [];
     requests := [100000] |}.

(** *** Reference notions for the responses a page accepts *)

(** What [printCleaningSummary] cannot print of a response: a value it
    puts into a line that cannot be converted to a string, or a value of
    [business_modules] that has no properties. *)
Definition summary_raises (v : JsVal) : bool :=
  let summary := js_or (field v "cleaning_summary") (JObj []) in
  existsb to_primitive_raises
    [ field summary "raw_logs_count";
      field summary "cleaned_logs_count";
      field summary "duplicates_removed";
      field summary "business_modules_found";
      field summary "error_categories_found";
      field summary "cleaning_timestamp";
      field v "processing_status" ]
  || existsb (fun info => nullish info
                          || to_primitive_raises (field info "count"))
       (values_of (js_or (field v "business_modules") (JObj [])))
  || existsb to_primitive_raises
       (values_of (js_or (field v "error_categories") (JObj [])))
  || existsb to_primitive_raises
       (values_of (js_or (field v "severity_distribution") (JObj []))).

(** *** Reference notions for the rows of the recent errors *)

(** [truncateMessage(message, maxLength)] raises: the message is an array
    of more than [maxLength] elements, or an object whose [length] is
    greater than [maxLength] or cannot be converted to a number. *)
Definition overlong (message : JsVal) (maxLength : Z) : bool :=
  match message with
  | JArr xs => maxLength <? Z.of_nat (length xs)
  | JObj fs =>
      match js_gt (assoc "length" fs) maxLength with
      | Ok longer => longer
      | Throw _ => true
      end
  | _ => false
  end.

(** Building the row of an item raises.  On the Bootstrap page the [catch]
    block of the row takes care of everything but an item without
    properties and a timestamp that cannot be printed. *)
Definition row_raises (page : Page) (item : JsVal) : bool :=
  nullish item
  || to_primitive_raises (field item "timestamp")
  || match page with
     | Bootstrap => false
     | TailwindCss =>
         to_primitive_raises (field item "level")
         || to_primitive_raises (field item "instance")
         || to_primitive_raises (field item "message")
         || overlong (field item "message") 80
     end.

(** The items that get a row. *)
Definition shown_errors (page : Page) (items : list JsVal) : list JsVal :=
  match page with
  | Bootstrap => items
  | TailwindCss => firstn 10 items
  end.

(** ** Ranges, decoding and JSON values *)

(** No character of the string lies outside the Basic Multilingual Plane:
    every character is one code unit. *)
Definition basic_plane (s : string) : bool :=
  forallb (fun c => negb (starts_pair c)) (list_ascii_of_string s).

(** The range a cache key stands for: the value of [#timeRange], or ["1"]
    when there is none. *)
Definition effective_range (d : Dashboard) : string :=
  if String.eqb (timeRange d) "" then "1" else timeRange d.

(** Reading an escaped text back, as an HTML parser decodes the five
    entities inside an attribute value or a text node. *)
Fixpoint unescape (s : string) : string :=
  match s with
  | String "&" (String "a" (String "m" (String "p" (String ";" r)))) =>
      String "&" (unescape r)
  | String "&" (String "l" (String "t" (String ";" r))) =>
      String "<" (unescape r)
  | String "&" (String "g" (String "t" (String ";" r))) =>
      String ">" (unescape r)
  | String "&" (String "q" (String "u" (String "o" (String "t" (String ";" r))))) =>
      String "034" (unescape r)
  | String "&" (String "#" (String "3" (String "9" (String ";" r)))) =>
      String "'" (unescape r)
  | String c r => String c (unescape r)
  | EmptyString => EmptyString
  end.

(** A value that JSON text can carry: no [undefined] anywhere in it. *)
Fixpoint is_json (v : JsVal) : bool :=
  match v with
  | JUndefined => false
  | JArr xs => forallb is_json xs
  | JObj fs => forallb (fun kv => is_json (snd kv)) fs
  | _ => true
  end.

(** The page after the user picked another range in [#timeRange]. *)
Definition select_range (range : string) (d : Dashboard) : Dashboard :=
  {| cache := cache d; lastRequestTime := lastRequestTime d; data := data d;
     timeRange := range; alerts := alerts d; summaryCards := summaryCards d;
     localStorage := localStorage d; getItemFails := getItemFails d;
     setItemFails := setItemFails d; timers := timers d;
     inflight := inflight d; requests := requests d |}.

(** The same page as [receive] leaves it, before [renderDashboard]. *)
Definition loaded_page_unrendered : Dashboard :=
  set_summaryCards PanelBlank loaded_page.

(** *** Reference notions for the request log *)

(** A log of send times, latest first, in which any two neighbours are at
    least [minRequestInterval] apart. *)
Fixpoint spaced (l : list Z) : Prop :=
  match l with
  | later :: rest =>
      match rest with
      | earlier :: _ => minRequestInterval <= later - earlier
      | [] => True
      end /\ spaced rest
  | [] => True
  end.

(** What the rate limiter goes by: the requests sent, the requests under
    way and the recorded time. *)
Definition log (d : Dashboard) : list Z * list Pending * Z :=
  (requests d, inflight d, lastRequestTime d).

(** No request is under way, and the recorded time is that of the latest
    request. *)
Definition settled_log (d : Dashboard) : Prop :=
  inflight d = []
  /\ spaced (requests d)
  /\ forall t rest, requests d = t :: rest -> lastRequestTime d = t.

(** One request is under way: the latest of the log. *)
Definition pending_log (d : Dashboard) : Prop :=
  exists p rest,
    inflight d = [p] /\ requests d = p_now p :: rest /\ spaced (requests d).

Definition orderly (d : Dashboard) : Prop := settled_log d \/ pending_log d.

(** The page is used one request at a time: while a request is under way
    nothing happens but its settling, and it settles with a response the
    page accepts. *)
Definition one_at_a_time (page : Page) (ev : Event) (d : Dashboard) : bool :=
  match inflight d, ev with
  | [], _ => true
  | p :: rest, Settle now resp =>
      negb (fetch_fails page p now resp (set_inflight rest d))
  | _ :: _, _ => false
  end.

Fixpoint disciplined (page : Page) (evs : list Event) (d : Dashboard) : bool :=
  match evs with
  | [] => true
  | ev :: evs' =>
      one_at_a_time page ev d
      && match step page ev d with
         | Ok d' => disciplined page evs' d'
         | Throw _ => false
         end
  end.

(** ** The type distribution of the Bootstrap page *)

(** The entries of a mapping from names to counts; [None] when a value is
    not a number (the comparator [b[1] - a[1]] is then NaN and the order
    of the rows is left to the engine). *)
Fixpoint numeric_entries (fs : list (string * JsVal))
    : option (list (string * Z)) :=
  match fs with
  | [] => Some []
  | (k, JNum n) :: fs' => option_map (cons (k, n)) (numeric_entries fs')
  | _ => None
  end.

(** [Object.entries(v)] for such a mapping.  Numbers and booleans have no
    entries; strings and arrays have entries of characters and elements,
    which the model leaves out. *)
Definition count_entries (v : JsVal) : option (list (string * Z)) :=
  match v with
  | JObj fs => numeric_entries (own_entries fs)
  | JNum _ | JBool _ => Some []
  | _ => None
  end.

(** [entries.sort((a, b) => b[1] - a[1])]: the stable sort by decreasing
    count, written as an insertion sort. *)
Fixpoint insert_by_count (x : string * Z) (l : list (string * Z))
    : list (string * Z) :=
  match l with
  | [] => [x]
  | y :: l' => if snd y <=? snd x then x :: l else y :: insert_by_count x l'
  end.

Definition sort_by_count (l : list (string * Z)) : list (string * Z) :=
  fold_right insert_by_count [] l.

(** [a] may stand above [b] in the table. *)
Definition more_frequent (a b : string * Z) : Prop := snd b <= snd a.

(** What [renderTypeDistribution] does to [#typeDistribution]: nothing, the
    empty-state box, or a table with one row per entry. *)
Inductive TypePanel : Type :=
| TypesUntouched
| TypesEmpty (message : string)
| TypesTable (rows : list (string * Z)).

(** [renderTypeDistribution] of log-types.js; [None] where [count_entries]
    is. *)
Definition renderTypeDistribution (container : bool) (d : Dashboard)
    : option TypePanel :=
  if negb container || negb (truthy (data d)) then Some TypesUntouched
  else
    let errorTypes := js_or (field (data d) "error_types") (JObj []) in
    match count_entries errorTypes with
    | Some unsorted =>
        let entries := sort_by_count unsorted in
        Some (if Nat.eqb (length entries) 0
              then TypesEmpty "暂无类型分布数据"
              else TypesTable entries)
    | None => None
    end.

(** ** The auto-refresh timer of the Tailwind page *)

Module AutoRefresh.

(** The field [autoRefreshInterval] ([null] or a handle), the intervals of
    the instance that the browser is running, and the handle the next
    [setInterval] will return.  Handles are positive, hence truthy. *)
Record Refresher : Type := {
  autoRefreshInterval : option positive;
  intervals : gset positive;
  nextHandle : positive
}.

(** The instance as the constructor leaves it. *)
Definition constructed (handle : positive) : Refresher :=
  {| autoRefreshInterval := None; intervals := ∅; nextHandle := handle |}.

Definition stopAutoRefresh (r : Refresher) : Refresher :=
  match autoRefreshInterval r with
  | Some handle =>
      {| autoRefreshInterval := None;
         intervals := intervals r ∖ {[handle]};
         nextHandle := nextHandle r |}
  | None => r
  end.

Definition startAutoRefresh (r : Refresher) : Refresher :=
  let r1 := stopAutoRefresh r in
  {| autoRefreshInterval := Some (nextHandle r1);
     intervals := {[nextHandle r1]} ∪ intervals r1;
     nextHandle := Pos.succ (nextHandle r1) |}.

(** What can happen to the timer: [init] starts it, the [#autoRefresh]
    switch starts or stops it, leaving the page stops it. *)
Inductive Action : Type :=
| Init
| Switch (checked : bool)
| Unload.

Definition act (a : Action) (r : Refresher) : Refresher :=
  match a with
  | Init => startAutoRefresh r
  | Switch checked => if checked then startAutoRefresh r else stopAutoRefresh r
  | Unload => stopAutoRefresh r
  end.

Definition session (actions : list Action) (r : Refresher) : Refresher :=
  fold_left (fun r a => act a r) actions r.

(** The intervals that the field accounts for. *)
Definition remembered (r : Refresher) : gset positive :=
  match autoRefreshInterval r with
  | Some handle => {[handle]}
  | None => ∅
  end.

End AutoRefresh.

(** * Properties *)

Example escapeHtml_sample :
  escapeHtml (JStr "<a href='x'>T&C</a>")
  = "&lt;a href=&#39;x&#39;&gt;T&amp;C&lt;/a&gt;".
Proof. reflexivity. Qed.

(** ** Properties of [escapeHtml] *)

Section Escaping.

#[local] Arguments String.append !_ _ / : simpl nomatch.

Lemma append_assoc (a b c : string) : (a +:+ b) +:+ c = a +:+ (b +:+ c).
Proof. induction a as [|x a IH]; simpl; [reflexivity | now rewrite IH]. Qed.

Lemma subst_chars_app f (a b : string) :
  subst_chars f (a +:+ b) = subst_chars f a +:+ subst_chars f b.
Proof.
  induction a as [|x a IH]; simpl; [reflexivity |].
  now rewrite IH, append_assoc.
Qed.

Lemma subst_chars_ext f g (s : string) :
  (forall c, f c = g c) -> subst_chars f s = subst_chars g s.
Proof. intros E. induction s as [|x s IH]; simpl; [reflexivity | now rewrite E, IH]. Qed.

Lemma subst_chars_compose f g (s : string) :
  subst_chars g (subst_chars f s) = subst_chars (fun c => subst_chars g (f c)) s.
Proof.
  induction s as [|x s IH]; simpl; [reflexivity |].
  now rewrite subst_chars_app, IH.
Qed.

Lemma replace_all_subst c r (s : string) :
  replace_all c r s
  = subst_chars (fun x => if Ascii.eqb x c then r else String x "") s.
Proof.
  induction s as [|x s IH]; simpl; [reflexivity |].
  rewrite IH. now destruct (Ascii.eqb x c).
Qed.

(** The five chained replacements amount to one pass that maps every
    character to its entity: a later pattern never matches inside an
    entity produced by an earlier one. *)
Lemma escape_chain (s : string) :
  replace_all "'" "&#39;"
    (replace_all "034" "&quot;"
       (replace_all ">" "&gt;"
          (replace_all "<" "&lt;" (replace_all "&" "&amp;" s))))
  = subst_chars entity s.
Proof.
  rewrite !replace_all_subst, !subst_chars_compose.
  apply subst_chars_ext.
  intros [[] [] [] [] [] [] [] []]; reflexivity.
Qed.

Lemma occurs_app c (a b : string) :
  occurs c (a +:+ b) = occurs c a || occurs c b.
Proof.
  induction a as [|x a IH]; simpl; [reflexivity |].
  now rewrite IH, orb_assoc.
Qed.

Lemma entity_Escaped c (s : string) : Escaped s -> Escaped (entity c +:+ s).
Proof.
  intros H. unfold entity.
  destruct (Ascii.eqb c "&") eqn:E1; [now constructor |].
  destruct (Ascii.eqb c "<") eqn:E2; [now constructor |].
  destruct (Ascii.eqb c ">") eqn:E3; [now constructor |].
  destruct (Ascii.eqb c "034") eqn:E4; [now constructor |].
  destruct (Ascii.eqb c "'") eqn:E5; [now constructor |].
  simpl. apply Escaped_plain; [| exact H].
  unfold special. now rewrite E1, E2, E3, E4, E5.
Qed.

Lemma subst_entity_Escaped (s : string) : Escaped (subst_chars entity s).
Proof.
  induction s as [|x s IH]; simpl; [constructor | now apply entity_Escaped].
Qed.

Lemma entity_markup_free c :
  occurs "<" (entity c) = false /\ occurs ">" (entity c) = false
  /\ occurs "034" (entity c) = false /\ occurs "'" (entity c) = false.
Proof.
  revert c. intros [[] [] [] [] [] [] [] []]; repeat split; reflexivity.
Qed.

Lemma subst_entity_markup_free (s : string) :
  occurs "<" (subst_chars entity s) = false
  /\ occurs ">" (subst_chars entity s) = false
  /\ occurs "034" (subst_chars entity s) = false
  /\ occurs "'" (subst_chars entity s) = false.
Proof.
  induction s as [|x s (IH1 & IH2 & IH3 & IH4)]; simpl;
    [repeat split; reflexivity |].
  destruct (entity_markup_free x) as (E1 & E2 & E3 & E4).
  rewrite !occurs_app, IH1, IH2, IH3, IH4, E1, E2, E3, E4.
  repeat split; reflexivity.
Qed.

End Escaping.

(** C9.  For every string, [escapeHtml] replaces each occurrence of the
    ampersand, the angle brackets and the two quote characters by its HTML
    entity and leaves every other character alone; the result is an escaped
    string, in which none of the angle brackets and quotes occurs (so it
    cannot close an attribute value or open a tag) and every ampersand
    starts an entity.  On [null] and [undefined] the result is the empty
    string. *)
Theorem escapeHtml_escapes :
  (forall s : string,
      escapeHtml (JStr s) = subst_chars entity s
      /\ Escaped (escapeHtml (JStr s))
      /\ occurs "<" (escapeHtml (JStr s)) = false
      /\ occurs ">" (escapeHtml (JStr s)) = false
      /\ occurs "034" (escapeHtml (JStr s)) = false
      /\ occurs "'" (escapeHtml (JStr s)) = false)
  /\ escapeHtml JNull = ""
  /\ escapeHtml JUndefined = "".
Proof.
  split; [| split; reflexivity].
  intros s.
  assert (E : escapeHtml (JStr s) = subst_chars entity s)
    by (unfold escapeHtml; simpl; apply escape_chain).
  rewrite E.
  split; [reflexivity |].
  split; [apply subst_entity_Escaped |].
  apply subst_entity_markup_free.
Qed.

(** ** Properties of [getPercentage] *)

Example getPercentage_third :
  getPercentage 1 [("timeout", 1); ("oom", 2)] = Some (JStr "33.3").
Proof. vm_compute. reflexivity. Qed.

Example getPercentage_two_thirds :
  getPercentage 2 [("timeout", 1); ("oom", 2)] = Some (JStr "66.7").
Proof. vm_compute. reflexivity. Qed.

Example getPercentage_empty : getPercentage 7 [] = Some (JNum 0).
Proof. reflexivity. Qed.

Example getPercentage_all_zero :
  getPercentage 0 [("timeout", 0); ("oom", 0)] = Some (JNum 0).
Proof. reflexivity. Qed.

(** Where the exact percentage lies half-way between two tenths, the
    double decides: 23 of 80 is 28.75 percent, [(23 / 80) * 100] is the
    double just below it, and 3 of 2000 is 0.15 percent with a double just
    below it. *)
Example getPercentage_half_way :
  getPercentage 23 [("timeout", 23); ("oom", 57)] = Some (JStr "28.7")
  /\ getPercentage 3 [("timeout", 3); ("oom", 1997)] = Some (JStr "0.1")
  /\ getPercentage 1 [("timeout", 1); ("oom", 7)] = Some (JStr "12.5").
Proof. repeat split; vm_compute; reflexivity. Qed.

(** The quotient and the product are those of binary64 arithmetic as the
    Standard Library specifies it. *)
Example doubles_agree :
  to_spec (nearest_double 23 80) = binary64_div 23 80
  /\ to_spec (num_times (nearest_double 23 80) 100) = binary64_percentage 23 80
  /\ to_spec (nearest_double 3 2000) = binary64_div 3 2000
  /\ to_spec (num_times (nearest_double 3 2000) 100) = binary64_percentage 3 2000
  /\ to_spec (nearest_double 1 3) = binary64_div 1 3
  /\ to_spec (num_times (nearest_double 1 3) 100) = binary64_percentage 1 3
  /\ to_spec (nearest_double 123456789 7) = binary64_div 123456789 7
  /\ to_spec (num_times (nearest_double 123456789 7) 100)
     = binary64_percentage 123456789 7
  /\ to_spec (nearest_double (-5) 1000000007) = binary64_div (-5) 1000000007.
Proof. repeat split; vm_compute; reflexivity. Qed.

Section Percentage.

Lemma fold_sum_ge (obj : list (string * Z)) (acc : Z) :
  Forall (fun kv => 0 <= snd kv) obj ->
  acc <= fold_left (fun sum kv => sum + snd kv) obj acc.
Proof.
  intros H. revert acc.
  induction H as [|kv obj Hkv _ IH]; intros acc; simpl; [lia |].
  specialize (IH (acc + snd kv)). lia.
Qed.


Lemma overflow_bound_large : 2 ^ 53 < overflow_bound.
Proof. vm_compute. reflexivity. Qed.

Lemma pow2_pos (k : Z) : 0 < pow2 k.
Proof. unfold pow2. apply Z.pow_pos_nonneg; lia. Qed.

Lemma pow2_nonneg (k : Z) : 0 <= k -> pow2 k = 2 ^ k.
Proof. intros H. unfold pow2. now rewrite Z.max_r. Qed.

Lemma pow2_nonpos (k : Z) : k <= 0 -> pow2 k = 1.
Proof. intros H. unfold pow2. now rewrite Z.max_l. Qed.

Lemma nearest_even_bound (num den : Z) :
  0 < den -> 0 <= num ->
  Z.abs (2 * (nearest_even num den * den - num)) <= den
  /\ num / den <= nearest_even num den.
Proof.
  intros Hden Hnum. unfold nearest_even.
  pose proof (Z.div_mod num den ltac:(lia)) as D.
  pose proof (Z.mod_pos_bound num den Hden) as B.
  destruct ((den <? 2 * (num mod den))
            || ((2 * (num mod den) =? den) && Z.odd (num / den))) eqn:E.
  - split; [| lia].
    apply orb_true_iff in E as [E | E].
    + apply Z.ltb_lt in E. nia.
    + apply andb_true_iff in E as [E _]. apply Z.eqb_eq in E. nia.
  - split; [| lia].
    apply orb_false_iff in E as [E _]. apply Z.ltb_ge in E. nia.
Qed.

(** Comparing [a / q] with a power of two does not depend on how the
    fraction is scaled. *)
Lemma scaled_le (a q i j i' j' : Z) :
  0 <= i -> 0 <= j -> 0 <= i' -> 0 <= j' -> j - i = j' - i' ->
  q * 2 ^ j <= a * 2 ^ i -> q * 2 ^ j' <= a * 2 ^ i'.
Proof.
  intros Hi Hj Hi' Hj' E H.
  assert (P : 0 < 2 ^ i) by (apply Z.pow_pos_nonneg; lia).
  assert (P' : 0 < 2 ^ i') by (apply Z.pow_pos_nonneg; lia).
  assert (H1 : q * 2 ^ (j + i') <= a * 2 ^ (i + i')).
  { rewrite !Z.pow_add_r by lia. nia. }
  replace (j + i') with (j' + i) in H1 by lia.
  replace (i + i') with (i' + i) in H1 by lia.
  rewrite !Z.pow_add_r in H1 by lia. nia.
Qed.

Lemma scaled_lt (a q i j i' j' : Z) :
  0 <= i -> 0 <= j -> 0 <= i' -> 0 <= j' -> j - i = j' - i' ->
  a * 2 ^ i < q * 2 ^ j -> a * 2 ^ i' < q * 2 ^ j'.
Proof.
  intros Hi Hj Hi' Hj' E H.
  destruct (Z.lt_ge_cases (a * 2 ^ i') (q * 2 ^ j')) as [L | G]; [exact L |].
  pose proof (scaled_le a q i' j' i j Hi' Hj' Hi Hj ltac:(lia) G). lia.
Qed.

Lemma quotient_log2_spec (a q : Z) :
  0 < a -> 0 < q ->
  let k := quotient_log2 a q in
  (forall i j, 0 <= i -> 0 <= j -> j - i = k -> q * 2 ^ j <= a * 2 ^ i)
  /\ (forall i j, 0 <= i -> 0 <= j -> j - i = k + 1 -> a * 2 ^ i < q * 2 ^ j).
Proof.
  intros Ha Hq.
  pose proof (Z.log2_spec a Ha) as [La Ua].
  pose proof (Z.log2_spec q Hq) as [Lq Uq].
  pose proof (Z.log2_nonneg a) as Na.
  pose proof (Z.log2_nonneg q) as Nq.
  set (la := Z.log2 a) in *. set (lq := Z.log2 q) in *.
  assert (Low : q * 2 ^ la <= a * 2 ^ (lq + 1)).
  { replace (Z.succ lq) with (lq + 1) in Uq by lia.
    assert (0 < 2 ^ la) by (apply Z.pow_pos_nonneg; lia).
    assert (0 < 2 ^ (lq + 1)) by (apply Z.pow_pos_nonneg; lia). nia. }
  assert (Upp : a * 2 ^ lq < q * 2 ^ (la + 1)).
  { replace (Z.succ la) with (la + 1) in Ua by lia.
    assert (0 < 2 ^ lq) by (apply Z.pow_pos_nonneg; lia).
    assert (0 < 2 ^ (la + 1)) by (apply Z.pow_pos_nonneg; lia). nia. }
  unfold quotient_log2. fold la lq. cbv zeta. unfold pow2.
  destruct (Z.ltb_spec (a * 2 ^ Z.max 0 (- (la - lq)))
              (q * 2 ^ Z.max 0 (la - lq))) as [T | T].
  - split; intros i j Hi Hj E.
    + apply (scaled_le a q (lq + 1) la); try lia. 
    + apply (scaled_lt a q (Z.max 0 (- (la - lq))) (Z.max 0 (la - lq)));
        try lia.
  - split; intros i j Hi Hj E.
    + apply (scaled_le a q (Z.max 0 (- (la - lq))) (Z.max 0 (la - lq)));
        try lia.
    + apply (scaled_lt a q lq (la + 1)); try lia.
Qed.

Lemma quotient_log2_lt (a q K : Z) :
  0 < a -> 0 < q -> 0 <= K -> a < q * 2 ^ K -> quotient_log2 a q < K.
Proof.
  intros Ha Hq HK H.
  destruct (quotient_log2_spec a q Ha Hq) as [Low _].
  destruct (Z.lt_ge_cases (quotient_log2 a q) K) as [L | G]; [exact L |].
  specialize (Low 0 (quotient_log2 a q) ltac:(lia) ltac:(lia) ltac:(lia)).
  pose proof (Z.pow_le_mono_r 2 K (quotient_log2 a q) ltac:(lia) G).
  rewrite Z.pow_0_r in Low. nia.
Qed.

Lemma quotient_log2_ge (a q J : Z) :
  0 < a -> 0 < q -> 0 <= J -> q <= a * 2 ^ J -> - J <= quotient_log2 a q.
Proof.
  intros Ha Hq HJ H.
  destruct (quotient_log2_spec a q Ha Hq) as [_ Upp].
  destruct (Z.le_gt_cases (- J) (quotient_log2 a q)) as [L | G]; [exact L |].
  specialize (Upp (- (quotient_log2 a q + 1)) 0
                ltac:(lia) ltac:(lia) ltac:(lia)).
  pose proof (Z.pow_le_mono_r 2 J (- (quotient_log2 a q + 1)) ltac:(lia)
                ltac:(lia)).
  rewrite Z.pow_0_r in Upp. nia.
Qed.

(** Rounding a quotient in the normal range below 2^52: the result has a
    negative exponent [e], and its significand is the integer nearest to
    [a / q * 2^(- e)], between 2^52 and 2^53. *)
Lemma round_double_normal (a q K J : Z) :
  0 < a -> 0 < q ->
  0 <= K <= 52 -> a < q * 2 ^ K ->
  0 <= J <= 1022 -> q <= a * 2 ^ J ->
  exists m e,
    round_double a q = Double m e
    /\ - J - 52 <= e < K - 52
    /\ m = nearest_even (a * 2 ^ (- e)) q
    /\ 2 ^ 52 <= m <= 2 ^ 53
    /\ 2 ^ 52 * q <= a * 2 ^ (- e).
Proof.
  intros Ha Hq HK HaK HJ HqJ.
  pose proof (quotient_log2_lt a q K Ha Hq ltac:(lia) HaK) as Hk1.
  pose proof (quotient_log2_ge a q J Ha Hq ltac:(lia) HqJ) as Hk2.
  destruct (quotient_log2_spec a q Ha Hq) as [Low Upp].
  set (k := quotient_log2 a q) in *.
  specialize (Low (52 - k) 52 ltac:(lia) ltac:(lia) ltac:(lia)).
  specialize (Upp (52 - k) 53 ltac:(lia) ltac:(lia) ltac:(lia)).
  unfold round_double. fold k. cbv zeta.
  rewrite Z.max_l by lia.
  rewrite (pow2_nonneg (- (k - 52))) by lia.
  rewrite (pow2_nonpos (k - 52)) by lia.
  rewrite !Z.mul_1_r.
  replace (- (k - 52)) with (52 - k) by lia.
  set (num := a * 2 ^ (52 - k)) in *.
  assert (Hnum : 0 <= num).
  { unfold num. assert (0 < 2 ^ (52 - k)) by (apply Z.pow_pos_nonneg; lia).
    nia. }
  destruct (nearest_even_bound num q Hq Hnum) as [B1 B2].
  set (m := nearest_even num q) in *.
  assert (Hlo : 2 ^ 52 <= m).
  { assert (2 ^ 52 <= num / q) by (apply Z.div_le_lower_bound; lia). lia. }
  assert (Hhi : m <= 2 ^ 53).
  { assert (P52 : 2 ^ 53 = 9007199254740992) by reflexivity.
    rewrite P52 in *. nia. }
  pose proof overflow_bound_large as Big.
  destruct (Z.leb_spec overflow_bound m) as [O | O]; [lia |].
  exists m, (k - 52).
  replace (- (k - 52)) with (52 - k) by lia. fold num.
  repeat split; try lia; reflexivity.
Qed.

(** The tenths printed for a twice rounded percentage are a nearest number
    of tenths of the exact percentage: the two rounding errors are too
    small to move it to another one. *)
Lemma tenth_nearest (v t s1 s2 m1 m2 n : Z) :
  0 < v <= 2 ^ 40 -> 0 < t -> 0 < s1 -> 0 < s2 ->
  2 ^ 52 <= m1 -> 2 ^ 52 <= m2 ->
  Z.abs (2 * (m1 * t - v * s1)) <= t ->
  Z.abs (2 * (m2 * s1 - m1 * 100 * s2)) <= s1 ->
  n = (2 * (10 * m2) + s2) / (2 * s2) ->
  0 <= n /\ Z.abs (2 * (n * t - 1000 * v)) <= t.
Proof.
  intros Hv Ht Hs1 Hs2 Hm1 Hm2 A B ->.
  change (2 ^ 40) with 1099511627776 in Hv.
  change (2 ^ 52) with 4503599627370496 in Hm1, Hm2.
  set (n := (2 * (10 * m2) + s2) / (2 * s2)).
  pose proof (Z.div_mod (2 * (10 * m2) + s2) (2 * s2) ltac:(lia)) as D.
  pose proof (Z.mod_pos_bound (2 * (10 * m2) + s2) (2 * s2) ltac:(lia)) as R.
  fold n in D.
  assert (C : Z.abs (2 * (n * s2 - 10 * m2)) <= s2) by lia.
  assert (Hn : 0 <= n) by (apply Z.div_pos; lia).
  split; [exact Hn |].
  set (c := 9007199254740991).
  assert (Ha : t * c <= 2 * v * s1).
  { assert (t * 9007199254740992 <= t * (2 * m1))
      by (apply Z.mul_le_mono_nonneg_l; lia).
    unfold c. lia. }
  assert (Hb : s1 * c <= 200 * m1 * s2).
  { assert (s1 * 9007199254740992 <= s1 * (2 * m2))
      by (apply Z.mul_le_mono_nonneg_l; lia).
    unfold c. lia. }
  assert (Hc : 2 * m1 * t <= 2 * v * s1 + t) by lia.
  assert (P12 : 0 < s1 * s2) by (clear - Hs1 Hs2; nia).
  assert (H1 : 1000 * t * s2 * c <= 2000 * v * (s1 * s2))
    by (clear - Ha Hs2; nia).
  assert (H2 : 1000 * t * s2 <= v * (s1 * s2)).
  { assert (0 <= 1000 * t * s2) by (clear - Ht Hs2; nia).
    clear - H1 H. unfold c in H1. nia. }
  assert (H3 : 10 * t * s1 * c <= 2000 * v * (s1 * s2) + 1000 * t * s2).
  { assert (K1 : 10 * t * (s1 * c) <= 10 * t * (200 * m1 * s2))
      by (clear - Hb Ht; nia).
    assert (K2 : 2 * m1 * t * (1000 * s2) <= (2 * v * s1 + t) * (1000 * s2))
      by (clear - Hc Hs2; nia).
    clear - K1 K2. nia. }
  assert (H4 : (10 * t * s1 + 1000 * t * s2) * c <= 4001 * v * (s1 * s2))
    by (clear - H1 H2 H3; nia).
  assert (H5 : 10 * t * s1 + 1000 * t * s2 < s1 * s2).
  { assert (K : 4001 * v * (s1 * s2) < c * (s1 * s2))
      by (clear - Hv P12; unfold c; nia).
    clear - H4 K. unfold c in *. nia. }
  set (X := n * t - 1000 * v).
  assert (I : s1 * s2 * (2 * X)
              = t * s1 * (2 * (n * s2 - 10 * m2))
                + 10 * t * (2 * (m2 * s1 - m1 * 100 * s2))
                + 1000 * s2 * (2 * (m1 * t - v * s1))) by (unfold X; ring).
  assert (E1 : Z.abs (t * s1 * (2 * (n * s2 - 10 * m2))) <= t * s1 * s2).
  { assert (0 <= t * s1) by (apply Z.mul_nonneg_nonneg; lia).
    rewrite Z.abs_mul, (Z.abs_eq (t * s1)) by assumption.
    apply Z.mul_le_mono_nonneg_l; assumption. }
  assert (E2 : Z.abs (10 * t * (2 * (m2 * s1 - m1 * 100 * s2))) <= 10 * t * s1).
  { rewrite Z.abs_mul, (Z.abs_eq (10 * t)) by lia.
    apply Z.mul_le_mono_nonneg_l; [lia | assumption]. }
  assert (E3 : Z.abs (1000 * s2 * (2 * (m1 * t - v * s1))) <= 1000 * s2 * t).
  { rewrite Z.abs_mul, (Z.abs_eq (1000 * s2)) by lia.
    apply Z.mul_le_mono_nonneg_l; [lia | assumption]. }
  assert (E : Z.abs (s1 * s2 * (2 * X)) < s1 * s2 * (t + 1)).
  { rewrite I. clear - E1 E2 E3 H5. lia. }
  rewrite Z.abs_mul, (Z.abs_eq (s1 * s2)) in E by lia.
  assert (Z.abs (2 * X) < t + 1) by (clear - E P12; nia). lia.
Qed.

Lemma nearest_double_pos (p q : Z) :
  0 < p -> nearest_double p q = round_double p q.
Proof. destruct p; [lia | reflexivity | lia]. Qed.

Lemma percentage_text (v t : Z) :
  0 <= v <= 2 ^ 40 -> 0 < t < 2 ^ 53 ->
  exists n,
    toFixed1 (num_times (nearest_double v t) 100)
    = Some (Z_to_string (n / 10) +:+ "." +:+ Z_to_string (n mod 10))
    /\ 0 <= n
    /\ Z.abs (2 * (n * t - 1000 * v)) <= t.
Proof.
  intros Hv Ht.
  destruct (Z.eq_dec v 0) as [-> | Hnz].
  { exists 0. split; [reflexivity | lia]. }
  change (2 ^ 40) with 1099511627776 in Hv.
  change (2 ^ 53) with 9007199254740992 in Ht.
  assert (Hpos : 0 < v) by lia.
  assert (P1 : v < t * 2 ^ 41) by (change (2 ^ 41) with 2199023255552; lia).
  assert (P2 : t <= v * 2 ^ 53) by (change (2 ^ 53) with 9007199254740992; lia).
  destruct (round_double_normal v t 41 53 Hpos ltac:(lia) ltac:(lia) P1
              ltac:(lia) P2) as (m1 & e1 & R1 & He1 & Em1 & Bm1 & L1).
  rewrite (nearest_double_pos v t Hpos), R1. cbn [num_times].
  rewrite (pow2_nonpos e1), (pow2_nonneg (- e1)), Z.mul_1_r by lia.
  set (s1 := 2 ^ (- e1)) in *.
  assert (Hs1 : 0 < s1) by (apply Z.pow_pos_nonneg; lia).
  assert (Hs1' : s1 <= 2 ^ 105) by (apply Z.pow_le_mono_r; lia).
  assert (N1 : 0 <= v * s1) by nia.
  destruct (nearest_even_bound (v * s1) t ltac:(lia) N1) as [A _].
  rewrite <- Em1 in A.
  change (2 ^ 52) with 4503599627370496 in Bm1, L1.
  change (2 ^ 53) with 9007199254740992 in Bm1.
  change (2 ^ 105) with 40564819207303340847894502572032 in Hs1'.
  assert (Hm100 : 0 < m1 * 100) by lia.
  assert (P3 : m1 * 100 < s1 * 2 ^ 52).
  { change (2 ^ 52) with 4503599627370496.
    assert (K1 : 2 * m1 * t <= 2 * v * s1 + t) by lia.
    assert (K2 : 100 * (2 * m1 * t) <= 100 * (2 * v * s1 + t)) by lia.
    assert (K3 : 100 * (2 * v * s1 + t) < 2 * (4503599627370496 * (s1 * t))).
    { assert (v * s1 <= 1099511627776 * s1)
        by (apply Z.mul_le_mono_nonneg_r; lia).
      assert (1 * t <= s1 * t) by (apply Z.mul_le_mono_nonneg_r; lia).
      assert (s1 * 1 <= s1 * t) by (apply Z.mul_le_mono_nonneg_l; lia).
      lia. }
    assert (K4 : m1 * 100 * t < s1 * 4503599627370496 * t) by lia.
    clear - K4 Ht. nia. }
  assert (P4 : s1 <= m1 * 100 * 2 ^ 53)
    by (change (2 ^ 53) with 9007199254740992; lia).
  destruct (round_double_normal (m1 * 100) s1 52 53 Hm100 Hs1 ltac:(lia) P3
              ltac:(lia) P4) as (m2 & e2 & R2 & He2 & Em2 & Bm2 & L2).
  rewrite (nearest_double_pos _ _ Hm100), R2. cbn [toFixed1].
  rewrite (pow2_nonpos e2), (pow2_nonneg (- e2)) by lia.
  rewrite !Z.mul_1_r.
  set (s2 := 2 ^ (- e2)) in *.
  assert (Hs2 : 0 < s2) by (apply Z.pow_pos_nonneg; lia).
  change (2 ^ 52) with 4503599627370496 in Bm2, L2.
  change (2 ^ 53) with 9007199254740992 in Bm2.
  rewrite (Z.abs_eq m2) by lia.
  assert (N2 : 0 <= m1 * 100 * s2) by nia.
  destruct (nearest_even_bound (m1 * 100 * s2) s1 Hs1 N2) as [B _].
  rewrite <- Em2 in B.
  destruct (Z.leb_spec (10 ^ 21 * s2) m2) as [T | T].
  { change (10 ^ 21) with 1000000000000000000000 in T. nia. }
  destruct (Z.ltb_spec m2 0) as [S | S]; [lia |].
  exists ((2 * (10 * m2) + s2) / (2 * s2)).
  split; [reflexivity |].
  apply (tenth_nearest v t s1 s2 m1 m2); try assumption; lia.
Qed.

End Percentage.



(** ** The in-memory cache *)

Example volatile_scenario :
  let d := setCachedData 0 "log-types-1" default_data
             (fresh_instance "1" ∅ false false) in
  getCachedData 29999 "log-types-1" d = default_data
  /\ getCachedData 30000 "log-types-1" d = JNull
  /\ getCachedData 30001 "log-types-1" d = JNull.
Proof. repeat split; reflexivity. Qed.

(** C4.  After [setCachedData] stored [payload] under [key] at [fetchedAt],
    [getCachedData] gives back exactly [payload] while
    [now - fetchedAt < 30000] and [null] from then on, whatever was stored
    under the key before; an entry stored at 0 is read at 29999 and gone at
    30001. *)
Theorem volatile_ttl (d : Dashboard) (key : string) (payload : JsVal)
    (fetchedAt now : Z) :
  cacheTimeout = 30000
  /\ getCachedData now key (setCachedData fetchedAt key payload d)
     = (if now - fetchedAt <? cacheTimeout then payload else JNull)
  /\ getCachedData 29999 key (setCachedData 0 key payload d) = payload
  /\ getCachedData 30001 key (setCachedData 0 key payload d) = JNull.
Proof.
  assert (G : forall t n,
             getCachedData n key (setCachedData t key payload d)
             = (if n - t <? cacheTimeout then payload else JNull)).
  { intros t n. unfold getCachedData, setCachedData. simpl.
    now rewrite lookup_insert_eq. }
  split; [reflexivity |]. split; [apply G |].
  split; rewrite G; reflexivity.
Qed.

(** ** The persistent cache *)

(** Case analysis on the page, down to the page's own reader. *)
Ltac reader_cases page :=
  destruct page;
  unfold getLocalCachedData, V1.getLocalCachedData,
    Tailwind.getLocalCachedData, getItem in *.

(** The age of a numeric timestamp is an integer difference. *)
Ltac integer_clock :=
  change (pow2 (- 0)) with 1; change (pow2 0) with 1;
  change (2 ^ 0) with 1; rewrite ?Z.mul_1_r.

Lemma elapsed_lt_number (now t ttl : Z) :
  elapsed_lt now (JNum t) ttl = Ok (now - t <? ttl).
Proof. unfold elapsed_lt, clock_minus, num_lt. cbn. now integer_clock. Qed.

Section PersistentCache.

Variable page : Page.

Lemma stale_entry_read (d : Dashboard) (key : string) (payload : JsVal)
    (timestamp now : Z) (allowStale : bool) :
  getItemFails d = false ->
  localStorage d !! key = Some (entry payload timestamp) ->
  truthy payload = true ->
  0 < timestamp ->
  getLocalCachedData page now key allowStale d
  = Ok (if (now - timestamp <? localCacheTTL) || allowStale
        then payload else JNull).
Proof.
  intros Hrd Hget Hp Hts.
  assert (Hnz : (timestamp =? 0) = false) by (apply Z.eqb_neq; lia).
  reader_cases page; unfold entry in *;
    rewrite Hrd; simpl; rewrite Hget; simpl.
  - rewrite Hp, Hnz. simpl. integer_clock.
    now destruct (now - timestamp <? localCacheTTL), allowStale.
  - destruct allowStale; [now rewrite orb_true_r |].
    simpl. integer_clock.
    now destruct (now - timestamp <? localCacheTTL).
Qed.

Lemma local_get_total (d : Dashboard) (key : string) (now : Z)
    (allowStale : bool) :
  exists v, getLocalCachedData page now key allowStale d = Ok v.
Proof.
  reader_cases page; unfold try_catch;
    match goal with |- exists v, match ?b with _ => _ end = _ =>
      destruct b; eauto end.
Qed.

Lemma local_get_failed_read (d : Dashboard) (key : string) (now : Z)
    (allowStale : bool) :
  read_fails key d = true ->
  getLocalCachedData page now key allowStale d = Ok JNull.
Proof.
  unfold read_fails. intros H.
  reader_cases page;
    destruct (getItemFails d); try reflexivity; simpl in *;
    destruct (localStorage d !! key) as [[| |v]|]; try discriminate;
    reflexivity.
Qed.

End PersistentCache.

Lemma local_set_total (d : Dashboard) (key : string) (payload : JsVal)
    (now : Z) :
  exists d', setLocalCachedData now key payload d = Ok d'
             /\ alerts d' = alerts d /\ summaryCards d' = summaryCards d
             /\ data d' = data d /\ cache d' = cache d
             /\ lastRequestTime d' = lastRequestTime d
             /\ requests d' = requests d.
Proof.
  unfold setLocalCachedData, setItem_entry, try_catch.
  destruct (setItemFails d); eexists; repeat split; reflexivity.
Qed.

Lemma local_set_failed_write (d : Dashboard) (key : string)
    (payload : JsVal) (now : Z) :
  setItemFails d = true -> setLocalCachedData now key payload d = Ok d.
Proof.
  intros H. unfold setLocalCachedData, setItem_entry. now rewrite H.
Qed.

Lemma local_set_entry (d d' : Dashboard) (key : string) (payload : JsVal)
    (now : Z) :
  setItemFails d = false ->
  is_undefined payload = false ->
  json_clone payload = payload ->
  setLocalCachedData now key payload d = Ok d' ->
  localStorage d' !! key = Some (entry payload now)
  /\ getItemFails d' = getItemFails d.
Proof.
  intros Hw Hdef Hclone. unfold setLocalCachedData, setItem_entry, entry.
  rewrite Hw. simpl try_catch. intros [= <-]. simpl localStorage.
  rewrite lookup_insert_eq. split; [| reflexivity].
  destruct payload; try discriminate Hdef; cbn [json_clone];
    cbn [json_clone] in Hclone; now rewrite ?Hclone.
Qed.

Example snapshot_survives_json : json_clone (normalize busy_response) = normalize busy_response.
Proof. reflexivity. Qed.

(** C5.  When the durable store holds an entry for a key whose age has
    reached the 60000 ms TTL, a read without [allowStale] finds nothing and
    a read with [allowStale] returns the payload of the entry, at every
    later time and on both pages.  An entry is what [setLocalCachedData]
    writes: a snapshot object under [data] and a clock reading under
    [timestamp]. *)
Theorem persistent_stale_read (page : Page) (d : Dashboard) (key : string)
    (payload : JsVal) (timestamp now : Z) :
  getItemFails d = false ->
  localStorage d !! key = Some (entry payload timestamp) ->
  truthy payload = true ->
  0 < timestamp ->
  localCacheTTL <= now - timestamp ->
  localCacheTTL = 60000
  /\ getLocalCachedData page now key false d = Ok JNull
  /\ getLocalCachedData page now key true d = Ok payload.
Proof.
  intros Hrd Hget Hp Hts Hold.
  assert (Hlt : (now - timestamp <? localCacheTTL) = false)
    by (apply Z.ltb_ge; exact Hold).
  split; [reflexivity |].
  rewrite !(stale_entry_read page d key payload timestamp now) by assumption.
  rewrite Hlt. split; reflexivity.
Qed.

Lemma persistent_stale_read_witness :
  getLocalCachedData Bootstrap 1790000 "log_analysis_1" false
    (fresh_instance "1" {[ "log_analysis_1" := entry default_data 1700000 ]}
       false false) = Ok JNull
  /\ getLocalCachedData Bootstrap 1790000 "log_analysis_1" true
       (fresh_instance "1" {[ "log_analysis_1" := entry default_data 1700000 ]}
          false false) = Ok default_data.
Proof.
  refine (proj2 (persistent_stale_read Bootstrap
                   (fresh_instance "1"
                      {[ "log_analysis_1" := entry default_data 1700000 ]}
                      false false)
                   "log_analysis_1" default_data 1700000 1790000 _ _ _ _ _)).
  - reflexivity.
  - reflexivity.
  - reflexivity.
  - reflexivity.
  - discriminate.
Defined.

(** C8.  Reading and writing the durable store never raises and never
    shows anything to the user.  A read that fails (the store cannot be
    accessed, the item is empty or is not JSON text) returns [null], as for
    a key that was never stored; a write that fails leaves everything as it
    was. *)
Theorem durable_failures_are_misses (page : Page) (d : Dashboard)
    (key : string) (payload : JsVal) (now : Z) (allowStale : bool) :
  (exists v, getLocalCachedData page now key allowStale d = Ok v)
  /\ (read_fails key d = true ->
      getLocalCachedData page now key allowStale d = Ok JNull)
  /\ (exists d', setLocalCachedData now key payload d = Ok d'
                 /\ notices d' = notices d)
  /\ (setItemFails d = true -> setLocalCachedData now key payload d = Ok d).
Proof.
  split; [apply local_get_total |].
  split; [apply local_get_failed_read |].
  split; [| apply local_set_failed_write].
  destruct (local_set_total d key payload now) as (d' & E & Ha & Hs & _).
  exists d'. split; [exact E |]. unfold notices. now rewrite Ha, Hs.
Qed.

Example durable_failures_sample :
  let broken := fresh_instance "1" {[ "log-types-1" := StoredGarbage ]} false true in
  let locked := fresh_instance "1" ∅ true true in
  getLocalCachedData TailwindCss 5000 "log-types-1" true broken = Ok JNull
  /\ getLocalCachedData Bootstrap 5000 "log_analysis_1" false locked = Ok JNull
  /\ setLocalCachedData 5000 "log-types-1" default_data broken = Ok broken.
Proof. repeat split; reflexivity. Qed.

(** ** The rate limiter *)

Section RateLimiter.

Variable page : Page.

Lemma loadData_begin_uncached (now : Z) (d : Dashboard) :
  nothing_cached page now d = true ->
  loadData_begin page now d
  = (if now - lastRequestTime d <? minRequestInterval
     then Ok (Settled d)
     else Ok (Awaiting {| p_now := now; p_key := getCacheKey page d |}
                (set_requests (now :: requests d) d))).
Proof.
  unfold nothing_cached, persistent_miss, loadData_begin. intros H.
  destruct (getLocalCachedData page now (getCacheKey page d) false d)
    as [v|e]; [| discriminate H].
  apply andb_true_iff in H as [Hl Hv].
  apply negb_true_iff in Hl, Hv. simpl.
  rewrite Hl, Hv. now destruct (now - lastRequestTime d <? minRequestInterval).
Qed.

Lemma receive_records (p : Pending) (later : Z) (resp : Response)
    (d0 d1 : Dashboard) :
  receive page p later resp d0 = Returned d1 ->
  lastRequestTime d1 = p_now p /\ requests d1 = requests d0.
Proof.
  unfold receive, V1.receive, Tailwind.receive.
  destruct page, resp; try discriminate;
    try (destruct (negb (truthy v) || negb (typeof_object v));
         [discriminate |]);
    try match goal with |- context [V1.printCleaningSummary ?x] =>
          destruct (V1.printCleaningSummary x); [| discriminate] end;
    match goal with |- context [setLocalCachedData ?n ?k ?v ?x] =>
      destruct (local_set_total x k v n) as (d' & E & _ & _ & _ & _ & Ht & Hr)
    end;
    rewrite E; intros [= <-]; rewrite Ht, Hr; split; reflexivity.
Qed.

Lemma loadData_begin_awaiting (now : Z) (d d' : Dashboard) (p : Pending) :
  loadData_begin page now d = Ok (Awaiting p d') ->
  p = {| p_now := now; p_key := getCacheKey page d |}
  /\ d' = set_requests (now :: requests d) d
  /\ minRequestInterval <= now - lastRequestTime d.
Proof.
  unfold loadData_begin, loadData_catch, try_catch.
  destruct (getLocalCachedData page now (getCacheKey page d) false d)
    as [v|e]; simpl.
  - destruct (truthy v); [discriminate |].
    destruct (truthy (getCachedData now (getCacheKey page d) d));
      [discriminate |].
    destruct (Z.ltb_spec (now - lastRequestTime d) minRequestInterval);
      [discriminate |].
    intros [= <- <-]. repeat split. assumption.
  - destruct (getLocalCachedData page now (getCacheKey page d) true d);
      discriminate.
Qed.

End RateLimiter.

(** C6.  The minimum interval is 5000 ms.  Take a load whose permission
    check at [first] was granted, so that its request was sent, and whose
    response has been handled: the fetch time recorded is [first].  After
    that, a load that reaches the rate limiter (neither cache serves the
    key) is denied if less than 5000 ms have passed since [first]: it
    returns with the state untouched and no request sent.  From 5000 ms on
    it is allowed and its request is sent.  So of these two permission
    checks, less than 5000 ms apart, the second is a denial. *)
Theorem rate_limit (page : Page) (first later now : Z) (resp : Response)
    (p : Pending) (before sent arrived recorded d : Dashboard) :
  loadData_begin page first before = Ok (Awaiting p sent) ->
  receive page p later resp arrived = Returned recorded ->
  lastRequestTime d = lastRequestTime recorded ->
  nothing_cached page now d = true ->
  minRequestInterval = 5000
  /\ requests sent = first :: requests before
  /\ lastRequestTime recorded = first
  /\ loadData_begin page now d
     = (if now - first <? 5000
        then Ok (Settled d)
        else Ok (Awaiting {| p_now := now; p_key := getCacheKey page d |}
                   (set_requests (now :: requests d) d))).
Proof.
  intros Hfirst Hrec Hsame Hmiss.
  destruct (loadData_begin_awaiting page first before sent p Hfirst)
    as (-> & -> & _).
  destruct (receive_records page _ later resp arrived recorded Hrec)
    as [Ht _]. cbn [p_now] in Ht.
  split; [reflexivity |]. split; [reflexivity |]. split; [exact Ht |].
  rewrite (loadData_begin_uncached page now d Hmiss), Hsame, Ht.
  reflexivity.
Qed.

(** A browser whose storage rejects writes: the refresh of 100000 is
    answered at 100200; the next refresh empties the in-memory cache and
    comes 4999 ms, or 5000 ms, after the first. *)
Lemma rate_limit_witness :
  let p := {| p_now := 100000; p_key := "log_analysis_5" |} in
  let d0 := fresh_instance "5" ∅ false true in
  let d1 := state_of (receive Bootstrap p 100200 (Body busy_response)
                        (set_requests [100000] d0)) in
  let d := refresh_cleared Bootstrap d1 in
  loadData_begin Bootstrap 104999 d = Ok (Settled d)
  /\ loadData_begin Bootstrap 105000 d
     = Ok (Awaiting {| p_now := 105000; p_key := "log_analysis_5" |}
             (set_requests (105000 :: requests d) d)).
Proof.
  set (p := {| p_now := 100000; p_key := "log_analysis_5" |}).
  set (d0 := fresh_instance "5" ∅ false true).
  set (d1 := state_of (receive Bootstrap p 100200 (Body busy_response)
                         (set_requests [100000] d0))).
  set (d := refresh_cleared Bootstrap d1).
  assert (H0 : loadData_begin Bootstrap 100000 d0
               = Ok (Awaiting p (set_requests [100000] d0)))
    by (vm_compute; reflexivity).
  assert (H1 : receive Bootstrap p 100200 (Body busy_response)
                 (set_requests [100000] d0) = Returned d1)
    by (vm_compute; reflexivity).
  assert (H2 : lastRequestTime d = lastRequestTime d1) by reflexivity.
  assert (H3 : forall now, nothing_cached Bootstrap now d = true)
    by (intros now; vm_compute; reflexivity).
  split.
  - exact (proj2 (proj2 (proj2
             (rate_limit Bootstrap 100000 100200 104999 (Body busy_response)
                p d0 _ _ d1 d H0 H1 H2 (H3 104999))))).
  - exact (proj2 (proj2 (proj2
             (rate_limit Bootstrap 100000 100200 105000 (Body busy_response)
                p d0 _ _ d1 d H0 H1 H2 (H3 105000))))).
Defined.

(** ** Normalisation and the recent-errors panel *)

Lemma normalize_field (raw : JsVal) :
  Forall (fun kd => field (normalize raw) (fst kd)
                    = js_or (field raw (fst kd)) (snd kd))
    required_defaults.
Proof. unfold required_defaults. repeat constructor. Qed.

Lemma js_or_defined (a b : JsVal) :
  is_undefined b = false -> is_undefined (js_or a b) = false.
Proof.
  unfold js_or. intros Hb. destruct a; simpl; try assumption; try reflexivity.
  - now destruct b0.
  - now destruct (n =? 0).
  - now destruct (String.eqb s "").
Qed.

Lemma normalize_defined (raw : JsVal) :
  Forall (fun kd => is_undefined (field (normalize raw) (fst kd)) = false)
    required_defaults.
Proof.
  unfold required_defaults.
  repeat constructor; simpl; apply js_or_defined; reflexivity.
Qed.

Lemma render_without_errors (page : Page) (snapshot : JsVal) (d : Dashboard) :
  truthy snapshot = true ->
  field snapshot "recent_errors" = JArr [] ->
  prop snapshot "recent_errors" = Ok (JArr []) ->
  renderRecentErrors page true (set_data snapshot d)
  = EmptyState (empty_errors_message page).
Proof.
  intros Ht Hf Hp.
  destruct page; unfold renderRecentErrors, V1.renderRecentErrors,
    Tailwind.renderRecentErrors; simpl.
  - now rewrite Ht, Hf.
  - now rewrite Hp.
Qed.

(** C7.  Whatever the API returned, the normalised snapshot carries every
    required field: the value of the response where that is truthy and the
    default otherwise, never [undefined].  A response without
    [recent_errors] gets the empty sequence, and both pages then show their
    empty-state box for the recent errors without raising.  The response
    [{total_logs: 5}] normalises to the total 5 and defaults everywhere
    else. *)
Theorem normalize_fills_defaults (page : Page) (raw : JsVal) (d : Dashboard) :
  Forall (fun kd => field (normalize raw) (fst kd)
                    = js_or (field raw (fst kd)) (snd kd)
                    /\ is_undefined (field (normalize raw) (fst kd)) = false)
    required_defaults
  /\ (truthy (field raw "recent_errors") = false ->
      field (normalize raw) "recent_errors" = JArr []
      /\ renderRecentErrors page true (set_data (normalize raw) d)
         = EmptyState (empty_errors_message page))
  /\ normalize bare_response
     = JObj [ ("total_logs", JNum 5);
              ("cleaned_logs_count", JNum 0);
              ("time_range", JStr time_range_default);
              ("processing_status", JStr "unknown");
              ("business_modules", JObj []);
              ("error_categories", JObj []);
              ("error_types", JObj []);
              ("severity_distribution", JObj []);
              ("recent_errors", JArr []);
              ("cleaning_summary", JObj []) ]
  /\ renderRecentErrors page true (set_data (normalize bare_response) d)
     = EmptyState (empty_errors_message page).
Proof.
  split.
  { pose proof (normalize_field raw) as F.
    pose proof (normalize_defined raw) as D.
    rewrite Forall_forall in *. intros kd Hin. split; auto. }
  split.
  { intros Hmiss.
    assert (E : field (normalize raw) "recent_errors" = JArr [])
      by (simpl; unfold js_or; now rewrite Hmiss).
    split; [exact E |].
    apply render_without_errors; [reflexivity | exact E |].
    simpl. unfold js_or. now rewrite Hmiss. }
  split; [reflexivity |].
  now destruct page.
Qed.

(** ** The fallback when a request fails *)

Section Fallback.

Variable page : Page.

Lemma receive_thrown_frame (p : Pending) (now : Z) (resp : Response)
    (d d0 : Dashboard) (e : string) :
  receive page p now resp d = Thrown e d0 ->
  timeRange d0 = timeRange d /\ localStorage d0 = localStorage d
  /\ getItemFails d0 = getItemFails d /\ alerts d0 = alerts d
  /\ summaryCards d0 = summaryCards d.
Proof.
  unfold receive, V1.receive, Tailwind.receive.
  destruct page, resp;
    try (intros [= <- <-]; repeat split; reflexivity);
    try (destruct (negb (truthy v) || negb (typeof_object v));
         [intros [= <- <-]; repeat split; reflexivity |]);
    try match goal with |- context [V1.printCleaningSummary ?x] =>
          destruct (V1.printCleaningSummary x);
          [| intros [= <- <-]; repeat split; reflexivity] end;
    match goal with |- context [setLocalCachedData ?n ?k ?v ?x] =>
      destruct (local_set_total x k v n) as (d' & E & _)
    end;
    rewrite E; discriminate.
Qed.

Lemma local_get_frame (d d0 : Dashboard) (now : Z) (key : string)
    (allowStale : bool) :
  localStorage d0 = localStorage d ->
  getItemFails d0 = getItemFails d ->
  getLocalCachedData page now key allowStale d0
  = getLocalCachedData page now key allowStale d.
Proof.
  intros Hs Hf.
  reader_cases page; now rewrite Hs, Hf.
Qed.

Lemma getCacheKey_frame (d d0 : Dashboard) :
  timeRange d0 = timeRange d -> getCacheKey page d0 = getCacheKey page d.
Proof.
  intros H. destruct page; unfold getCacheKey, V1.getCacheKey,
    Tailwind.getCacheKey; now rewrite H.
Qed.

Lemma showError_notice (message : string) (d : Dashboard) :
  In message (notices (showError page message d)).
Proof.
  destruct page; unfold notices; simpl.
  - now left.
  - apply in_or_app. right. now left.
Qed.

End Fallback.

(** C3, as the pages implement it.  When the request of a load fails, the
    persistent cache is read with [allowStale = true].  If that yields a
    truthy payload, it becomes the data and the page shows no new message:
    the notices are what they were.  Otherwise the data become the default
    snapshot and [showError] puts the banner with the failure message on
    the page. *)
Theorem fetch_failure_fallback (page : Page) (p : Pending) (now : Z)
    (resp : Response) (d : Dashboard) :
  fetch_fails page p now resp d = true ->
  exists fallback d' message,
    getLocalCachedData page now (getCacheKey page d) true d = Ok fallback
    /\ loadData_resume page p now resp d = Ok d'
    /\ if truthy fallback
       then data d' = fallback /\ notices d' = notices d
       else data d' = default_data
            /\ In (failure_banner message) (notices d').
Proof.
  unfold fetch_fails, loadData_resume. intros Hfail.
  destruct (receive page p now resp d) as [d0 | e d0] eqn:R; [discriminate |].
  destruct (receive_thrown_frame page p now resp d d0 e R)
    as (Hr & Hs & Hf & Ha & Hc).
  destruct (local_get_total page d (getCacheKey page d) now true)
    as [fallback G].
  exists fallback.
  unfold loadData_catch.
  rewrite (getCacheKey_frame page d d0 Hr),
    (local_get_frame page d d0 now _ true Hs Hf), G. simpl.
  eexists. exists e. split; [reflexivity |]. split; [reflexivity |].
  destruct (truthy fallback).
  - split; [reflexivity |]. unfold notices. simpl. now rewrite Ha, Hc.
  - split; [reflexivity |].
    change (In (failure_banner e)
              (notices (showError page (failure_banner e) d0))).
    apply showError_notice.
Qed.

Lemma fetch_failure_fallback_witness :
  exists fallback d' message,
    getLocalCachedData Bootstrap 1790200
      (getCacheKey Bootstrap stored_page) true stored_page = Ok fallback
    /\ loadData_resume Bootstrap late_request 1790200 NetworkError stored_page
       = Ok d'
    /\ if truthy fallback
       then data d' = fallback /\ notices d' = notices stored_page
       else data d' = default_data
            /\ In (failure_banner message) (notices d').
Proof.
  apply (fetch_failure_fallback Bootstrap late_request 1790200 NetworkError
           stored_page).
  reflexivity.
Defined.

(** The specification's wording of C3 fails on a page with a 90 s old
    entry whose request meets a network error: the entry is served, and no
    message appears. *)
Lemma stale_notice_absent :
  ~ stale_notice_spec Bootstrap late_request 1790200 NetworkError stored_page.
Proof.
  intros H. destruct (H eq_refl) as (fallback & d' & _ & L & N & _).
  vm_compute in L. injection L as <-.
  destruct N as (notice & Hin & _). exact Hin.
Qed.

(** ** The background refresh behind a stored snapshot *)

Section BackgroundRefresh.

Variable page : Page.

Lemma persistent_serves_frame (now : Z) (d d' : Dashboard) (payload : JsVal) :
  same_store d d' ->
  persistent_serves page now d payload ->
  persistent_serves page now d' payload.
Proof.
  intros (Hr & Hs & Hf) (Hget & Hp). split; [| exact Hp].
  now rewrite (getCacheKey_frame page d d' Hr),
    (local_get_frame page d d' now _ false Hs Hf).
Qed.

Lemma load_served_from_store (now : Z) (d : Dashboard) (payload : JsVal) :
  persistent_serves page now d payload ->
  loadData_begin page now d
  = Ok (Settled (set_timers (S (timers d)) (set_data payload d))).
Proof.
  intros (Hget & Hp). unfold loadData_begin.
  rewrite Hget. simpl. now rewrite Hp.
Qed.

Lemma timer_served_from_store (now : Z) (d : Dashboard) (payload : JsVal)
    (n : nat) :
  persistent_serves page now d payload ->
  timers d = S n ->
  exists d',
    step page (Timer now) d = Ok d'
    /\ same_store d d'
    /\ timers d' = S n
    /\ data d' = payload
    /\ requests d' = requests d
    /\ inflight d' = inflight d.
Proof.
  intros Hsrv Hn. unfold step, refreshData_begin. rewrite Hn.
  assert (Hsame : same_store d (refresh_cleared page (set_timers n d)))
    by (unfold refresh_cleared; destruct page; repeat split; reflexivity).
  rewrite (load_served_from_store now _ payload
             (persistent_serves_frame now d _ payload Hsame Hsrv)).
  destruct Hsrv as (_ & Hp).
  simpl. unfold renderDashboard. simpl. rewrite Hp.
  eexists. split; [reflexivity |].
  unfold refresh_cleared; destruct page; repeat split; reflexivity.
Qed.

Lemma timers_served_from_store (ticks : list Z) (d0 d : Dashboard)
    (payload : JsVal) (n : nat) :
  Forall (fun t => persistent_serves page t d0 payload) ticks ->
  same_store d0 d ->
  timers d = S n ->
  data d = payload ->
  exists d',
    run page (map Timer ticks) d = Ok d'
    /\ timers d' = S n
    /\ data d' = payload
    /\ requests d' = requests d
    /\ inflight d' = inflight d.
Proof.
  intros Hticks. revert d.
  induction Hticks as [|t ticks Ht _ IH]; intros d Hsame Hn Hd.
  - exists d. repeat split; assumption.
  - pose proof (persistent_serves_frame t d0 d payload Hsame Ht) as Hsrv.
    destruct (timer_served_from_store t d payload n Hsrv Hn)
      as (d1 & E1 & Hsame1 & Hn1 & Hd1 & Hr1 & Hi1).
    assert (Hsame01 : same_store d0 d1).
    { destruct Hsame as (A & B & C), Hsame1 as (A1 & B1 & C1).
      repeat split; congruence. }
    destruct (IH d1 Hsame01 Hn1 Hd1) as (d2 & E2 & Hn2 & Hd2 & Hr2 & Hi2).
    exists d2. split.
    { cbn [map run]. rewrite E1. exact E2. }
    repeat split; congruence.
Qed.

End BackgroundRefresh.

(** C1, what the pages do.  A load whose key has a fresh entry in the
    persistent cache takes the entry as its data and queues a
    [refreshData] callback.  When that callback runs while the entry is
    still served, [loadData] finds the same entry, returns before it
    reaches the request and queues the callback again: however many times
    the callback runs in that period, no request is sent, none is under
    way, and one callback is always waiting. *)
Theorem background_refresh_sends_nothing (page : Page) (now : Z)
    (ticks : list Z) (d : Dashboard) (payload : JsVal) :
  persistent_serves page now d payload ->
  Forall (fun t => persistent_serves page t d payload) ticks ->
  exists d',
    run page (Load now :: map Timer ticks) d = Ok d'
    /\ data d' = payload
    /\ timers d' = S (timers d)
    /\ requests d' = requests d
    /\ inflight d' = inflight d.
Proof.
  intros Hsrv Hticks.
  assert (Hp : truthy payload = true) by (destruct Hsrv as (_ & H); exact H).
  cbn [run step].
  rewrite (load_served_from_store page now d payload Hsrv).
  simpl. unfold renderDashboard. simpl. rewrite Hp.
  match goal with |- context [run page _ ?x] =>
    assert (Hsame : same_store d x) by (repeat split; reflexivity);
    destruct (timers_served_from_store page ticks d x payload (timers d)
                Hticks Hsame eq_refl eq_refl)
      as (d' & E & Hn & Hd & Hr & Hi)
  end.
  exists d'. repeat split; assumption.
Qed.

(** A page opened on a browser that stored a snapshot one second before:
    the load and three runs of the queued callback. *)
Lemma background_refresh_sends_nothing_witness :
  exists d',
    run Bootstrap (Load 1701000 :: map Timer [1701004; 1701008; 1701012])
      stored_page = Ok d'
    /\ data d' = normalize busy_response
    /\ timers d' = 1%nat
    /\ requests d' = []
    /\ inflight d' = [].
Proof.
  apply (background_refresh_sends_nothing Bootstrap 1701000
           [1701004; 1701008; 1701012] stored_page
           (normalize busy_response)).
  - split; vm_compute; reflexivity.
  - repeat constructor; vm_compute; reflexivity.
Defined.

(** ** Two refreshes in a row *)

Section DoubleRefresh.

Variable page : Page.

Lemma persistent_miss_frame (now : Z) (d d0 : Dashboard) :
  timeRange d0 = timeRange d ->
  localStorage d0 = localStorage d ->
  getItemFails d0 = getItemFails d ->
  persistent_miss page now d0 = persistent_miss page now d.
Proof.
  intros Hr Hs Hf. unfold persistent_miss.
  now rewrite (getCacheKey_frame page d d0 Hr),
    (local_get_frame page d d0 now _ false Hs Hf).
Qed.

Lemma refresh_cleared_frame (d : Dashboard) :
  timeRange (refresh_cleared page d) = timeRange d
  /\ localStorage (refresh_cleared page d) = localStorage d
  /\ getItemFails (refresh_cleared page d) = getItemFails d
  /\ lastRequestTime (refresh_cleared page d) = lastRequestTime d
  /\ requests (refresh_cleared page d) = requests d
  /\ inflight (refresh_cleared page d) = inflight d.
Proof. unfold refresh_cleared. destruct page; repeat split; reflexivity. Qed.

Lemma refresh_cleared_miss (now : Z) (d : Dashboard) :
  getCachedData now (getCacheKey page d) (refresh_cleared page d) = JNull.
Proof.
  unfold refresh_cleared, getCachedData.
  destruct page; simpl.
  - now rewrite lookup_delete_eq.
  - now rewrite lookup_empty.
Qed.

Lemma refresh_sends (now : Z) (d : Dashboard) :
  persistent_miss page now d = true ->
  minRequestInterval <= now - lastRequestTime d ->
  step page (Refresh now) d
  = Ok (set_inflight
          (inflight d ++ [{| p_now := now; p_key := getCacheKey page d |}])
          (set_requests (now :: requests d) (refresh_cleared page d))).
Proof.
  intros Hmiss Hlate. apply Z.ltb_ge in Hlate.
  destruct (refresh_cleared_frame d) as (Hr & Hs & Hf & Hl & Hq & Hi).
  pose proof (getCacheKey_frame page d _ Hr) as Hkey.
  assert (Hnone : nothing_cached page now (refresh_cleared page d) = true).
  { unfold nothing_cached.
    rewrite (persistent_miss_frame now d _ Hr Hs Hf), Hmiss, Hkey.
    now rewrite refresh_cleared_miss. }
  unfold step, refreshData_begin.
  rewrite (loadData_begin_uncached page now _ Hnone), Hkey, Hl, Hlate, Hq.
  cbn [mbind res_bind park inflight set_requests]. now rewrite Hi.
Qed.

End DoubleRefresh.

(** C2, what the pages do.  [refreshData] empties the in-memory cache for
    the key and calls [loadData], which consults the rate limiter; but the
    time of a request is recorded only when its response has been handled.
    When the persistent cache has nothing fresh for the key, a second
    refresh that arrives while the first request is under way meets the old
    [lastRequestTime] and sends a request of its own: two refreshes,
    however close, two requests. *)
Theorem double_refresh_sends_twice (page : Page) (d : Dashboard)
    (now1 now2 : Z) :
  persistent_miss page now1 d = true ->
  persistent_miss page now2 d = true ->
  minRequestInterval <= now1 - lastRequestTime d ->
  now1 <= now2 ->
  exists d',
    run page [Refresh now1; Refresh now2] d = Ok d'
    /\ requests d' = now2 :: now1 :: requests d
    /\ inflight d'
       = inflight d ++ [ {| p_now := now1; p_key := getCacheKey page d |};
                         {| p_now := now2; p_key := getCacheKey page d |} ]
    /\ lastRequestTime d' = lastRequestTime d.
Proof.
  intros Hmiss1 Hmiss2 Hlate Hle.
  destruct (refresh_cleared_frame page d) as (Hr & Hs & Hf & Hl & Hq & Hi).
  cbn [run]. rewrite (refresh_sends page now1 d Hmiss1 Hlate).
  cbn [mbind res_bind].
  match goal with |- context [step page (Refresh now2) ?x] =>
    set (d1 := x);
    destruct (refresh_cleared_frame page d1) as (Hr1 & Hs1 & Hf1 & Hl1 & Hq1 & Hi1)
  end.
  assert (Hkey : getCacheKey page d1 = getCacheKey page d)
    by (apply getCacheKey_frame; exact Hr).
  assert (Hmiss : persistent_miss page now2 d1 = true)
    by (rewrite <- Hmiss2; apply persistent_miss_frame; assumption).
  assert (Hlate1 : minRequestInterval <= now2 - lastRequestTime d1)
    by (change (lastRequestTime d1) with (lastRequestTime (refresh_cleared page d));
        rewrite Hl; lia).
  rewrite (refresh_sends page now2 d1 Hmiss Hlate1), Hkey.
  eexists. split; [reflexivity |].
  cbn [requests inflight lastRequestTime set_inflight set_requests].
  rewrite Hl1. subst d1.
  cbn [requests inflight lastRequestTime set_inflight set_requests].
  rewrite Hl, <- app_assoc. repeat split; reflexivity.
Qed.

(** A dashboard that loaded its data at 100000: 70 s later both caches
    have expired. *)
Lemma double_refresh_sends_twice_witness :
  exists d',
    run Bootstrap [Refresh 170000; Refresh 170100] loaded_page = Ok d'
    /\ requests d' = [170100; 170000; 100000]
    /\ inflight d' = [ {| p_now := 170000; p_key := "log_analysis_5" |};
                       {| p_now := 170100; p_key := "log_analysis_5" |} ]
    /\ lastRequestTime d' = 100000.
Proof.
  apply (double_refresh_sends_twice Bootstrap loaded_page 170000 170100).
  - vm_compute. reflexivity.
  - vm_compute. reflexivity.
  - discriminate.
  - discriminate.
Defined.

Example loaded_page_reached :
  run Bootstrap [Refresh 100000; Settle 100200 (Body busy_response)]
    (fresh_instance "5" ∅ false false)
  = Ok loaded_page.
Proof. vm_compute. reflexivity. Qed.

(** ** Some runs of the event loop *)

(** A refresh on an empty store: the request goes out, the response fills
    both caches, and its time is recorded. *)
Example run_first_load :
  (fun d => (requests d, lastRequestTime d, data d,
             getCachedData 100300 "log_analysis_5" d,
             localStorage d !! "log_analysis_5", notices d))
    <$> run Bootstrap [Refresh 100000; Settle 100200 (Body busy_response)]
          (fresh_instance "5" ∅ false false)
  = Ok ([100000], 100000, normalize busy_response, normalize busy_response,
        Some (entry (normalize busy_response) 100200), []).
Proof. vm_compute. reflexivity. Qed.

(** Once the stored entry is older than its TTL, the callback queued by the
    first load does send the request. *)
Example run_refresh_after_expiry :
  (fun d => (requests d, timers d))
    <$> run Bootstrap [Load 1701000; Timer 1760000] stored_page
  = Ok ([1760000], 0%nat).
Proof. vm_compute. reflexivity. Qed.

(** A failed request on an empty store.  The Bootstrap page keeps its alert
    box.  On the Tailwind page the error box is written into
    [#summaryCards] by [loadData] and replaced by the cards of the default
    snapshot in the [renderDashboard] that follows. *)
Example run_failure_on_empty_store :
  (fun d => (data d, notices d))
    <$> run Bootstrap [Refresh 100000; Settle 100200 NetworkError]
          (fresh_instance "5" ∅ false false)
  = Ok (default_data, [failure_banner "Failed to fetch"])
  /\ notices
       <$> loadData TailwindCss 100000 NetworkError 100200
             (fresh_instance "5" ∅ false false)
     = Ok [failure_banner "Network Error"]
  /\ (fun d => (data d, summaryCards d, notices d))
       <$> run TailwindCss [Refresh 100000; Settle 100200 NetworkError]
             (fresh_instance "5" ∅ false false)
     = Ok (default_data, PanelCards default_data, []).
Proof. repeat split; vm_compute; reflexivity. Qed.

(** A response whose [business_modules] holds a [null] passes validation
    and normalisation on the Bootstrap page, but [printCleaningSummary]
    raises on it and the load ends in the [catch] branch. *)
Example run_summary_raises :
  (fun d => (data d, notices d, lastRequestTime d))
    <$> run Bootstrap
          [Refresh 100000;
           Settle 100200
             (Body (JObj [("business_modules", JObj [("api", JNull)])]))]
          (fresh_instance "5" ∅ false false)
  = Ok (default_data, [failure_banner "TypeError"], 0).
Proof. vm_compute. reflexivity. Qed.

(** Storage that can neither be read nor written does not show: the load
    proceeds as with an empty store. *)
Example run_with_broken_storage :
  (fun d => (data d, notices d, localStorage d))
    <$> run TailwindCss [Refresh 100000; Settle 100200 (Body bare_response)]
          (fresh_instance "5" ∅ true true)
  = Ok (normalize bare_response, [], ∅).
Proof. vm_compute. reflexivity. Qed.

(** ** [truncateMessage] *)

Example truncateMessage_samples :
  truncateMessage (JStr "connection refused") 10 = Ok (JStr "connection...")
  /\ truncateMessage (JStr "日志") 3 = Ok (JStr "日志")
  /\ truncateMessage (JStr "日志分析系统") 3 = Ok (JStr "日志分...")
  /\ js_length (JStr "日志分析系统") = JNum 6
  /\ truncateMessage (JArr [JNum 1; JNum 2]) 1 = Throw "TypeError"
  /\ truncateMessage (JObj [("length", JStr "200")]) 100 = Throw "TypeError"
  /\ truncateMessage (JNum 404) 100 = Ok (JNum 404).
Proof. repeat split; vm_compute; reflexivity. Qed.

Section Truncation.

#[local] Arguments String.append !_ _ / : simpl nomatch.

Lemma length_append (a b : string) :
  String.length (a +:+ b) = (String.length a + String.length b)%nat.
Proof. induction a as [|x a IH]; simpl; [reflexivity | now rewrite IH]. Qed.

Lemma code_units_append (a b : string) :
  code_units (a +:+ b) = (code_units a + code_units b)%nat.
Proof.
  induction a as [|x a IH]; [reflexivity |].
  cbn [String.append code_units]. rewrite IH. lia.
Qed.

Lemma byte_char_of (n : Z) : 0 <= n < 256 -> byte (char_of n) = n.
Proof.
  intros H. unfold byte, char_of.
  rewrite N_ascii_embedding by lia. lia.
Qed.

Lemma code_units_surrogate (u : Z) : code_units (surrogate u) = 1%nat.
Proof.
  pose proof (Z.mod_pos_bound (u / 64) 64 ltac:(lia)) as H1.
  pose proof (Z.mod_pos_bound u 64 ltac:(lia)) as H2.
  unfold surrogate. cbn [code_units]. unfold continuation, starts_pair.
  rewrite !byte_char_of by lia.
  change (128 <=? 237) with true. change (237 <? 192) with false.
  change (240 <=? 237) with false. cbn [andb].
  destruct (Z.leb_spec 128 (128 + (u / 64) mod 64)); [| lia].
  destruct (Z.ltb_spec (128 + (u / 64) mod 64) 192); [| lia].
  destruct (Z.leb_spec 128 (128 + u mod 64)); [| lia].
  destruct (Z.ltb_spec (128 + u mod 64) 192); [| lia].
  reflexivity.
Qed.

Lemma code_units_take (n : nat) (s : string) :
  code_units (take_units n s) = Nat.min n (code_units s).
Proof.
  revert n. induction s as [|c s IH]; intros n.
  - cbn. now rewrite Nat.min_0_r.
  - cbn [take_units].
    destruct (continuation c) eqn:C.
    + cbn [code_units]. rewrite C, IH. lia.
    + destruct n as [|n]; [reflexivity |].
      destruct (starts_pair c) eqn:P.
      * destruct n as [|n].
        -- rewrite code_units_surrogate. cbn [code_units].
           rewrite C, P. lia.
        -- cbn [code_units]. rewrite C, P, IH. lia.
      * cbn [code_units]. rewrite C, P, IH. lia.
Qed.

Lemma take_units_prefix (n : nat) (s : string) :
  basic_plane s = true -> exists rest, s = take_units n s +:+ rest.
Proof.
  unfold basic_plane. revert n.
  induction s as [|c s IH]; intros n H; [now exists "" |].
  cbn [list_ascii_of_string forallb] in H.
  apply andb_true_iff in H as [Hc H].
  apply negb_true_iff in Hc. cbn [take_units]. rewrite Hc.
  destruct (continuation c).
  - destruct (IH n H) as [rest E]. exists rest.
    cbn [String.append]. now rewrite <- E.
  - destruct n as [|n]; [now exists (String c s) |].
    destruct (IH n H) as [rest E]. exists rest.
    cbn [String.append]. now rewrite <- E.
Qed.

Lemma js_gt_number (n m : Z) : js_gt (JNum n) m = Ok (m <? n).
Proof. unfold js_gt, num_gt. cbn. now integer_clock. Qed.

Lemma truthy_nonempty (s : string) :
  truthy (JStr s) = false -> s = "".
Proof. now destruct s. Qed.

End Truncation.

(** X1.  On a string, [truncateMessage] never raises and never returns more
    than [maxLength + 3] code units.  A string of at most [maxLength] code
    units comes back unchanged; a longer one is cut to its first
    [maxLength] code units, followed by three dots, and what is kept is a
    prefix of the string unless the cut may fall inside a surrogate
    pair. *)
Theorem truncateMessage_string (s : string) (maxLength : Z) :
  0 <= maxLength ->
  exists r,
    truncateMessage (JStr s) maxLength = Ok (JStr r)
    /\ Z.of_nat (code_units r) <= maxLength + 3
    /\ (if maxLength <? Z.of_nat (code_units s)
        then r = take_units (Z.to_nat maxLength) s +:+ "..."
             /\ Z.of_nat (code_units r) = maxLength + 3
             /\ (basic_plane s = true ->
                 exists rest, s = take_units (Z.to_nat maxLength) s +:+ rest)
        else r = s).
Proof.
  intros Hmax. unfold truncateMessage. cbn [js_length].
  rewrite js_gt_number. cbn [mbind res_bind].
  destruct (truthy (JStr s)) eqn:Ht; cbn [negb].
  - destruct (Z.ltb_spec maxLength (Z.of_nat (code_units s))) as [Hlt | Hge];
      cbn [negb].
    + eexists. split; [reflexivity |].
      rewrite code_units_append, code_units_take.
      change (code_units "...") with 3%nat.
      split; [lia |]. split; [reflexivity |]. split; [lia |].
      apply take_units_prefix.
    + exists s. split; [reflexivity |]. split; [lia | reflexivity].
  - apply truthy_nonempty in Ht. subst s. cbn [code_units].
    change (Z.of_nat 0) with 0.
    destruct (Z.ltb_spec maxLength 0) as [Hlt | Hge]; [lia |].
    exists "". split; [reflexivity |]. split; [cbn; lia | reflexivity].
Qed.

Lemma truncateMessage_string_witness :
  truncateMessage (JStr "日志分析系统") 3 = Ok (JStr "日志分...")
  /\ truncateMessage (JStr "日志") 3 = Ok (JStr "日志").
Proof.
  assert (H : 0 <= 3) by discriminate.
  destruct (truncateMessage_string "日志分析系统" 3 H) as (r & E & _ & Hr).
  destruct (truncateMessage_string "日志" 3 H) as (r' & E' & _ & Hr').
  vm_compute in Hr, Hr'. destruct Hr as (Hr & _). subst r r'.
  split; [exact E | exact E'].
Defined.

(** ** Escaping can be undone *)

Section Unescaping.

#[local] Arguments String.append !_ _ / : simpl nomatch.

Lemma unescape_entity (c : ascii) (r : string) :
  unescape (entity c +:+ r) = String c (unescape r).
Proof.
  revert c. intros [[] [] [] [] [] [] [] []]; reflexivity.
Qed.

Lemma unescape_subst_entity (s : string) :
  unescape (subst_chars entity s) = s.
Proof.
  induction s as [|x s IH]; [reflexivity |].
  cbn [subst_chars]. now rewrite unescape_entity, IH.
Qed.

Lemma length_entity (c : ascii) : (1 <= String.length (entity c))%nat.
Proof. revert c. intros [[] [] [] [] [] [] [] []]; cbn; lia. Qed.

End Unescaping.

(** X2.  What [escapeHtml] produces can be read back: decoding the five
    entities of [escapeHtml s] gives [s] again.  So two different strings
    never escape to the same text, and escaping never shortens a string. *)
Theorem escapeHtml_round_trip (s t : string) :
  unescape (escapeHtml (JStr s)) = s
  /\ (escapeHtml (JStr s) = escapeHtml (JStr t) <-> s = t)
  /\ (String.length s <= String.length (escapeHtml (JStr s)))%nat.
Proof.
  assert (E : forall u, escapeHtml (JStr u) = subst_chars entity u)
    by (intros u; unfold escapeHtml; simpl; apply escape_chain).
  assert (R : forall u, unescape (escapeHtml (JStr u)) = u)
    by (intros u; rewrite E; apply unescape_subst_entity).
  split; [apply R |]. split.
  - split; [| now intros ->].
    intros H. rewrite <- (R s), <- (R t). now rewrite H.
  - rewrite E. clear. induction s as [|x s IH]; [cbn; lia |].
    cbn [subst_chars String.length]. rewrite length_append.
    pose proof (length_entity x). lia.
Qed.

(** ** Cache keys *)

Section CacheKeys.

#[local] Arguments String.append !_ _ / : simpl nomatch.

Lemma append_cancel (prefix a b : string) :
  prefix +:+ a = prefix +:+ b -> a = b.
Proof.
  induction prefix as [|x prefix IH]; simpl; [trivial |].
  intros [= H]. now apply IH.
Qed.

End CacheKeys.

(** X3.  On either page the cache key identifies the selected range: two
    states get the same key exactly when their ranges agree, an unset
    range counting as ["1"].  A key of the Bootstrap page is never a key of
    the Tailwind page, so the two pages cannot read each other's entries
    in [localStorage]. *)
Theorem getCacheKey_identifies_range (page : Page) (d d' : Dashboard) :
  (getCacheKey page d = getCacheKey page d'
   <-> effective_range d = effective_range d')
  /\ getCacheKey Bootstrap d <> getCacheKey TailwindCss d'.
Proof.
  split.
  - destruct page; unfold getCacheKey, V1.getCacheKey, Tailwind.getCacheKey;
      fold (effective_range d); fold (effective_range d');
      (split; [apply append_cancel | now intros ->]).
  - unfold getCacheKey, V1.getCacheKey, Tailwind.getCacheKey. discriminate.
Qed.

(** ** Normalising twice *)

Lemma js_or_absorb (a b : JsVal) : js_or (js_or a b) b = js_or a b.
Proof.
  unfold js_or. destruct (truthy a) eqn:Ha; [now rewrite Ha |].
  now destruct (truthy b).
Qed.

(** X4.  Normalising is idempotent: a snapshot that went through the
    normalisation of [loadData] once is left as it is by a second pass,
    whatever the API had returned. *)
Theorem normalize_idempotent (raw : JsVal) :
  normalize (normalize raw) = normalize raw.
Proof.
  unfold normalize at 1.
  repeat match goal with
         | |- context [js_or (field (normalize raw) ?k) ?dflt] =>
             change (field (normalize raw) k) with (js_or (field raw k) dflt)
         end.
  now rewrite !js_or_absorb.
Qed.

(** ** The bars of the type distribution *)

Section Bars.

Lemma fold_sum_shift (obj : list (string * Z)) (acc : Z) :
  fold_left (fun sum kv => sum + snd kv) obj acc
  = acc + fold_left (fun sum kv => sum + snd kv) obj 0.
Proof.
  revert acc. induction obj as [|kv obj IH]; intros acc; simpl; [lia |].
  rewrite (IH (acc + snd kv)), (IH (0 + snd kv)). lia.
Qed.

Lemma count_le_total (obj : list (string * Z)) (key : string) (count : Z) :
  Forall (fun kv => 0 <= snd kv) obj ->
  In (key, count) obj ->
  0 <= count <= total_of obj.
Proof.
  unfold total_of. intros Hall Hin.
  induction Hall as [|kv obj Hkv Hall IH]; [destruct Hin |].
  simpl. rewrite fold_sum_shift.
  pose proof (fold_sum_ge obj 0 Hall) as Hge.
  destruct Hin as [-> | Hin]; simpl in *; [lia |].
  specialize (IH Hin). lia.
Qed.

End Bars.

(** X5.  In the type distribution of the Tailwind page every bar gets a
    width between 0 and 100 percent: for a count taken from the mapping
    itself (counts non-negative, their sum an integer a double holds
    exactly, the count at most 2^40), [getPercentage] yields the number 0
    when all counts are 0, and otherwise a text [n / 10], point, [n mod 10]
    with [0 <= n <= 1000]. *)
Theorem getPercentage_of_member (obj : list (string * Z)) (key : string)
    (count : Z) :
  Forall (fun kv => 0 <= snd kv) obj ->
  In (key, count) obj ->
  total_of obj < 2 ^ 53 ->
  count <= 2 ^ 40 ->
  (total_of obj = 0 /\ getPercentage count obj = Some (JNum 0))
  \/ exists n,
       getPercentage count obj
       = Some (JStr (NilZero.string_of_int (Z.to_int (n / 10)) +:+ "."
                     +:+ NilZero.string_of_int (Z.to_int (n mod 10))))
       /\ 0 <= n <= 1000.
Proof.
  intros Hall Hin Hsafe Hsmall.
  destruct (count_le_total obj key count Hall Hin) as [Hc Ht].
  destruct (Z.eq_dec (total_of obj) 0) as [E | Hne].
  - left. split; [exact E |]. unfold getPercentage. now rewrite E.
  - right. assert (Hpos : 0 < total_of obj) by lia.
    destruct (percentage_text count (total_of obj) (conj Hc Hsmall)
                (conj Hpos Hsafe)) as (n & E & Hn & B).
    exists n. split.
    + unfold getPercentage. apply Z.ltb_lt in Hpos. rewrite Hpos, E.
      reflexivity.
    + split; [exact Hn |]. clear - B Ht Hc Hpos Hn. nia.
Qed.

Lemma getPercentage_of_member_witness :
  (total_of [("timeout", 1); ("oom", 2)] = 0
   /\ getPercentage 2 [("timeout", 1); ("oom", 2)] = Some (JNum 0))
  \/ exists n,
       getPercentage 2 [("timeout", 1); ("oom", 2)]
       = Some (JStr (NilZero.string_of_int (Z.to_int (n / 10)) +:+ "."
                     +:+ NilZero.string_of_int (Z.to_int (n mod 10))))
       /\ 0 <= n <= 1000.
Proof.
  assert (Hall : Forall (fun kv : string * Z => 0 <= snd kv)
                   [("timeout", 1); ("oom", 2)])
    by (repeat constructor; simpl; lia).
  assert (Hin : In ("oom", 2) [("timeout", 1); ("oom", 2)])
    by (right; left; reflexivity).
  assert (S : total_of [("timeout", 1); ("oom", 2)] < 2 ^ 53) by reflexivity.
  assert (C : 2 <= 2 ^ 40) by discriminate.
  exact (getPercentage_of_member _ "oom" 2 Hall Hin S C).
Defined.

(** ** Writing and reading the persistent cache *)

Lemma JsVal_nested_ind (P : JsVal -> Prop) :
  P JUndefined -> P JNull -> (forall b, P (JBool b)) -> (forall n, P (JNum n)) ->
  (forall s, P (JStr s)) ->
  (forall xs, Forall P xs -> P (JArr xs)) ->
  (forall fs, Forall (fun kv => P (snd kv)) fs -> P (JObj fs)) ->
  forall v, P v.
Proof.
  intros HU HN HB HZ HS HA HO.
  exact (fix F (v : JsVal) : P v :=
           match v with
           | JUndefined => HU
           | JNull => HN
           | JBool b => HB b
           | JNum n => HZ n
           | JStr s => HS s
           | JArr xs =>
               HA xs ((fix G (l : list JsVal) : Forall P l :=
                         match l with
                         | [] => @List.Forall_nil _ P
                         | x :: l' => @List.Forall_cons _ P x l' (F x) (G l')
                         end) xs)
           | JObj fs =>
               HO fs ((fix G (l : list (string * JsVal))
                         : Forall (fun kv => P (snd kv)) l :=
                         match l with
                         | [] => @List.Forall_nil _ _
                         | kv :: l' => @List.Forall_cons _ _ kv l' (F (snd kv)) (G l')
                         end) fs)
           end).
Qed.

Lemma json_clone_json (v : JsVal) : is_json v = true -> json_clone v = v.
Proof.
  induction v as [ | | b | n | s | xs IH | fs IH ] using JsVal_nested_ind;
    try reflexivity; intros Hj; cbn [json_clone is_json] in *; f_equal.
  - induction IH as [|x xs Hx _ IHxs]; [reflexivity |].
    cbn [forallb] in Hj. apply andb_true_iff in Hj as [Hjx Hjxs].
    cbn [map]. rewrite (IHxs Hjxs), (Hx Hjx).
    now destruct x.
  - induction IH as [|[k x] fs Hx _ IHfs]; [reflexivity |].
    cbn [forallb snd] in Hj. apply andb_true_iff in Hj as [Hjx Hjfs].
    cbn [snd] in Hx. rewrite (IHfs Hjfs).
    destruct x; try discriminate Hjx; now rewrite <- (Hx Hjx) at 2.
Qed.

Lemma truthy_defined (v : JsVal) : truthy v = true -> is_undefined v = false.
Proof. now destruct v. Qed.

Lemma local_get_other_key (page : Page) (d d' : Dashboard) (key key' : string)
    (payload : JsVal) (written now : Z) (allowStale : bool) :
  key' <> key ->
  setLocalCachedData written key payload d = Ok d' ->
  getLocalCachedData page now key' allowStale d'
  = getLocalCachedData page now key' allowStale d.
Proof.
  intros Hne. unfold setLocalCachedData, setItem_entry, try_catch.
  destruct (setItemFails d) eqn:Hw; intros [= <-]; [reflexivity |].
  reader_cases page; cbn [getItemFails localStorage set_localStorage];
    now rewrite lookup_insert_ne by congruence.
Qed.

(** X6.  The persistent cache gives back what was put in.  After
    [setLocalCachedData] stored a truthy JSON value under a key at time
    [written] (storage working), a read of that key on either page returns
    exactly that value while it is younger than 60000 ms, and from then on
    only with [allowStale]; reads of any other key are as before the
    write. *)
Theorem persistent_round_trip (page : Page) (d d' : Dashboard)
    (key key' : string) (payload : JsVal) (written now : Z)
    (allowStale : bool) :
  setItemFails d = false ->
  getItemFails d = false ->
  is_json payload = true ->
  truthy payload = true ->
  0 < written ->
  key' <> key ->
  setLocalCachedData written key payload d = Ok d' ->
  getLocalCachedData page now key allowStale d'
  = Ok (if (now - written <? localCacheTTL) || allowStale
        then payload else JNull)
  /\ getLocalCachedData page now key' allowStale d'
     = getLocalCachedData page now key' allowStale d.
Proof.
  intros Hw Hr Hj Ht Hpos Hne Hset. split.
  - destruct (local_set_entry d d' key payload written Hw
                (truthy_defined payload Ht) (json_clone_json payload Hj) Hset)
      as [Hentry Hrd].
    apply stale_entry_read; try assumption. now rewrite Hrd.
  - exact (local_get_other_key page d d' key key' payload written now
             allowStale Hne Hset).
Qed.

Lemma persistent_round_trip_witness :
  exists d',
    setLocalCachedData 1700000 "log-types-5" (normalize busy_response)
      (fresh_instance "5" ∅ false false) = Ok d'
    /\ getLocalCachedData TailwindCss 1759999 "log-types-5" false d'
       = Ok (normalize busy_response)
    /\ getLocalCachedData TailwindCss 1760000 "log-types-5" false d'
       = Ok JNull
    /\ getLocalCachedData TailwindCss 1760000 "log-types-5" true d'
       = Ok (normalize busy_response).
Proof.
  destruct (local_set_total (fresh_instance "5" ∅ false false) "log-types-5"
              (normalize busy_response) 1700000) as (d' & E & _).
  exists d'. split; [exact E |].
  assert (Hne : "log-types-1" <> "log-types-5") by discriminate.
  pose proof (fun now stale =>
                proj1 (persistent_round_trip TailwindCss
                         (fresh_instance "5" ∅ false false) d' "log-types-5"
                         "log-types-1" (normalize busy_response) 1700000 now
                         stale eq_refl eq_refl eq_refl eq_refl eq_refl Hne E))
    as R.
  split; [exact (R 1759999 false) |].
  split; [exact (R 1760000 false) | exact (R 1760000 true)].
Defined.

(** X7.  Reading with [allowStale] never loses what a plain read finds:
    whenever [getLocalCachedData] returns a truthy value without
    [allowStale], it returns the same value with it. *)
Theorem stale_read_extends_fresh (page : Page) (d : Dashboard) (key : string)
    (now : Z) (v : JsVal) :
  getLocalCachedData page now key false d = Ok v ->
  truthy v = true ->
  getLocalCachedData page now key true d = Ok v.
Proof.
  reader_cases page; unfold try_catch;
    destruct (getItemFails d); cbn [mbind res_bind];
    try (intros [= <-]; discriminate);
    destruct (localStorage d !! key) as [[| |parsed]|]; cbn [mbind res_bind JSON_parse];
    try (intros [= <-]; discriminate).
  - destruct (negb (truthy parsed) || negb (truthy (field parsed "timestamp"))
              || negb (truthy (field parsed "data")));
      [intros [= <-]; discriminate |].
    destruct (elapsed_lt now (field parsed "timestamp") localCacheTTL)
      as [[|]|e]; cbn [mbind res_bind orb];
      [trivial | intros [= <-]; discriminate | trivial].
  - destruct (prop parsed "timestamp") as [ts|e]; cbn [mbind res_bind];
      [| intros [= <-]; discriminate].
    destruct (elapsed_lt now ts localCacheTTL) as [[|]|e];
      cbn [mbind res_bind negb];
      [| intros [= <-]; discriminate | intros [= <-]; discriminate].
    destruct (prop parsed "data"); trivial.
Qed.

Lemma stale_read_extends_fresh_witness :
  getLocalCachedData Bootstrap 1701000 "log_analysis_1" true stored_page
  = Ok (normalize busy_response).
Proof.
  apply (stale_read_extends_fresh Bootstrap stored_page "log_analysis_1"
           1701000 (normalize busy_response)).
  - vm_compute. reflexivity.
  - reflexivity.
Defined.

(** ** What [refreshData] forgets *)

(** X8.  The two pages forget differently on a refresh.  The Bootstrap page
    drops the in-memory entry of the current key only: a lookup of any
    other key gives what it gave before.  The Tailwind page drops the whole
    map: no key is served from memory after a refresh. *)
Theorem refresh_scope (d : Dashboard) (key : string) (now : Z) :
  key <> getCacheKey Bootstrap d ->
  getCachedData now key (refresh_cleared Bootstrap d) = getCachedData now key d
  /\ getCachedData now (getCacheKey Bootstrap d) (refresh_cleared Bootstrap d)
     = JNull
  /\ getCachedData now key (refresh_cleared TailwindCss d) = JNull.
Proof.
  intros Hne. unfold refresh_cleared, getCachedData.
  cbn [cache set_cache].
  rewrite lookup_delete_ne by congruence.
  rewrite lookup_delete_eq, lookup_empty. repeat split.
Qed.

Lemma refresh_scope_witness :
  getCachedData 100300 "log_analysis_5"
    (refresh_cleared Bootstrap
       (select_range "10" loaded_page))
  = normalize busy_response
  /\ getCachedData 100300 "log_analysis_5"
       (refresh_cleared TailwindCss
          (select_range "10" loaded_page))
     = JNull.
Proof.
  assert (Hne : "log_analysis_5"
                <> getCacheKey Bootstrap (select_range "10" loaded_page))
    by discriminate.
  destruct (refresh_scope (select_range "10" loaded_page)
              "log_analysis_5" 100300 Hne) as (E1 & _ & E3).
  split; [| exact E3].
  rewrite E1. vm_compute. reflexivity.
Defined.

(** ** A load from its request to the next load *)

Section LoadOutcome.

Variable page : Page.

Lemma normalize_js_or (v : JsVal) :
  normalize (js_or v (JObj [])) = normalize v.
Proof.
  unfold js_or. destruct (truthy v) eqn:Ht; [reflexivity |].
  destruct v; try discriminate Ht; reflexivity.
Qed.

Lemma local_set_frame (d d' : Dashboard) (key : string) (payload : JsVal)
    (now : Z) :
  setLocalCachedData now key payload d = Ok d' ->
  data d' = data d /\ cache d' = cache d /\ timeRange d' = timeRange d
  /\ getItemFails d' = getItemFails d.
Proof.
  unfold setLocalCachedData, setItem_entry, try_catch.
  destruct (setItemFails d); intros [= <-]; now repeat split.
Qed.

(** A response that is accepted leaves the normalised body as the data
    and in the in-memory cache, and hands it to the persistent cache. *)
Lemma receive_returned (p : Pending) (later : Z) (v : JsVal)
    (d d1 : Dashboard) :
  receive page p later (Body v) d = Returned d1 ->
  data d1 = normalize v
  /\ cache d1
     = <[p_key p := {| ce_data := normalize v; ce_timestamp := later |}]>
         (cache d)
  /\ timeRange d1 = timeRange d
  /\ getItemFails d1 = getItemFails d
  /\ exists d0,
       setLocalCachedData later (p_key p) (normalize v) d0 = Ok d1
       /\ localStorage d0 = localStorage d
       /\ setItemFails d0 = setItemFails d
       /\ getItemFails d0 = getItemFails d.
Proof.
  unfold receive, V1.receive, Tailwind.receive.
  destruct page;
    try (destruct (negb (truthy v) || negb (typeof_object v));
         [discriminate |]);
    try match goal with |- context [V1.printCleaningSummary ?x] =>
          destruct (V1.printCleaningSummary x); [| discriminate] end;
    cbn [data set_data set_lastRequestTime setCachedData set_cache];
    rewrite ?normalize_js_or;
    match goal with |- context [setLocalCachedData ?n ?k ?w ?x] =>
      destruct (setLocalCachedData n k w x) as [d'|e] eqn:E;
      [| discriminate];
      intros [= <-];
      destruct (local_set_frame x d' k w n E) as (Hd & Hc & Ht & Hf);
      (split; [exact Hd |]); (split; [exact Hc |]);
      (split; [exact Ht |]); (split; [exact Hf |]);
      exists x; (split; [exact E |]); now repeat split
    end.
Qed.

Lemma assoc_json (k : string) (fs : list (string * JsVal)) :
  forallb (fun kv => is_json (snd kv)) fs = true ->
  is_json (assoc k fs) = true \/ assoc k fs = JUndefined.
Proof.
  induction fs as [|[k' x] fs IH]; cbn [assoc forallb snd]; [now right |].
  intros H. apply andb_true_iff in H as [Hx Hfs].
  destruct (String.eqb k k'); [now left | now apply IH].
Qed.

Lemma js_or_json (a b : JsVal) :
  is_json a = true \/ a = JUndefined -> is_json b = true ->
  is_json (js_or a b) = true.
Proof.
  unfold js_or. intros [Ha | ->] Hb; [| exact Hb].
  now destruct (truthy a).
Qed.

Lemma field_json (v : JsVal) (k : string) :
  is_json v = true -> is_json (field v k) = true \/ field v k = JUndefined.
Proof.
  destruct v; cbn [field]; try (now right).
  cbn [is_json]. apply assoc_json.
Qed.

Lemma normalize_json (v : JsVal) :
  is_json v = true -> is_json (normalize v) = true.
Proof.
  intros Hj. unfold normalize. cbn [is_json forallb snd].
  rewrite !js_or_json by (try apply field_json; trivial).
  reflexivity.
Qed.

Lemma loadData_begin_total (now : Z) (d : Dashboard) :
  exists s, loadData_begin page now d = Ok s.
Proof.
  unfold loadData_begin, loadData_catch, try_catch.
  destruct (local_get_total page d (getCacheKey page d) now false) as [v ->].
  cbn [mbind res_bind].
  destruct (truthy v); [eauto |].
  destruct (truthy (getCachedData now (getCacheKey page d) d)); [eauto |].
  destruct (now - lastRequestTime d <? minRequestInterval); eauto.
Qed.

Lemma loadData_catch_data (now : Z) (message : string) (d : Dashboard) :
  exists d', loadData_catch page now message d = Ok d'
             /\ truthy (data d') = true.
Proof.
  unfold loadData_catch.
  destruct (local_get_total page d (getCacheKey page d) now true) as [v ->].
  cbn [mbind res_bind]. eexists. split; [reflexivity |].
  destruct (truthy v) eqn:Hv; [exact Hv | reflexivity].
Qed.

Lemma receive_returned_object (p : Pending) (now : Z) (resp : Response)
    (d d1 : Dashboard) :
  receive page p now resp d = Returned d1 -> truthy (data d1) = true.
Proof.
  unfold receive, V1.receive, Tailwind.receive.
  destruct page, resp; try discriminate;
    try (destruct (negb (truthy v) || negb (typeof_object v));
         [discriminate |]);
    try match goal with |- context [V1.printCleaningSummary ?x] =>
          destruct (V1.printCleaningSummary x); [| discriminate] end;
    match goal with |- context [setLocalCachedData ?n ?k ?w ?x] =>
      destruct (local_set_total x k w n) as (d' & E & _ & _ & Hd & _)
    end;
    rewrite E; intros [= <-]; now rewrite Hd.
Qed.

Lemma loadData_resume_total (p : Pending) (now : Z) (resp : Response)
    (d : Dashboard) :
  exists d', loadData_resume page p now resp d = Ok d'.
Proof.
  unfold loadData_resume.
  destruct (receive page p now resp d) as [d1 | e d1]; [eauto |].
  destruct (loadData_catch_data now e d1) as (d' & E & _). eauto.
Qed.

End LoadOutcome.

(** X9.  [loadData] never rejects, whatever the storage holds, whether it
    can be read or written, and however the request ends; and once the
    request has settled [this.data] is a truthy value (the normalised
    response, a stored fallback or the default snapshot), never [null]. *)
Theorem loadData_always_settles (page : Page) (p : Pending) (now later : Z)
    (resp : Response) (d : Dashboard) :
  (exists s, loadData_begin page now d = Ok s)
  /\ (exists d', loadData_resume page p later resp d = Ok d'
                 /\ truthy (data d') = true)
  /\ (exists d', loadData page now resp later d = Ok d').
Proof.
  assert (R : forall q t x, exists d',
               loadData_resume page q t resp x = Ok d'
               /\ truthy (data d') = true).
  { intros q t x. unfold loadData_resume.
    destruct (receive page q t resp x) as [d1 | e d1] eqn:E.
    - exists d1. split; [reflexivity |].
      exact (receive_returned_object page q t resp x d1 E).
    - apply loadData_catch_data. }
  split; [apply loadData_begin_total |]. split; [apply R |].
  unfold loadData.
  destruct (loadData_begin_total page now d) as [[d1 | q d1] ->];
    cbn [mbind res_bind]; [eauto |].
  destruct (R q later d1) as (d' & E & _). eauto.
Qed.

(** X10.  A reload within the minute shows the last snapshot at once.
    When a response was accepted at time [later] (storage working, the body
    a JSON value), any later load for the same key on the same storage,
    less than 60000 ms after [later], takes the normalised body from the
    persistent cache as its data, and sends no request. *)
Theorem reload_served_from_store (page : Page) (p : Pending) (later now : Z)
    (v : JsVal) (d d1 d2 : Dashboard) :
  receive page p later (Body v) d = Returned d1 ->
  setItemFails d = false ->
  getItemFails d = false ->
  is_json v = true ->
  0 < later ->
  same_store d1 d2 ->
  getCacheKey page d2 = p_key p ->
  now - later < localCacheTTL ->
  loadData_begin page now d2
  = Ok (Settled (set_timers (S (timers d2)) (set_data (normalize v) d2))).
Proof.
  intros Hrec Hw Hr Hj Hpos (Hsr & Hss & Hsf) Hkey Hfresh.
  destruct (receive_returned page p later v d d1 Hrec)
    as (_ & _ & _ & Hf1 & d0 & Hset & Hs0 & Hw0 & Hr0).
  assert (Hjn : is_json (normalize v) = true) by now apply normalize_json.
  destruct (local_set_entry d0 d1 (p_key p) (normalize v) later
              (eq_trans Hw0 Hw) (truthy_defined (normalize v) eq_refl)
              (json_clone_json (normalize v) Hjn) Hset) as [Hentry _].
  apply load_served_from_store. split; [| reflexivity].
  rewrite Hkey.
  rewrite (local_get_frame page d1 d2 now (p_key p) false Hss Hsf).
  rewrite (stale_entry_read page d1 (p_key p) (normalize v) later now false);
    try assumption; try reflexivity.
  - apply Z.ltb_lt in Hfresh. now rewrite Hfresh.
  - congruence.
Qed.

Lemma reload_served_from_store_witness :
  loadData_begin Bootstrap 159999 (fresh_instance "5" (localStorage loaded_page) false false)
  = Ok (Settled
          (set_timers 1
             (set_data (normalize busy_response)
                (fresh_instance "5" (localStorage loaded_page) false false)))).
Proof.
  assert (H : receive Bootstrap {| p_now := 100000; p_key := "log_analysis_5" |}
                100200 (Body busy_response)
                (set_requests [100000] (fresh_instance "5" ∅ false false))
              = Returned loaded_page_unrendered)
    by (vm_compute; reflexivity).
  apply (reload_served_from_store Bootstrap _ 100200 159999 busy_response
           _ _ (fresh_instance "5" (localStorage loaded_page) false false) H);
    try reflexivity.
  repeat split.
Defined.

(** X11.  Without a usable persistent cache the in-memory cache takes
    over.  When a response was accepted at time [later], a load for the
    same key that finds nothing fresh in [localStorage] and comes less than
    30000 ms after [later] takes the normalised body from memory: no
    request is sent, no callback queued, and the rest of the state stays
    as it is. *)
Theorem reload_served_from_memory (page : Page) (p : Pending)
    (later now : Z) (v : JsVal) (d d1 d2 : Dashboard) :
  receive page p later (Body v) d = Returned d1 ->
  cache d2 = cache d1 ->
  getCacheKey page d2 = p_key p ->
  persistent_miss page now d2 = true ->
  now - later < cacheTimeout ->
  loadData_begin page now d2 = Ok (Settled (set_data (normalize v) d2)).
Proof.
  intros Hrec Hcache Hkey Hmiss Hfresh.
  destruct (receive_returned page p later v d d1 Hrec) as (_ & Hc & _).
  unfold persistent_miss in Hmiss. unfold loadData_begin, try_catch.
  destruct (getLocalCachedData page now (getCacheKey page d2) false d2)
    as [w|e]; [| discriminate Hmiss].
  apply negb_true_iff in Hmiss. cbn [mbind res_bind]. rewrite Hmiss.
  unfold getCachedData. rewrite Hkey, Hcache, Hc, lookup_insert_eq.
  cbn [ce_timestamp ce_data]. apply Z.ltb_lt in Hfresh. now rewrite Hfresh.
Qed.

Lemma reload_served_from_memory_witness :
  let d := set_requests [100000] (fresh_instance "5" ∅ false true) in
  let d1 := state_of (receive TailwindCss
                        {| p_now := 100000; p_key := "log-types-5" |}
                        100200 (Body busy_response) d) in
  loadData_begin TailwindCss 130199 d1
  = Ok (Settled (set_data (normalize busy_response) d1)).
Proof.
  cbv zeta.
  set (d := set_requests [100000] (fresh_instance "5" ∅ false true)).
  set (p := {| p_now := 100000; p_key := "log-types-5" |}).
  set (d1 := state_of (receive TailwindCss p 100200 (Body busy_response) d)).
  assert (H : receive TailwindCss p 100200 (Body busy_response) d = Returned d1)
    by (vm_compute; reflexivity).
  assert (Hmiss : persistent_miss TailwindCss 130199 d1 = true)
    by (vm_compute; reflexivity).
  exact (reload_served_from_memory TailwindCss p 100200 130199 busy_response
           d d1 d1 H eq_refl eq_refl Hmiss eq_refl).
Defined.

(** ** The rate limiter over a whole session *)

Section RequestLog.

Variable page : Page.

Lemma local_set_log (d d' : Dashboard) (key : string) (payload : JsVal)
    (now : Z) :
  setLocalCachedData now key payload d = Ok d' -> log d' = log d.
Proof.
  unfold setLocalCachedData, setItem_entry, try_catch.
  destruct (setItemFails d); now intros [= <-].
Qed.

Lemma receive_log (p : Pending) (now : Z) (resp : Response)
    (d d1 : Dashboard) :
  receive page p now resp d = Returned d1 ->
  log d1 = (requests d, inflight d, p_now p).
Proof.
  unfold receive, V1.receive, Tailwind.receive.
  destruct page, resp; try discriminate;
    try (destruct (negb (truthy v) || negb (typeof_object v));
         [discriminate |]);
    try match goal with |- context [V1.printCleaningSummary ?x] =>
          destruct (V1.printCleaningSummary x); [| discriminate] end;
    match goal with |- context [setLocalCachedData ?n ?k ?w ?x] =>
      destruct (setLocalCachedData n k w x) as [d'|e] eqn:E;
      [| discriminate];
      intros [= <-]; now rewrite (local_set_log x d' k w n E)
    end.
Qed.

Lemma renderDashboard_log (d : Dashboard) : log (renderDashboard d) = log d.
Proof. unfold renderDashboard. now destruct (truthy (data d)). Qed.

Lemma loadData_catch_log (now : Z) (message : string) (d d' : Dashboard) :
  loadData_catch page now message d = Ok d' -> log d' = log d.
Proof.
  unfold loadData_catch.
  destruct (getLocalCachedData page now (getCacheKey page d) true d)
    as [v|e]; cbn [mbind res_bind]; [| discriminate].
  intros [= <-]. destruct (truthy v); [reflexivity |].
  now destruct page.
Qed.

Lemma loadData_begin_log (now : Z) (d : Dashboard) (s : LoadStep) :
  loadData_begin page now d = Ok s ->
  match s with
  | Settled d' => log d' = log d
  | Awaiting p d' =>
      p_now p = now
      /\ minRequestInterval <= now - lastRequestTime d
      /\ log d' = (now :: requests d, inflight d, lastRequestTime d)
  end.
Proof.
  unfold loadData_begin, try_catch.
  destruct (getLocalCachedData page now (getCacheKey page d) false d)
    as [v|e]; cbn [mbind res_bind].
  - destruct (truthy v); [now intros [= <-] |].
    destruct (truthy (getCachedData now (getCacheKey page d) d));
      [now intros [= <-] |].
    destruct (Z.ltb_spec (now - lastRequestTime d) minRequestInterval);
      intros [= <-]; [reflexivity |]. now repeat split.
  - destruct (loadData_catch page now e d) as [d'|e'] eqn:E;
      cbn [mbind res_bind]; [| discriminate].
    intros [= <-]. exact (loadData_catch_log now e d d' E).
Qed.

Lemma refresh_cleared_log (d : Dashboard) : log (refresh_cleared page d) = log d.
Proof. unfold refresh_cleared. now destruct page. Qed.

Lemma settled_log_of (d d' : Dashboard) :
  log d' = log d -> settled_log d -> settled_log d'.
Proof. unfold log, settled_log. intros [= -> -> ->]. trivial. Qed.

(** A load started from a settled log leaves it settled, or sends the one
    request that is now under way, at least 5000 ms after the latest. *)
Lemma begin_keeps_orderly (now : Z) (d0 d : Dashboard) (s : LoadStep) :
  settled_log d0 ->
  log d = log d0 ->
  loadData_begin page now d = Ok s ->
  orderly (park (match s with
                 | Settled d' => Settled (renderDashboard d')
                 | Awaiting q d' => Awaiting q d'
                 end)).
Proof.
  intros Hs Hlog Hbegin. apply loadData_begin_log in Hbegin.
  destruct s as [d' | q d'].
  - left. cbn [park]. apply (settled_log_of d0); [| exact Hs].
    now rewrite renderDashboard_log, Hbegin.
  - right. destruct Hbegin as (Hq & Hgap & Hl). cbn [park].
    unfold log in Hl, Hlog. injection Hl as Hr Hi Ht.
    injection Hlog as Hr0 Hi0 Ht0.
    destruct Hs as (Hin & Hsp & Hlast).
    exists q, (requests d0).
    cbn [inflight requests set_inflight].
    rewrite Hi, Hi0, Hin, Hr, Hr0, Hq. repeat split.
    + destruct (requests d0) as [|t rest] eqn:Hreq; [exact I |].
      rewrite Ht0, (Hlast t rest eq_refl) in Hgap. exact Hgap.
    + exact Hsp.
Qed.

Lemma step_keeps_orderly (ev : Event) (d d' : Dashboard) :
  orderly d ->
  one_at_a_time page ev d = true ->
  step page ev d = Ok d' ->
  orderly d'.
Proof.
  intros [Hs | (p & rest & Hin & Hreq & Hsp)] Hone Hstep.
  - destruct ev as [now | now | now | now resp]; cbn [step] in Hstep.
    + destruct (loadData_begin page now d) as [s|e] eqn:E;
        cbn [mbind res_bind] in Hstep; [| discriminate].
      injection Hstep as <-.
      pose proof (begin_keeps_orderly now d d s Hs eq_refl E) as H.
      now destruct s.
    + unfold refreshData_begin in Hstep.
      destruct (loadData_begin page now (refresh_cleared page d))
        as [s|e] eqn:E; cbn [mbind res_bind] in Hstep; [| discriminate].
      injection Hstep as <-.
      exact (begin_keeps_orderly now d _ s Hs (refresh_cleared_log d) E).
    + destruct (timers d) as [|n]; [injection Hstep as <-; now left |].
      unfold refreshData_begin in Hstep.
      destruct (loadData_begin page now
                  (refresh_cleared page (set_timers n d)))
        as [s|e] eqn:E; cbn [mbind res_bind] in Hstep; [| discriminate].
      injection Hstep as <-.
      refine (begin_keeps_orderly now d _ s Hs _ E).
      now rewrite refresh_cleared_log.
    + destruct Hs as (Hin & Hrest). rewrite Hin in Hstep.
      injection Hstep as <-. left. now split.
  - unfold one_at_a_time in Hone. rewrite Hin in Hone.
    destruct ev as [now | now | now | now resp]; try discriminate Hone.
    cbn [step] in Hstep. rewrite Hin in Hstep.
    unfold refreshData_resume, loadData_resume in Hstep.
    unfold fetch_fails in Hone.
    destruct (receive page p now resp (set_inflight [] d)) as [d1|e d1] eqn:E;
      [| discriminate Hone].
    cbn [mbind res_bind] in Hstep. injection Hstep as <-.
    left. apply receive_log in E. unfold log in E.
    cbn [requests inflight set_inflight] in E. injection E as Hr Hi Ht.
    pose proof (renderDashboard_log d1) as Hl. unfold log in Hl.
    injection Hl as Hr' Hi' Ht'.
    unfold settled_log. rewrite Hr', Hi', Ht', Hr, Hi, Ht, Hreq.
    split; [reflexivity |]. split; [now rewrite <- Hreq |].
    now intros t rest' [= <- _].
Qed.

End RequestLog.

(** X12.  Used one request at a time, the page keeps its requests at least
    5000 ms apart.  Start with no request under way and the recorded time
    that of the latest request (as on a new instance); let loads,
    refreshes and timer callbacks come only while nothing is under way, and
    let every request be answered with a response the page accepts.  Then
    the run never raises, at most one request is ever under way, and any
    two consecutive requests of the log are at least 5000 ms apart. *)
Theorem requests_stay_spaced (page : Page) (evs : list Event)
    (d : Dashboard) :
  orderly d ->
  disciplined page evs d = true ->
  exists d',
    run page evs d = Ok d'
    /\ orderly d'
    /\ spaced (requests d')
    /\ (length (inflight d') <= 1)%nat.
Proof.
  revert d. induction evs as [|ev evs IH]; intros d Hord Hdisc.
  - exists d. split; [reflexivity |]. split; [exact Hord |].
    destruct Hord as [(Hin & Hsp & _) | (p & rest & Hin & _ & Hsp)];
      rewrite Hin; split; trivial; cbn; lia.
  - cbn [disciplined] in Hdisc. apply andb_true_iff in Hdisc as [Hone Hrest].
    destruct (step page ev d) as [d1|e] eqn:E; [| discriminate Hrest].
    destruct (IH d1 (step_keeps_orderly page ev d d1 Hord Hone E) Hrest)
      as (d' & Hrun & Hres).
    exists d'. split; [| exact Hres].
    cbn [run]. rewrite E. exact Hrun.
Qed.

Lemma requests_stay_spaced_witness :
  exists d',
    run Bootstrap
      [Refresh 100000; Settle 100200 (Body busy_response);
       Refresh 101000; Timer 101004;
       Refresh 170000; Settle 170300 (Body bare_response);
       Refresh 171000]
      (fresh_instance "5" ∅ false false) = Ok d'
    /\ orderly d'
    /\ spaced (requests d')
    /\ (length (inflight d') <= 1)%nat.
Proof.
  apply (requests_stay_spaced Bootstrap).
  - left. split; [reflexivity |]. split; [exact I | discriminate].
  - vm_compute. reflexivity.
Defined.

Example requests_of_orderly_session :
  requests
    <$> run Bootstrap
          [Refresh 100000; Settle 100200 (Body busy_response);
           Refresh 101000; Timer 101004;
           Refresh 170000; Settle 170300 (Body bare_response);
           Refresh 171000]
          (fresh_instance "5" ∅ false false)
  = Ok [170000; 100000].
Proof. vm_compute. reflexivity. Qed.

(** ** Rendering what normalisation let through *)

Example rows_of_odd_items :
  V1.row (JObj [("error_analysis", JObj [("severity", JStr "CRITICAL")])])
  = Ok (V1.DataRow "bg-danger" "严重")
  /\ V1.row (JObj [("message", JObj [("toString", JNum 1)])]) = Ok V1.AnomalyRow
  /\ V1.row (JNum 7) = Ok (V1.DataRow "bg-secondary" "未知")
  /\ V1.row JNull = Throw "TypeError"
  /\ V1.row (JObj [("timestamp", JObj [("toString", JNum 1)])])
     = Throw "TypeError"
  /\ Tailwind.row JNull = Throw "TypeError"
  /\ Tailwind.row (JObj [("message", JObj [("toString", JNum 1)])])
     = Throw "TypeError"
  /\ Tailwind.row (JObj [("message", JStr "disk full")]) = Ok tt.
Proof. repeat split; vm_compute; reflexivity. Qed.

Section Rows.

Lemma prop_defined (v : JsVal) (k : string) :
  nullish v = false -> prop v k = Ok (field v k).
Proof. now destruct v. Qed.

Lemma raises_truthy (v : JsVal) :
  to_primitive_raises v = true -> truthy v = true.
Proof. now destruct v. Qed.

Lemma interpolate_time_formatTime (label : string) (v : JsVal) :
  interpolate_time (formatTime label v) = interpolate v.
Proof.
  unfold formatTime, interpolate.
  destruct (to_primitive_raises v) eqn:R.
  - rewrite (raises_truthy v R). cbn. unfold interpolate. now rewrite R.
  - now destruct (truthy v).
Qed.

Lemma interpolate_js_or (v dflt : JsVal) :
  to_primitive_raises dflt = false ->
  interpolate (js_or v dflt) = interpolate v.
Proof.
  intros H. unfold js_or, interpolate.
  destruct (truthy v) eqn:T; [reflexivity |].
  rewrite H. destruct (to_primitive_raises v) eqn:R; [| reflexivity].
  apply raises_truthy in R. congruence.
Qed.

Lemma truncateMessage_raises (message : JsVal) (maxLength : Z) :
  match truncateMessage message maxLength with
  | Throw _ => true
  | Ok _ => false
  end = overlong message maxLength.
Proof.
  unfold truncateMessage, overlong.
  destruct message as [ | | b | n | s | xs | fs]; cbn [truthy negb js_length];
    try reflexivity.
  - now destruct b.
  - now destruct (n =? 0).
  - rewrite js_gt_number. cbn [mbind res_bind].
    destruct (negb (s =? "")%string); [| reflexivity].
    now destruct (maxLength <? Z.of_nat (code_units s)).
  - rewrite js_gt_number. cbn [mbind res_bind].
    now destruct (maxLength <? Z.of_nat (length xs)).
  - destruct (js_gt (assoc "length" fs) maxLength) as [[|]|e]; reflexivity.
Qed.

Lemma truncateMessage_printable (message shown : JsVal) (maxLength : Z) :
  truncateMessage message maxLength = Ok shown ->
  to_primitive_raises message = false ->
  to_primitive_raises shown = false.
Proof.
  unfold truncateMessage. intros E R.
  destruct (negb (truthy message)); [now injection E as <- |].
  destruct (js_gt (js_length message) maxLength) as [[|]|e];
    cbn [mbind res_bind negb] in E; try discriminate.
  - destruct message; try discriminate. now injection E as <-.
  - now injection E as <-.
Qed.

Lemma build_rows_raises {A : Type} (row : JsVal -> res A) (items : list JsVal) :
  match build_rows row items with
  | Throw _ => true
  | Ok _ => false
  end
  = existsb (fun x => match row x with
                      | Throw _ => true
                      | Ok _ => false
                      end) items.
Proof.
  induction items as [|x items IH]; [reflexivity |].
  cbn [build_rows existsb]. destruct (row x); cbn [mbind res_bind orb];
    [| reflexivity].
  rewrite <- IH. now destruct (build_rows row items).
Qed.

Lemma V1_row_try_raises (item : JsVal) :
  nullish item = false ->
  to_primitive_raises (field item "timestamp") = true ->
  exists e, V1.row_try item = Throw e.
Proof.
  intros N T. unfold V1.row_try.
  rewrite !prop_defined by exact N. cbn [mbind res_bind].
  destruct (V1.getSeverityLabel _); [| eauto]. cbn [mbind res_bind].
  destruct (V1.getSeverityBadgeClass _); [| eauto]. cbn [mbind res_bind].
  rewrite interpolate_time_formatTime.
  assert (I : interpolate (field item "timestamp") = Throw "TypeError")
    by (unfold interpolate; now rewrite T).
  rewrite I. cbn [mbind res_bind]. eauto.
Qed.

Lemma V1_row_raises (item : JsVal) :
  match V1.row item with
  | Throw _ => true
  | Ok _ => false
  end = row_raises Bootstrap item.
Proof.
  unfold row_raises. rewrite !orb_false_r.
  destruct (nullish item) eqn:N.
  - now destruct item.
  - cbn [orb]. unfold V1.row, V1.row_catch, try_catch.
    rewrite prop_defined by exact N. cbn [mbind res_bind].
    rewrite interpolate_time_formatTime, interpolate_js_or by reflexivity.
    unfold interpolate.
    destruct (to_primitive_raises (field item "timestamp")) eqn:T.
    + destruct (V1_row_try_raises item N T) as [e ->]. reflexivity.
    + now destruct (V1.row_try item).
Qed.

Lemma Tailwind_row_raises (item : JsVal) :
  match Tailwind.row item with
  | Throw _ => true
  | Ok _ => false
  end = row_raises TailwindCss item.
Proof.
  unfold row_raises.
  destruct (nullish item) eqn:N.
  - now destruct item.
  - cbn [orb]. unfold Tailwind.row, Tailwind.getSeverityBadgeClass,
      Tailwind.getSeverityLabel, Tailwind.escapeHtml.
    rewrite !prop_defined by exact N. cbn [mbind res_bind].
    rewrite interpolate_time_formatTime, interpolate_js_or by reflexivity.
    rewrite <- truncateMessage_raises.
    assert (Esc : (if negb (truthy (field item "message")) then Ok tt
                   else interpolate (field item "message"))
                  = interpolate (field item "message")).
    { unfold interpolate.
      destruct (to_primitive_raises (field item "message")) eqn:R.
      - now rewrite (raises_truthy _ R).
      - now destruct (truthy (field item "message")). }
    rewrite Esc. unfold interpolate.
    destruct (to_primitive_raises (field item "timestamp"));
      cbn [mbind res_bind orb]; [reflexivity |].
    destruct (to_primitive_raises (field item "level"));
      cbn [mbind res_bind orb]; [reflexivity |].
    destruct (to_primitive_raises (field item "instance"));
      cbn [mbind res_bind orb]; [reflexivity |].
    destruct (to_primitive_raises (field item "message")) eqn:R;
      cbn [mbind res_bind orb]; [reflexivity |].
    destruct (truncateMessage (field item "message") 80) as [shown|e] eqn:E;
      cbn [mbind res_bind]; [| reflexivity].
    now rewrite (truncateMessage_printable _ _ _ E R).
Qed.

Lemma existsb_same {A : Type} (f g : A -> bool) (l : list A) :
  (forall x, f x = g x) -> existsb f l = existsb g l.
Proof.
  intros H. induction l as [|x l IH]; [reflexivity |].
  cbn [existsb]. now rewrite H, IH.
Qed.

Lemma table_or_raised (page : Page) (items : list JsVal) :
  match page with
  | Bootstrap =>
      match build_rows V1.row items with
      | Ok _ => TableOf items
      | Throw _ => Raised
      end
  | TailwindCss =>
      match build_rows Tailwind.row (firstn 10 items) with
      | Ok _ => TableOf (firstn 10 items)
      | Throw _ => Raised
      end
  end
  = if existsb (row_raises page) (shown_errors page items) then Raised
    else TableOf (shown_errors page items).
Proof.
  destruct page; cbn [shown_errors].
  - rewrite <- (existsb_same _ _ _ V1_row_raises), <- build_rows_raises.
    now destruct (build_rows V1.row items).
  - rewrite <- (existsb_same _ _ _ Tailwind_row_raises), <- build_rows_raises.
    now destruct (build_rows Tailwind.row (firstn 10 items)).
Qed.

End Rows.

(** X13.  Normalisation fills in what is missing but does not check types,
    and the recent-errors panel depends on the type.  For a response whose
    [recent_errors] is truthy: anything but an array that is not of length
    0 (a text, a number, [true], an object) makes [renderRecentErrors]
    raise a TypeError on both pages; a non-empty array is shown as a
    table, of all items on the Bootstrap page and of the first ten on the
    Tailwind page, unless the row of one of these items raises.  On the
    Bootstrap page that is an item [null] or one whose timestamp cannot be
    converted to a string; on the Tailwind page also one whose level,
    instance or message cannot be converted, or whose message is an array
    or array-like object longer than 80. *)
Theorem render_after_normalize (page : Page) (raw : JsVal) (d : Dashboard) :
  truthy (field raw "recent_errors") = true ->
  renderRecentErrors page true (set_data (normalize raw) d)
  = match field raw "recent_errors" with
    | JArr [] => EmptyState (empty_errors_message page)
    | JArr xs =>
        if existsb (row_raises page) (shown_errors page xs) then Raised
        else TableOf (shown_errors page xs)
    | other => if length_is_zero other
               then EmptyState (empty_errors_message page)
               else Raised
    end.
Proof.
  intros Ht.
  assert (E : field (normalize raw) "recent_errors" = field raw "recent_errors")
    by (cbn; unfold js_or; now rewrite Ht).
  destruct page; unfold renderRecentErrors, V1.renderRecentErrors,
    Tailwind.renderRecentErrors; cbn [negb orb data set_data].
  - change (truthy (normalize raw)) with true. cbn [negb]. rewrite E.
    unfold js_or. rewrite Ht.
    destruct (field raw "recent_errors") as [ | | b | n | s | [|x xs] | fs];
      try reflexivity.
    cbn [length_is_zero length Nat.eqb].
    exact (table_or_raised Bootstrap (x :: xs)).
  - change (prop (normalize raw) "recent_errors")
      with (Ok (field (normalize raw) "recent_errors")).
    rewrite E. unfold js_or. rewrite Ht.
    destruct (field raw "recent_errors") as [ | | b | n | s | [|x xs] | fs];
      try reflexivity.
    cbn [length_is_zero length Nat.eqb].
    exact (table_or_raised TailwindCss (x :: xs)).
Qed.

Lemma render_after_normalize_witness :
  renderRecentErrors TailwindCss true
    (set_data (normalize (JObj [("recent_errors", JStr "none")]))
       (fresh_instance "1" ∅ false false))
  = Raised.
Proof.
  exact (render_after_normalize TailwindCss
           (JObj [("recent_errors", JStr "none")])
           (fresh_instance "1" ∅ false false) eq_refl).
Defined.

(** A [null] among the recent errors stops the table on both pages; an
    item whose message cannot be printed gets the row for odd data on the
    Bootstrap page and stops the table on the Tailwind page. *)
Example render_odd_items :
  renderRecentErrors Bootstrap true
    (set_data (normalize (JObj [("recent_errors", JArr [JNull])]))
       (fresh_instance "1" ∅ false false)) = Raised
  /\ renderRecentErrors TailwindCss true
       (set_data (normalize (JObj [("recent_errors", JArr [JNull])]))
          (fresh_instance "1" ∅ false false)) = Raised
  /\ renderRecentErrors Bootstrap true
       (set_data
          (normalize
             (JObj [("recent_errors",
                     JArr [JObj [("message", JObj [("toString", JNum 1)])]])]))
          (fresh_instance "1" ∅ false false))
     = TableOf [JObj [("message", JObj [("toString", JNum 1)])]]
  /\ renderRecentErrors TailwindCss true
       (set_data
          (normalize
             (JObj [("recent_errors",
                     JArr [JObj [("message", JObj [("toString", JNum 1)])]])]))
          (fresh_instance "1" ∅ false false))
     = Raised.
Proof. repeat split; vm_compute; reflexivity. Qed.

(** ** The order of the type distribution *)

Section TypeDistribution.

Lemma insert_by_count_perm (x : string * Z) (l : list (string * Z)) :
  Permutation (insert_by_count x l) (x :: l).
Proof.
  induction l as [|y l IH]; cbn [insert_by_count]; [reflexivity |].
  destruct (snd y <=? snd x); [reflexivity |].
  rewrite IH. apply perm_swap.
Qed.

Lemma sort_by_count_perm (l : list (string * Z)) :
  Permutation (sort_by_count l) l.
Proof.
  induction l as [|x l IH]; cbn [sort_by_count fold_right]; [reflexivity |].
  fold (sort_by_count l). rewrite insert_by_count_perm. now rewrite IH.
Qed.

Lemma insert_by_count_sorted (x : string * Z) (l : list (string * Z)) :
  StronglySorted more_frequent l ->
  StronglySorted more_frequent (insert_by_count x l).
Proof.
  induction 1 as [|y l Hl IH Hy]; cbn [insert_by_count].
  - repeat constructor.
  - destruct (Z.leb_spec (snd y) (snd x)) as [Hle | Hgt].
    + constructor; [now constructor |].
      constructor; [exact Hle |].
      rewrite List.Forall_forall in *. intros z Hz.
      unfold more_frequent in *. specialize (Hy z Hz). lia.
    + constructor; [exact IH |].
      rewrite List.Forall_forall in *. intros z Hz.
      apply (Permutation_in _ (insert_by_count_perm x l)) in Hz.
      destruct Hz as [<- | Hz]; [unfold more_frequent; lia | now apply Hy].
Qed.

Lemma sort_by_count_sorted (l : list (string * Z)) :
  StronglySorted more_frequent (sort_by_count l).
Proof.
  induction l as [|x l IH]; cbn [sort_by_count fold_right]; [constructor |].
  now apply insert_by_count_sorted.
Qed.

Lemma insert_by_count_stable (c : Z) (x : string * Z)
    (l : list (string * Z)) :
  List.filter (fun kv => snd kv =? c) (insert_by_count x l)
  = List.filter (fun kv => snd kv =? c) (x :: l).
Proof.
  induction l as [|y l IH]; cbn [insert_by_count]; [reflexivity |].
  destruct (Z.leb_spec (snd y) (snd x)) as [Hle | Hgt]; [reflexivity |].
  cbn [List.filter] in *. rewrite IH.
  destruct (Z.eqb_spec (snd x) c) as [Hx | Hx];
    destruct (Z.eqb_spec (snd y) c) as [Hy | Hy]; try reflexivity; lia.
Qed.

Lemma sort_by_count_stable (c : Z) (l : list (string * Z)) :
  List.filter (fun kv => snd kv =? c) (sort_by_count l)
  = List.filter (fun kv => snd kv =? c) l.
Proof.
  induction l as [|x l IH]; cbn [sort_by_count fold_right]; [reflexivity |].
  fold (sort_by_count l). rewrite insert_by_count_stable.
  cbn [List.filter]. now rewrite IH.
Qed.

Lemma filter_all {A : Type} (f : A -> bool) (l : list A) :
  (forall x, List.In x l -> f x = true) -> List.filter f l = l.
Proof.
  induction l as [|x l IH]; intros H; [reflexivity |].
  cbn [List.filter]. rewrite (H x (or_introl eq_refl)), IH; [reflexivity |].
  intros y Hy. apply H. now right.
Qed.

Lemma first_occurrences_distinct (fs : list (string * JsVal)) :
  List.NoDup (map fst fs) -> first_occurrences fs = fs.
Proof.
  induction fs as [|[k v] fs IH]; intros N; [reflexivity |].
  inversion N as [|k' ks Hk Hks]; subst.
  cbn [first_occurrences]. rewrite (IH Hks). f_equal.
  apply filter_all. intros [k' v'] Hin. cbn [fst].
  apply negb_true_iff, String.eqb_neq. intros ->.
  apply Hk. change k with (fst (k, v')). now apply List.in_map.
Qed.

(** Where no key is an array index and no key comes twice, the entries
    are in the order of the response. *)
Lemma own_entries_plain (fs : list (string * JsVal)) :
  List.Forall (fun kv => array_index (fst kv) = None) fs ->
  List.NoDup (map fst fs) ->
  own_entries fs = fs.
Proof.
  intros Hplain N. unfold own_entries.
  rewrite (first_occurrences_distinct fs N). cbv zeta.
  assert (I : indexed fs = []).
  { unfold indexed. clear N.
    induction Hplain as [|kv fs Hkv _ IH]; [reflexivity |].
    cbn [flat_map]. now rewrite Hkv, IH. }
  rewrite I. cbn [fold_right map app].
  apply filter_all. intros kv Hin.
  rewrite List.Forall_forall in Hplain. now rewrite (Hplain kv Hin).
Qed.

End TypeDistribution.

(** The keys that are array indices come first, in ascending order,
    whatever the response had first; a key that comes twice counts
    once. *)
Example own_entries_order :
  own_entries [("timeout", JNum 2); ("500", JNum 2); ("404", JNum 2);
               ("007", JNum 1); ("timeout", JNum 5)]
  = [("404", JNum 2); ("500", JNum 2); ("timeout", JNum 2); ("007", JNum 1)].
Proof. vm_compute. reflexivity. Qed.

(** X14.  The type distribution of the Bootstrap page lists every error
    type of the snapshot exactly once, by decreasing count; types with the
    same count keep the order in which [Object.entries] lists them: the
    keys that are array indices first, in ascending order, then the other
    keys in the order of the response, which is the order of all keys when
    none of them is an array index or comes twice.  (For a non-empty
    mapping whose counts are numbers.) *)
Theorem renderTypeDistribution_sorted (d : Dashboard)
    (fs : list (string * JsVal)) (entries : list (string * Z)) :
  truthy (data d) = true ->
  field (data d) "error_types" = JObj fs ->
  numeric_entries (own_entries fs) = Some entries ->
  entries <> [] ->
  (exists rows,
     renderTypeDistribution true d = Some (TypesTable rows)
     /\ Permutation rows entries
     /\ StronglySorted more_frequent rows
     /\ forall c, List.filter (fun kv => snd kv =? c) rows
                  = List.filter (fun kv => snd kv =? c) entries)
  /\ (List.Forall (fun kv => array_index (fst kv) = None) fs ->
      List.NoDup (map fst fs) ->
      numeric_entries fs = Some entries).
Proof.
  intros Ht Hf Hn Hne. split.
  - exists (sort_by_count entries). split.
    + unfold renderTypeDistribution. rewrite Ht, Hf.
      cbn [negb orb js_or truthy]. cbn [count_entries]. rewrite Hn.
      destruct (sort_by_count entries) as [|r rows] eqn:E; [| reflexivity].
      pose proof (sort_by_count_perm entries) as P. rewrite E in P.
      apply Permutation_nil in P. contradiction.
    + split; [apply sort_by_count_perm |].
      split; [apply sort_by_count_sorted |
              intros c; apply sort_by_count_stable].
  - intros Hplain N. now rewrite <- (own_entries_plain fs Hplain N).
Qed.

Lemma renderTypeDistribution_sorted_witness :
  renderTypeDistribution true
    (set_data
       (normalize
          (JObj [("error_types",
                  JObj [("timeout", JNum 2); ("500", JNum 2);
                        ("oom", JNum 7); ("404", JNum 2)])]))
       (fresh_instance "1" ∅ false false))
  = Some (TypesTable [("oom", 7); ("404", 2); ("500", 2); ("timeout", 2)]).
Proof.
  destruct (renderTypeDistribution_sorted
              (set_data
                 (normalize
                    (JObj [("error_types",
                            JObj [("timeout", JNum 2); ("500", JNum 2);
                                  ("oom", JNum 7); ("404", JNum 2)])]))
                 (fresh_instance "1" ∅ false false))
              [("timeout", JNum 2); ("500", JNum 2);
               ("oom", JNum 7); ("404", JNum 2)]
              [("404", 2); ("500", 2); ("timeout", 2); ("oom", 7)]
              eq_refl eq_refl eq_refl)
    as ((rows & E & _) & _); [discriminate |].
  rewrite E. vm_compute in E. exact (eq_sym E).
Defined.

(** ** The auto-refresh timer *)

Section AutoRefreshTimer.

Import AutoRefresh.

Lemma stop_forgets (r : Refresher) :
  intervals r = remembered r ->
  intervals (stopAutoRefresh r) = ∅
  /\ autoRefreshInterval (stopAutoRefresh r) = None.
Proof.
  unfold stopAutoRefresh, remembered.
  destruct (autoRefreshInterval r) as [handle|] eqn:E; cbn.
  - intros ->. split; [set_solver | reflexivity].
  - intros ->. now rewrite E.
Qed.

Lemma act_keeps_remembered (a : Action) (r : Refresher) :
  intervals r = remembered r ->
  intervals (act a r) = remembered (act a r).
Proof.
  intros H. destruct (stop_forgets r H) as [Hi Hf].
  assert (Hstart : intervals (startAutoRefresh r)
                   = remembered (startAutoRefresh r)).
  { unfold startAutoRefresh, remembered. cbn. rewrite Hi. set_solver. }
  assert (Hstop : intervals (stopAutoRefresh r)
                  = remembered (stopAutoRefresh r)).
  { unfold remembered. now rewrite Hi, Hf. }
  destruct a as [ | [] | ]; assumption.
Qed.

Lemma session_keeps_remembered (actions : list Action) (r : Refresher) :
  intervals r = remembered r ->
  intervals (session actions r) = remembered (session actions r).
Proof.
  revert r. induction actions as [|a actions IH]; intros r H; [exact H |].
  apply IH. now apply act_keeps_remembered.
Qed.

End AutoRefreshTimer.

(** X15.  The Tailwind page never runs two auto-refresh timers.  Whatever
    sequence of [init], switch changes and page unloads an instance goes
    through, the intervals it has running are exactly the one handle kept
    in [autoRefreshInterval], or none when the field is [null]: at most
    one.  Stopping leaves none running, starting leaves exactly one. *)
Theorem auto_refresh_single_timer (actions : list AutoRefresh.Action)
    (handle : positive) :
  let r := AutoRefresh.session actions (AutoRefresh.constructed handle) in
  AutoRefresh.intervals r = AutoRefresh.remembered r
  /\ (size (AutoRefresh.intervals r) <= 1)%nat
  /\ AutoRefresh.intervals (AutoRefresh.stopAutoRefresh r) = ∅
  /\ size (AutoRefresh.intervals (AutoRefresh.startAutoRefresh r)) = 1%nat.
Proof.
  cbv zeta.
  set (r := AutoRefresh.session actions (AutoRefresh.constructed handle)).
  assert (H : AutoRefresh.intervals r = AutoRefresh.remembered r)
    by (apply session_keeps_remembered; reflexivity).
  destruct (stop_forgets r H) as [Hi _].
  split; [exact H |]. split; [| split; [exact Hi |]].
  - rewrite H. unfold AutoRefresh.remembered.
    destruct (AutoRefresh.autoRefreshInterval r).
    + now rewrite size_singleton.
    + rewrite size_empty. lia.
  - unfold AutoRefresh.startAutoRefresh. cbn. rewrite Hi.
    rewrite union_empty_r_L. apply size_singleton.
Qed.

(** ** Which responses a page accepts, and what a rejected one leaves *)

Section Acceptance.

Lemma for_each_raises (f : JsVal -> res unit) (g : JsVal -> bool)
    (l : list JsVal) :
  (forall x, f x = if g x then Throw "TypeError" else Ok tt) ->
  for_each f l = (if existsb g l then Throw "TypeError" else Ok tt).
Proof.
  intros H. induction l as [|x l IH]; [reflexivity |].
  cbn [for_each existsb]. rewrite H.
  destruct (g x); cbn [mbind res_bind orb]; [reflexivity | exact IH].
Qed.

Lemma print_entries_raises (f : JsVal -> res unit) (g : JsVal -> bool)
    (v : JsVal) :
  (forall x, f x = if g x then Throw "TypeError" else Ok tt) ->
  truthy v = true ->
  V1.print_entries f v
  = (if existsb g (values_of v) then Throw "TypeError" else Ok tt).
Proof.
  intros H T. unfold V1.print_entries. rewrite T. cbn [andb].
  destruct (values_of v) as [|x l] eqn:E; [reflexivity |].
  cbn [length Nat.eqb negb]. now apply for_each_raises.
Qed.

Lemma count_line_raises (info : JsVal) :
  (count ← prop info "count"; interpolate count)
  = (if nullish info || to_primitive_raises (field info "count")
     then Throw "TypeError" else Ok tt).
Proof. now destruct info. Qed.

Lemma printCleaningSummary_normalized (v : JsVal) (d : Dashboard) :
  V1.printCleaningSummary (set_data (normalize v) d)
  = (if summary_raises v then Throw "TypeError" else Ok tt).
Proof.
  unfold V1.printCleaningSummary, summary_raises. cbn [data set_data].
  change (truthy (normalize v)) with true.
  change (field (normalize v) "cleaning_summary")
    with (js_or (field v "cleaning_summary") (JObj [])).
  change (field (normalize v) "business_modules")
    with (js_or (field v "business_modules") (JObj [])).
  change (field (normalize v) "error_categories")
    with (js_or (field v "error_categories") (JObj [])).
  change (field (normalize v) "severity_distribution")
    with (js_or (field v "severity_distribution") (JObj [])).
  change (field (normalize v) "processing_status")
    with (js_or (field v "processing_status") (JStr "unknown")).
  assert (T : forall a, truthy (js_or a (JObj [])) = true)
    by (intros a; unfold js_or; now destruct (truthy a) eqn:E).
  rewrite T. cbn [andb]. rewrite js_or_absorb.
  rewrite !interpolate_js_or by reflexivity.
  rewrite (print_entries_raises _ _ _ count_line_raises (T _)).
  rewrite !(print_entries_raises interpolate to_primitive_raises)
    by (try apply T; reflexivity).
  unfold interpolate. cbn [existsb].
  repeat match goal with
         | |- context [to_primitive_raises (field ?x ?k)] =>
             destruct (to_primitive_raises (field x k));
             cbn [mbind res_bind orb]; [reflexivity |]
         end.
  repeat match goal with
         | |- context [existsb ?g (values_of ?x)] =>
             destruct (existsb g (values_of x));
             cbn [mbind res_bind orb]; [reflexivity |]
         end.
  reflexivity.
Qed.

Lemma receive_thrown_untouched (page : Page) (p : Pending) (now : Z)
    (resp : Response) (d d0 : Dashboard) (e : string) :
  receive page p now resp d = Thrown e d0 ->
  cache d0 = cache d /\ localStorage d0 = localStorage d
  /\ lastRequestTime d0 = lastRequestTime d /\ requests d0 = requests d.
Proof.
  unfold receive, V1.receive, Tailwind.receive.
  destruct page, resp;
    try (intros [= <- <-]; now repeat split);
    try (destruct (negb (truthy v) || negb (typeof_object v));
         [intros [= <- <-]; now repeat split |]);
    try match goal with |- context [V1.printCleaningSummary ?x] =>
          destruct (V1.printCleaningSummary x);
          [| intros [= <- <-]; now repeat split] end;
    match goal with |- context [setLocalCachedData ?n ?k ?v ?x] =>
      destruct (local_set_total x k v n) as (d' & E & _)
    end;
    rewrite E; discriminate.
Qed.

End Acceptance.

(** X16.  The Tailwind page accepts every 2xx response, whatever its body.
    The Bootstrap page rejects a 2xx response exactly when its body is
    falsy, is not an object, or [printCleaningSummary] raises on it: one of
    the values it prints (six fields of [cleaning_summary], the processing
    status, the [count] of every business module, every value of
    [error_categories] and [severity_distribution]) cannot be converted to
    a string, or a value of [business_modules] is [null] or [undefined].
    A rejected response is treated like a failed request. *)
Theorem accepted_responses (p : Pending) (now : Z) (v : JsVal)
    (d : Dashboard) :
  fetch_fails TailwindCss p now (Body v) d = false
  /\ fetch_fails Bootstrap p now (Body v) d
     = negb (truthy v) || negb (typeof_object v) || summary_raises v.
Proof.
  unfold fetch_fails, receive, Tailwind.receive, V1.receive. split.
  - match goal with |- context [setLocalCachedData ?n ?k ?w ?x] =>
      destruct (local_set_total x k w n) as (d' & E & _)
    end.
    now rewrite E.
  - destruct (negb (truthy v) || negb (typeof_object v)); [reflexivity |].
    cbn [orb data set_data]. rewrite printCleaningSummary_normalized.
    destruct (summary_raises v); [reflexivity |].
    match goal with |- context [setLocalCachedData ?n ?k ?w ?x] =>
      destruct (local_set_total x k w n) as (d' & E & _)
    end.
    now rewrite E.
Qed.

(** A response one of whose printed values has a [toString] of its own is
    rejected on the Bootstrap page and accepted on the Tailwind page. *)
Example unprintable_summary_rejected :
  let body := JObj [("cleaning_summary",
                     JObj [("raw_logs_count",
                            JObj [("toString", JStr "n/a")])])] in
  let p := {| p_now := 100000; p_key := "log_analysis_5" |} in
  fetch_fails Bootstrap p 100200 (Body body)
    (fresh_instance "5" ∅ false false) = true
  /\ fetch_fails TailwindCss p 100200 (Body body)
       (fresh_instance "5" ∅ false false) = false.
Proof. split; vm_compute; reflexivity. Qed.

(** X17.  A failed request changes nothing the next load goes by: the
    in-memory cache, the items of [localStorage], the recorded fetch time
    and the log of requests are as before the response.  In particular a
    failure is not rate limited: the time of the failed request is not
    recorded. *)
Theorem failed_request_leaves_caches (page : Page) (p : Pending) (now : Z)
    (resp : Response) (d d' : Dashboard) :
  fetch_fails page p now resp d = true ->
  loadData_resume page p now resp d = Ok d' ->
  cache d' = cache d
  /\ localStorage d' = localStorage d
  /\ lastRequestTime d' = lastRequestTime d
  /\ requests d' = requests d.
Proof.
  unfold fetch_fails, loadData_resume, loadData_catch.
  destruct (receive page p now resp d) as [d1 | e d0] eqn:R; [discriminate |].
  intros _.
  destruct (receive_thrown_untouched page p now resp d d0 e R)
    as (Hc & Hs & Ht & Hr).
  destruct (getLocalCachedData page now (getCacheKey page d0) true d0)
    as [fallback|e']; cbn [mbind res_bind]; [| discriminate].
  intros [= <-].
  destruct (truthy fallback); [now repeat split |].
  destruct page; now repeat split.
Qed.

Lemma failed_request_leaves_caches_witness :
  exists d',
    loadData_resume Bootstrap {| p_now := 170000; p_key := "log_analysis_5" |}
      170300 (HttpError "503: Service Unavailable") loaded_page = Ok d'
    /\ cache d' = cache loaded_page
    /\ localStorage d' = localStorage loaded_page
    /\ lastRequestTime d' = 100000
    /\ requests d' = [100000].
Proof.
  destruct (loadData_resume_total Bootstrap
              {| p_now := 170000; p_key := "log_analysis_5" |} 170300
              (HttpError "503: Service Unavailable") loaded_page)
    as (d' & E).
  exists d'. split; [exact E |].
  exact (failed_request_leaves_caches Bootstrap
           {| p_now := 170000; p_key := "log_analysis_5" |} 170300
           (HttpError "503: Service Unavailable") loaded_page d' eq_refl E).
Defined.

(** X18.  A response is filed under the key it was requested for.  After
    an accepted response both caches hold the normalised body under the
    key captured when the request was sent, even if the selected range has
    changed since; lookups of every other key, in memory and in
    [localStorage], give what they gave before. *)
Theorem response_filed_under_its_key (page : Page) (p : Pending)
    (later now : Z) (v : JsVal) (d d1 : Dashboard) (key : string)
    (allowStale : bool) :
  receive page p later (Body v) d = Returned d1 ->
  key <> p_key p ->
  getCachedData now (p_key p) d1
  = (if now - later <? cacheTimeout then normalize v else JNull)
  /\ getCachedData now key d1 = getCachedData now key d
  /\ getLocalCachedData page now key allowStale d1
     = getLocalCachedData page now key allowStale d.
Proof.
  intros Hrec Hne.
  destruct (receive_returned page p later v d d1 Hrec)
    as (_ & Hc & _ & _ & d0 & Hset & Hs0 & _ & Hr0).
  unfold getCachedData. rewrite Hc, lookup_insert_eq.
  rewrite lookup_insert_ne by congruence. cbn [ce_timestamp ce_data].
  repeat split.
  rewrite (local_get_other_key page d0 d1 (p_key p) key (normalize v) later
             now allowStale Hne Hset).
  now apply local_get_frame.
Qed.

Lemma response_filed_under_its_key_witness :
  getCachedData 100300 "log_analysis_5" loaded_page_unrendered
  = normalize busy_response
  /\ getCachedData 100300 "log_analysis_10" loaded_page_unrendered = JNull.
Proof.
  assert (H : receive Bootstrap {| p_now := 100000; p_key := "log_analysis_5" |}
                100200 (Body busy_response)
                (select_range "10"
                   (set_requests [100000] (fresh_instance "5" ∅ false false)))
              = Returned (select_range "10" loaded_page_unrendered))
    by (vm_compute; reflexivity).
  assert (Hne : "log_analysis_10" <> "log_analysis_5") by discriminate.
  destruct (response_filed_under_its_key Bootstrap _ 100200 100300
              busy_response _ _ "log_analysis_10" false H Hne)
    as (E1 & E2 & _).
  split; [exact E1 | exact E2].
Defined.
